(** * terraform-aws-asg-dns-handler: the autoscale lambda

    A shallow embedding of [src/lambda/autoscale/autoscale.py].  The
    handler talks to three AWS services (autoscaling, EC2, Route53); the
    embedding threads an explicit state through every call and records
    the calls, the log lines and the exceptions the Python code can
    observe. *)

From Stdlib Require Import ZArith String Ascii List.
From stdpp Require Import base option gmap sets list strings.

Local Open Scope string_scope.
Local Open Scope Z_scope.
Local Open Scope list_scope.

(** ** Python string helpers *)

Module PyStr.

(** The first occurrence of [sep] cuts the string in two. *)
Fixpoint split_first (sep : ascii) (s : string) : option (string * string) :=
  match s with
  | EmptyString => None
  | String c r =>
      if Ascii.eqb c sep then Some (EmptyString, r)
      else match split_first sep r with
           | Some (a, b) => Some (String c a, b)
           | None => None
           end
  end.

(** [s.split(sep, 1)]: at most one cut; never the empty list. *)
Definition split1 (sep : ascii) (s : string) : list string :=
  match split_first sep s with
  | Some (a, b) => [a; b]
  | None => [s]
  end.

(** [s.rstrip(c)] for a one-character [c]. *)
Fixpoint rstrip (c : ascii) (s : string) : string :=
  match s with
  | EmptyString => EmptyString
  | String a r =>
      match rstrip c r with
      | EmptyString => if Ascii.eqb a c then EmptyString else String a EmptyString
      | r' => String a r'
      end
  end.

(** Number of occurrences of a character. *)
Fixpoint count (c : ascii) (s : string) : nat :=
  match s with
  | EmptyString => O
  | String a r => ((if Ascii.eqb a c then 1 else 0) + count c r)%nat
  end.

Fixpoint ends_with (c : ascii) (s : string) : bool :=
  match s with
  | EmptyString => false
  | String a EmptyString => Ascii.eqb a c
  | String _ r => ends_with c r
  end.

End PyStr.

(** ** Module constants (lines 17-27) *)

Definition HOSTNAME_TAG_NAME : string := "asg:hostname".
Definition TERMINATING_TAG_NAME : string := "asg:terminating".
Definition TERMINATING_TAG_VALUE : string := "true".
Definition MODE_TAG_NAME : string := "asg:hostname_mode".
Definition MODE_SINGLE : string := "single".
Definition MODE_MULTI : string := "multi".
Definition MODE_DEFAULT : string := MODE_MULTI.
Definition MODES_VALID : list string := [MODE_SINGLE; MODE_MULTI].

Definition LIFECYCLE_KEY : string := "LifecycleHookName".
Definition ASG_KEY : string := "AutoScalingGroupName".

Definition LAUNCHING : string := "autoscaling:EC2_INSTANCE_LAUNCHING".
Definition TERMINATING : string := "autoscaling:EC2_INSTANCE_TERMINATING".
Definition LAUNCH_ERROR : string := "autoscaling:EC2_INSTANCE_LAUNCH_ERROR".

(** ** Data *)

(** The exceptions the handler can see: a botocore [ClientError] with
    its error code, a dictionary [KeyError], anything else. *)
Inductive exn : Type :=
| ClientError (code : string)
| KeyError (key : string)
| OtherError (what : string).

Inductive res (A : Type) : Type :=
| Ok (a : A)
| Raise (e : exn).
Arguments Ok {A} a.
Arguments Raise {A} e.

Inductive Level : Type := DEBUG | INFO | WARNING | ERROR.

(** [logger.setLevel(logging.INFO)] (line 11). *)
Definition enabled (l : Level) : bool :=
  match l with DEBUG => false | _ => true end.

(** One tag of an autoscaling group, as [describe_tags] lists it. *)
Record TagDescription : Type := mkTag {
  ResourceId : string;
  Key : string;
  Value : string
}.

(** One EC2 instance, as [describe_instances] lists it. *)
Record Instance : Type := mkInstance {
  InstanceId : string;
  StateName : string;
  PrivateIpAddress : option string;
  PublicIpAddress : option string;
  Ipv6Address : option string;
  Tags : list (string * string)
}.

(** One record set of a [list_resource_record_sets] response. *)
Record RRSet : Type := mkRRSet {
  Name : string;
  Type_ : string;
  ResourceRecords : list string
}.

(** A parsed SNS message: a JSON object with string fields. *)
Abbreviation Message := (gmap string string).

(** A hosted zone: record sets by (fully qualified name, type), each
    with its TTL and its values. *)
Abbreviation Zone := (gmap (string * string) (Z * gset string)).

(** Every call the handler makes to an AWS client. *)
Inductive Call : Type :=
| DescribeTags (asg_name : string)
| DescribeInstancesOfGroup (asg_name : string)
| DescribeInstancesById (instance_id : string)
| CreateTags (instance_id key value : string)
| ListResourceRecordSets (zone_id name record_type : string)
| ChangeResourceRecordSets (zone_id action name record_type : string)
    (ttl : Z) (values : gset string)
| CompleteLifecycleAction (hook asg_name instance_id token : string).

(** What the handler can change or observe: the fleet (pages of
    reservations of instances), the hosted zones, and two histories,
    most recent first: the client calls made and the lines logged. *)
Record State : Type := mkState {
  fleet : list (list (list Instance));
  zones : gmap string Zone;
  calls : list Call;
  log : list (Level * string)
}.

(** What stays fixed during one invocation: the two environment
    settings (lines 29-30), the tags of the autoscaling groups, and
    the faults of the services: [faults h c] is the exception, if any,
    with which call [c] fails after the calls [h]. *)
Record Env : Type := mkEnv {
  USE_PUBLIC_IP : bool;
  ROUTE53_TTL : Z;
  asg_tag_pages : list (list TagDescription);
  faults : list Call -> Call -> option exn
}.

Definition set_fleet (f : list (list (list Instance))) (s : State) : State :=
  mkState f (zones s) (calls s) (log s).
Definition set_zones (z : gmap string Zone) (s : State) : State :=
  mkState (fleet s) z (calls s) (log s).
Definition add_call (c : Call) (s : State) : State :=
  mkState (fleet s) (zones s) (c :: calls s) (log s).
Definition add_log (l : Level) (msg : string) (s : State) : State :=
  mkState (fleet s) (zones s) (calls s) ((l, msg) :: log s).

(** ** The monad: state and exceptions *)

Definition M (A : Type) : Type := State -> res A * State.

#[export] Instance M_ret : MRet M := fun A a s => (Ok a, s).
#[export] Instance M_bind : MBind M := fun A B k m s =>
  match m s with
  | (Ok a, s') => k a s'
  | (Raise e, s') => (Raise e, s')
  end.

Definition raise {A : Type} (e : exn) : M A := fun s => (Raise e, s).

(** [try: m except e: h e]. *)
Definition try_except {A : Type} (m : M A) (h : exn -> M A) : M A := fun s =>
  match m s with
  | (Ok a, s') => (Ok a, s')
  | (Raise e, s') => h e s'
  end.

Definition logmsg (l : Level) (msg : string) : M unit := fun s =>
  (Ok tt, if enabled l then add_log l msg s else s).

(** [d[k]]. *)
Definition getitem (d : Message) (k : string) : M string :=
  match d !! k with
  | Some v => mret v
  | None => raise (KeyError k)
  end.

(** [for x in l: body x]. *)
Fixpoint for_each {A : Type} (l : list A) (body : A -> M unit) : M unit :=
  match l with
  | [] => mret tt
  | x :: r => body x;; for_each r body
  end.

(** A loop that updates a local variable. *)
Fixpoint foldM {A B : Type} (body : B -> A -> M B) (acc : B) (l : list A) : M B :=
  match l with
  | [] => mret acc
  | x :: r => acc' ← body acc x; foldM body acc' r
  end.

(** ** The services

    The three services are outside the repository.  They are modelled
    by what the handler relies on: the filters it passes are applied by
    the service, EC2 rejects an unknown instance id, and Route53 keeps
    one record set per (fully qualified name, type), replaces it on
    UPSERT and deletes it only when the submitted TTL and values are
    the live ones (an invalid change batch otherwise). *)

Module Service.

(** Route53 stores names fully qualified. *)
Definition fqdn (name : string) : string :=
  if PyStr.ends_with "." name then name else name +:+ ".".

Definition key_ltb (a b : string * string) : bool :=
  match String.compare a.1 b.1 with
  | Lt => true
  | Eq => String.ltb a.2 b.2
  | Gt => false
  end.

(** The first record set strictly after [start] in listing order. *)
Definition next_after (start : string * string) (z : Zone)
  : option (string * string * (Z * gset string)) :=
  foldr (fun kv best =>
           if key_ltb start kv.1 then
             match best with
             | Some b => if key_ltb kv.1 b.1 then Some kv else best
             | None => Some kv
             end
           else best) None (map_to_list z).

Definition to_rrset (kv : string * string * (Z * gset string)) : RRSet :=
  mkRRSet kv.1.1 kv.1.2 (elements kv.2.2).

(** Listing from a starting point with [MaxItems = 1]: the record set
    asked for when it exists, otherwise whatever comes next. *)
Definition list_from (start : string * string) (z : Zone) : list RRSet :=
  match z !! start with
  | Some r => [to_rrset (start, r)]
  | None => option_list (to_rrset <$> next_after start z)
  end.

Definition list_resource_record_sets (zone_id name record_type : string)
  (s : State) : res (list RRSet) * State :=
  match zones s !! zone_id with
  | None => (Raise (ClientError "NoSuchHostedZone"), s)
  | Some z => (Ok (list_from (fqdn name, record_type) z), s)
  end.

Definition change_resource_record_sets
  (zone_id action name record_type : string) (ttl : Z) (values : gset string)
  (s : State) : res unit * State :=
  match zones s !! zone_id with
  | None => (Raise (ClientError "NoSuchHostedZone"), s)
  | Some z =>
      let k := (fqdn name, record_type) in
      if String.eqb action "UPSERT" then
        if bool_decide (values = ∅) then (Raise (ClientError "InvalidInput"), s)
        else (Ok tt, set_zones (<[zone_id := <[k := (ttl, values)]> z]> (zones s)) s)
      else if String.eqb action "DELETE" then
        match z !! k with
        | Some live =>
            if bool_decide (live = (ttl, values))
            then (Ok tt, set_zones (<[zone_id := delete k z]> (zones s)) s)
            else (Raise (ClientError "InvalidChangeBatch"), s)
        | None => (Raise (ClientError "InvalidChangeBatch"), s)
        end
      else (Raise (ClientError "InvalidInput"), s)
  end.

(** [describe_tags] with the two filters of lines 56-59. *)
Definition describe_tags (pages : list (list TagDescription)) (asg_name : string)
  : list (list TagDescription) :=
  map (List.filter (fun t =>
         String.eqb (ResourceId t) asg_name
         && (String.eqb (Key t) HOSTNAME_TAG_NAME || String.eqb (Key t) MODE_TAG_NAME)))
      pages.

Definition in_group (asg_name : string) (i : Instance) : bool :=
  existsb (fun t => String.eqb t.1 "aws:autoscaling:groupName" && String.eqb t.2 asg_name)
          (Tags i).

(** [describe_instances] with the two filters of lines 104-113. *)
Definition describe_instances_of_group (asg_name : string) (s : State)
  : res (list (list (list Instance))) * State :=
  (Ok (map (map (List.filter (fun i =>
          in_group asg_name i && String.eqb (StateName i) "running"))) (fleet s)), s).

Definition known (instance_id : string) (s : State) : bool :=
  existsb (existsb (existsb (fun i => String.eqb (InstanceId i) instance_id))) (fleet s).

(** [describe_instances(InstanceIds=[instance_id])]. *)
Definition describe_instances_by_id (instance_id : string) (s : State)
  : res (list (list (list Instance))) * State :=
  if known instance_id s then
    (Ok (map (map (List.filter (fun i => String.eqb (InstanceId i) instance_id)))
             (fleet s)), s)
  else (Raise (ClientError "InvalidInstanceID.NotFound"), s).

Definition set_tag (key value : string) (i : Instance) : Instance :=
  mkInstance (InstanceId i) (StateName i) (PrivateIpAddress i) (PublicIpAddress i)
    (Ipv6Address i)
    ((key, value) :: List.filter (fun t => negb (String.eqb t.1 key)) (Tags i)).

Definition create_tags (instance_id key value : string) (s : State)
  : res unit * State :=
  if known instance_id s then
    (Ok tt, set_fleet (map (map (map (fun i =>
               if String.eqb (InstanceId i) instance_id then set_tag key value i else i)))
               (fleet s)) s)
  else (Raise (ClientError "InvalidInstanceID.NotFound"), s).

Definition complete_lifecycle_action (s : State) : res unit * State := (Ok tt, s).

End Service.

(** ** The handler *)

(** [HostnameConfig] (lines 35-39). *)
Record HostnameConfig : Type := mkConfig {
  asg_name : string;
  hostname : string;
  zone_id : string;
  mode : string
}.

(** Lines 41-43. *)
Definition is_single (c : HostnameConfig) : bool := String.eqb (mode c) MODE_SINGLE.

(** Lines 45-47. *)
Definition canonical_hostname (c : HostnameConfig) : string :=
  PyStr.rstrip "." (hostname c) +:+ ".".

Section Handler.

Variable env : Env.

(** A client call: recorded, then failed by the fault oracle or
    answered by the service. *)
Definition api {A : Type} (c : Call) (service : State -> res A * State) : M A :=
  fun s =>
    match faults env (calls s) c with
    | Some e => (Raise e, add_call c s)
    | None => service (add_call c s)
    end.

(** [instance.get(IPV4_FIELD)] (lines 31, 134). *)
Definition IPV4_FIELD (i : Instance) : option string :=
  if USE_PUBLIC_IP env then PublicIpAddress i else PrivateIpAddress i.

(** [instance.get(IPV6_FIELD)] (lines 32, 140). *)
Definition IPV6_FIELD (i : Instance) : option string := Ipv6Address i.

(** Lines 66-94: the policy the tags of a group stand for. *)
Definition parse_tags (asg_name : string) (tags : gmap string string)
  : M (option HostnameConfig) :=
  let hostname_zone := PyStr.split1 "@" (default "" (tags !! HOSTNAME_TAG_NAME)) in
  if bool_decide (hostname_zone = []) then
    logmsg WARNING "Cannot find %s tag for ASG %s";;
    mret None
  else if negb (length hostname_zone =? 2)%nat then
    logmsg ERROR "Tag %s for ASG %s value %s does not contain @<ZONE_ID>.";;
    mret None
  else
    let mode := default MODE_DEFAULT (tags !! MODE_TAG_NAME) in
    if negb (bool_decide (mode ∈ MODES_VALID)) then
      logmsg ERROR "Tag %s for ASG %s value %s is an unknown mode.";;
      mret None
    else
      match hostname_zone with
      | [hostname; zone] => mret (Some (mkConfig asg_name hostname zone mode))
      | _ => raise (OtherError "ValueError")
      end.

(** Lines 49-94.  The paginator is one call that answers all pages. *)
Definition from_asg_name (asg_name : string) : M (option HostnameConfig) :=
  logmsg INFO "Fetching tags for ASG: %s";;
  pages ← api (DescribeTags asg_name)
            (fun s => (Ok (Service.describe_tags (asg_tag_pages env) asg_name), s));
  tags ← foldM (fun tags response =>
            foldM (fun (tags : gmap string string) tag =>
                     logmsg INFO "Found tag for ASG %s: %s = %s";;
                     mret (<[Key tag := Value tag]> tags))
                  tags response)
          (∅ : gmap string string) pages;
  parse_tags asg_name tags.

Definition has_terminating_tag (i : Instance) : bool :=
  existsb (fun t => String.eqb t.1 TERMINATING_TAG_NAME
                    && String.eqb t.2 TERMINATING_TAG_VALUE) (Tags i).

(** Lines 134-144 and 160-170: the two address reads of one instance. *)
Definition collect (acc : gset string * gset string) (i : Instance)
  : M (gset string * gset string) :=
  ipv4s ← match IPV4_FIELD i with
          | Some ipv4 => logmsg INFO "Found instance-id %s IPv4 %s";; mret ({[ipv4]} ∪ acc.1)
          | None => mret acc.1
          end;
  ipv6s ← match IPV6_FIELD i with
          | Some ipv6 => logmsg INFO "Found instance-id %s IPv6 %s";; mret ({[ipv6]} ∪ acc.2)
          | None => mret acc.2
          end;
  mret (ipv4s, ipv6s).

(** Lines 97-146. *)
Definition fetch_instance_ips (asg_name : string) (ignore_ids : gset string)
  : M (gset string * gset string) :=
  pages ← api (DescribeInstancesOfGroup asg_name)
            (Service.describe_instances_of_group asg_name);
  foldM (fun acc response =>
    foldM (fun acc reservation =>
      foldM (fun acc instance =>
        if bool_decide (InstanceId instance ∈ ignore_ids) then
          logmsg INFO "Ignoring instance-id %s";; mret acc
        else if has_terminating_tag instance then
          logmsg INFO "Instance-id %s is tagged for termination";; mret acc
        else
          logmsg INFO "Fetching IP for instance-id: %s";;
          collect acc instance)
      acc reservation)
    acc response)
  (∅, ∅) pages.

(** Lines 149-172. *)
Definition fetch_ip_from_ec2 (instance_id : string) : M (gset string * gset string) :=
  pages ← api (DescribeInstancesById instance_id)
            (Service.describe_instances_by_id instance_id);
  foldM (fun acc response =>
    foldM (fun acc reservation =>
      foldM (fun acc instance =>
        logmsg INFO "Fetching IP for instance-id: %s";;
        collect acc instance)
      acc reservation)
    acc response)
  (∅, ∅) pages.

(** Lines 175-190. *)
Definition set_terminating_tag (instance_id : string) : M unit :=
  logmsg INFO "Adding %s = %s tag for instance-id %s";;
  api (CreateTags instance_id TERMINATING_TAG_NAME TERMINATING_TAG_VALUE)
      (Service.create_tags instance_id TERMINATING_TAG_NAME TERMINATING_TAG_VALUE).

(** Lines 194-245. *)
Definition fetch_values_from_route53 (config : HostnameConfig) (record_type : string)
  : M (gset string) :=
  logmsg INFO "Fetching IP for hostname: %s";;
  response ← api (ListResourceRecordSets (zone_id config) (hostname config) record_type)
               (Service.list_resource_record_sets (zone_id config) (hostname config)
                  record_type);
  values ← foldM (fun (values : gset string) rr_set =>
              if negb (String.eqb (Name rr_set) (canonical_hostname config)) then
                logmsg DEBUG "Undesired RR set name: %s (wanted %s)";; mret values
              else if negb (String.eqb (Type_ rr_set) record_type) then
                logmsg DEBUG "Undesired RR set type: %s (wanted %s)";; mret values
              else mret (foldl (fun vs rr => {[rr]} ∪ vs) values (ResourceRecords rr_set)))
            (∅ : gset string) response;
  (if bool_decide (values ≠ ∅)
   then logmsg INFO "Found %s record values for hostname %s: %s"
   else logmsg INFO "No %s record values for hostname %s");;
  mret values.

(** Lines 249-277. *)
Definition update_record (config : HostnameConfig) (values : gset string)
  (operation record_type : string) : M unit :=
  logmsg INFO "Changing record with %s for %s -> %s in %s";;
  api (ChangeResourceRecordSets (zone_id config) operation (hostname config) record_type
         (ROUTE53_TTL env) values)
      (Service.change_resource_record_sets (zone_id config) operation (hostname config)
         record_type (ROUTE53_TTL env) values).

(** Lines 319-340, the closure of [process_message] over [config]. *)
Definition change_records (config : HostnameConfig) (old new : gset string)
  (record_type : string) : M unit :=
  if bool_decide (old = new) then
    logmsg INFO "No change in %s %s records %s"
  else if bool_decide (new ≠ ∅) then
    (if bool_decide (new ∖ old ≠ ∅) then logmsg INFO "Adding %s %s records %s"
     else mret tt);;
    (if bool_decide (old ∖ new ≠ ∅) then logmsg INFO "Removing %s %s records %s"
     else mret tt);;
    update_record config new "UPSERT" record_type
  else
    logmsg INFO "Removing all %s %s records %s";;
    update_record config old "DELETE" record_type.

(** Lines 288-302: the two id sets, or nothing for an unknown
    transition. *)
Definition classify (message : Message) : M (option (gset string * gset string)) :=
  transition ← getitem message "LifecycleTransition";
  if String.eqb transition LAUNCHING then
    instance_id ← getitem message "EC2InstanceId";
    mret (Some ({[instance_id]}, ∅))
  else if String.eqb transition TERMINATING || String.eqb transition LAUNCH_ERROR then
    instance_id ← getitem message "EC2InstanceId";
    mret (Some (∅, {[instance_id]}))
  else
    logmsg ERROR "Encountered unknown event type: %s";;
    mret None.

(** Lines 350-360. *)
Definition single_launch (config : HostnameConfig) (old_ipv4s old_ipv6s : gset string)
  (instance_id : string) : M unit :=
  '(ipv4s, ipv6s) ← fetch_ip_from_ec2 instance_id;
  for_each [(old_ipv4s, ipv4s, "A"); (old_ipv6s, ipv6s, "AAAA")]
    (fun '(old, new, record_type) =>
       if bool_decide (new ≠ ∅) then change_records config old new record_type
       else mret tt).

(** Lines 370-382. *)
Definition guarded_delete (config : HostnameConfig) (old : gset string)
  (record_type : string) : M unit :=
  try_except (change_records config old ∅ record_type)
    (fun error =>
       match error with
       | ClientError code =>
           if negb (String.eqb code "InvalidChangeBatch") then raise error
           else logmsg INFO "%s %s records have already been changed"
       | _ => raise error
       end).

(** Lines 366-382. *)
Definition single_terminate (config : HostnameConfig) (instance_id : string) : M unit :=
  '(ipv4s, ipv6s) ← fetch_ip_from_ec2 instance_id;
  for_each [(ipv4s, "A"); (ipv6s, "AAAA")]
    (fun '(old, record_type) =>
       if bool_decide (old ≠ ∅) then guarded_delete config old record_type
       else mret tt).

(** Lines 345-384. *)
Definition single_mode (config : HostnameConfig) (launch_ids terminate_ids : gset string)
  (old_ipv4s old_ipv6s : gset string) : M unit :=
  for_each (elements launch_ids) (single_launch config old_ipv4s old_ipv6s);;
  for_each (elements terminate_ids) (single_terminate config).

(** Lines 386-391. *)
Definition multi_mode (config : HostnameConfig) (asg_name : string)
  (terminate_ids : gset string) (old_ipv4s old_ipv6s : gset string) : M unit :=
  '(ipv4s, ipv6s) ← fetch_instance_ips asg_name terminate_ids;
  change_records config old_ipv4s ipv4s "A";;
  change_records config old_ipv6s ipv6s "AAAA".

(** Lines 342-391. *)
Definition reconcile (config : HostnameConfig) (asg_name : string)
  (launch_ids terminate_ids : gset string) : M unit :=
  old_ipv4s ← fetch_values_from_route53 config "A";
  old_ipv6s ← fetch_values_from_route53 config "AAAA";
  if is_single config then single_mode config launch_ids terminate_ids old_ipv4s old_ipv6s
  else multi_mode config asg_name terminate_ids old_ipv4s old_ipv6s.

(** Lines 282-391. *)
Definition process_message (message : Message) : M unit :=
  if bool_decide (message !! "LifecycleTransition" = None) then
    _ ← getitem message "Event";
    logmsg INFO "Skipping %s event"
  else
    logmsg INFO "Processing %s lifecycle transition";;
    ids ← classify message;
    match ids with
    | None => mret tt
    | Some (launch_ids, terminate_ids) =>
        logmsg INFO "Processing message: %s";;
        for_each (elements terminate_ids) set_terminating_tag;;
        asg_name ← getitem message "AutoScalingGroupName";
        config ← from_asg_name asg_name;
        match config with
        | None => mret tt
        | Some config => reconcile config asg_name launch_ids terminate_ids
        end
    end.

(** Lines 395-396; the record is taken as its parsed message. *)
Definition process_record (record : Message) : M unit := process_message record.

(** Lines 408-425. *)
Definition complete (message : Message) : M unit :=
  if bool_decide (is_Some (message !! LIFECYCLE_KEY))
     && bool_decide (is_Some (message !! ASG_KEY)) then
    logmsg INFO "Finishing ASG action";;
    try_except
      (hook ← getitem message "LifecycleHookName";
       asg_name ← getitem message "AutoScalingGroupName";
       instance_id ← getitem message "EC2InstanceId";
       token ← getitem message "LifecycleActionToken";
       api (CompleteLifecycleAction hook asg_name instance_id token)
           Service.complete_lifecycle_action;;
       logmsg INFO "ASG action complete: %s")
      (fun error =>
         match error with
         | ClientError _ => logmsg INFO "Ignoring complete lifecycle action error: %s"
         | _ => raise error
         end)
  else logmsg ERROR "No valid JSON message".

(** Lines 406-425: one turn of the loop of [lambda_handler]. *)
Definition handle (record : Message) : M unit :=
  process_record record;;
  complete record.

(** Lines 401-425. *)
Definition lambda_handler (event : list Message) : M unit :=
  logmsg INFO "Processing SNS event: %s";;
  for_each event handle.

End Handler.

(** ** The vocabulary of the properties *)

(** A relation between the state before and after that every log line
    respects. *)
Class Stable (R : relation State) : Prop := {
  stable_preorder :: PreOrder R;
  stable_log : forall l msg s, R s (add_log l msg s)
}.

(** [keeps R m]: every run of [m] relates its first state to its last. *)
Definition keeps (R : relation State) {A : Type} (m : M A) : Prop :=
  forall s, R s (m s).2.

(** The calls made between two states all satisfy [P]. *)
Definition emits (P : Call -> Prop) (s s' : State) : Prop :=
  exists l, calls s' = l ++ calls s /\ Forall P l.

(** The calls made between two states, oldest last. *)
Definition new_calls (s s' : State) : list Call :=
  take (length (calls s') - length (calls s)) (calls s').

(** The fleet is untouched. *)
Definition same_fleet (s s' : State) : Prop := fleet s' = fleet s.

(** The zones are untouched. *)
Definition same_zones (s s' : State) : Prop := zones s' = zones s.

(** The record set stored in a zone under a name and type. *)
Definition record_set (s : State) (zone_id name record_type : string)
  : option (Z * gset string) :=
  z ← zones s !! zone_id; z !! (name, record_type).

(** The address set the directory holds: empty when there is no record
    set. *)
Definition directory (s : State) (zone_id name record_type : string) : gset string :=
  match record_set s zone_id name record_type with
  | Some (_, values) => values
  | None => ∅
  end.

(** Every record set of type [T] is untouched. *)
Definition same_type (T : string) (s s' : State) : Prop :=
  forall zone_id name, record_set s' zone_id name T = record_set s zone_id name T.

(** Two relations at once. *)
Definition both (R1 R2 : relation State) : relation State :=
  fun s s' => R1 s s' /\ R2 s s'.

(** Recording the call and letting the service answer both respect
    [R]. *)
Definition safe (R : relation State) {A : Type} (c : Call)
  (service : State -> res A * State) : Prop :=
  (forall s, R s (add_call c s)) /\ (forall s, R s (service s).2).

(** The one mutation [update_record] submits. *)
Definition mutation (env : Env) (config : HostnameConfig) (op rt : string)
  (values : gset string) : Call :=
  ChangeResourceRecordSets (zone_id config) op (hostname config) rt (ROUTE53_TTL env)
    values.

(** The answer of the service to it. *)
Definition mutate (env : Env) (config : HostnameConfig) (op rt : string)
  (values : gset string) : State -> res unit * State :=
  Service.change_resource_record_sets (zone_id config) op (hostname config) rt
    (ROUTE53_TTL env) values.

(** The instances of a fleet, page after page. *)
Definition instances (fl : list (list (list Instance))) : list Instance :=
  concat (concat fl).

(** What the service lists for a group: its running members. *)
Definition listed (asg : string) (i : Instance) : bool :=
  Service.in_group asg i && String.eqb (StateName i) "running".

(** The two address sets with the addresses of one instance added. *)
Definition addresses (env : Env) (acc : gset string * gset string) (i : Instance)
  : gset string * gset string :=
  (match IPV4_FIELD env i with Some a => {[a]} ∪ acc.1 | None => acc.1 end,
   match IPV6_FIELD i with Some a => {[a]} ∪ acc.2 | None => acc.2 end).

(** The value of one turn of the loop of [fetch_instance_ips]. *)
Definition pick (env : Env) (ignore_ids : gset string)
  (acc : gset string * gset string) (i : Instance) : gset string * gset string :=
  if bool_decide (InstanceId i ∈ ignore_ids) then acc
  else if has_terminating_tag i then acc
  else addresses env acc i.

(** The value [fetch_instance_ips] computes from a fleet. *)
Definition live_ips (env : Env) (asg : string) (ignore_ids : gset string)
  (fl : list (list (list Instance))) : gset string * gset string :=
  foldl (foldl (foldl (pick env ignore_ids))) (∅, ∅)
        (map (map (List.filter (listed asg))) fl).

(** The value [fetch_ip_from_ec2] computes from a fleet. *)
Definition own_ips (env : Env) (id : string) (fl : list (list (list Instance)))
  : gset string * gset string :=
  foldl (foldl (foldl (addresses env))) (∅, ∅)
        (map (map (List.filter (fun i => String.eqb (InstanceId i) id))) fl).

(** The instances whose addresses count for a group. *)
Definition counted (asg : string) (ignore_ids : gset string) (s : State) (i : Instance)
  : Prop :=
  In i (instances (fleet s)) /\ listed asg i = true /\ (InstanceId i ∉ ignore_ids)
  /\ has_terminating_tag i = false.

(** Lines 53-64: the dictionary the loop over the pages builds; a later
    tag with the same key replaces an earlier one. *)
Definition asg_tags (env : Env) (asg : string) : gmap string string :=
  foldl (foldl (fun tags tag => <[Key tag := Value tag]> tags)) ∅
        (Service.describe_tags (asg_tag_pages env) asg).

(** [m] can return [a]. *)
Definition returns {A : Type} (m : M A) (a : A) : Prop :=
  exists s s', m s = (Ok a, s').

(** The calls to the directory. *)
Definition route53 (c : Call) : bool :=
  match c with
  | ListResourceRecordSets _ _ _ => true
  | ChangeResourceRecordSets _ _ _ _ _ _ => true
  | _ => false
  end.

(** The completion signal. *)
Definition completion (c : Call) : bool :=
  match c with
  | CompleteLifecycleAction _ _ _ _ => true
  | _ => false
  end.

(** A mutation that deletes. *)
Definition deletes (c : Call) : bool :=
  match c with
  | ChangeResourceRecordSets _ op _ _ _ _ => String.eqb op "DELETE"
  | _ => false
  end.

(** A mutation of a record set of type [T]. *)
Definition mutates (T : string) (c : Call) : bool :=
  match c with
  | ChangeResourceRecordSets _ _ _ rt _ _ => String.eqb rt T
  | _ => false
  end.

(** The relations a launch is checked against: no call that [P]
    forbids, the record sets of type [T] as they were, the fleet as it
    was. *)
Definition launch_frame (P : Call -> Prop) (T : string) : relation State :=
  both (emits P) (both (same_type T) same_fleet).

(** The frame of a launch, for the runs that start from the fleet
    [F]. *)
Definition at_fleet (F : list (list (list Instance))) (P : Call -> Prop) (T : string)
  : relation State :=
  fun s1 s2 => fleet s1 = F -> launch_frame P T s1 s2.

(** No service fails. *)
Definition no_faults (env : Env) : Prop := forall h c, faults env h c = None.

(** No record set of the zones is empty. *)
Definition well_formed (s : State) : Prop :=
  forall zid name T ttl, record_set s zid name T <> Some (ttl, ∅).

(** The zones and the fleet are untouched. *)
Definition same_world : relation State := both same_zones same_fleet.

(** The value of the loop of lines 210-229 over a response. *)
Definition read_values (config : HostnameConfig) (rt : string) (response : list RRSet)
  : gset string :=
  foldl (fun values rr_set =>
           if negb (String.eqb (Name rr_set) (canonical_hostname config)) then values
           else if negb (String.eqb (Type_ rr_set) rt) then values
           else foldl (fun vs rr => {[rr]} ∪ vs) values (ResourceRecords rr_set))
        ∅ response.

(** A check of [well_formed] that computes. *)
Definition well_formed_zones (s : State) : Prop :=
  map_Forall (fun _ (z : Zone) => map_Forall (fun _ r => r.2 <> (∅ : gset string)) z)
             (zones s).

(** No call is made and neither zones nor fleet change. *)
Definition quiet : relation State :=
  fun s s' => calls s' = calls s /\ zones s' = zones s /\ fleet s' = fleet s.

(** A mutation of the directory. *)
Definition changes (c : Call) : bool :=
  match c with
  | ChangeResourceRecordSets _ _ _ _ _ _ => true
  | _ => false
  end.

(** The completion signal lines 413-419 send for a message, if any. *)
Definition signal (msg : Message) : list Call :=
  match msg !! LIFECYCLE_KEY, msg !! ASG_KEY,
        msg !! "EC2InstanceId", msg !! "LifecycleActionToken" with
  | Some hook, Some asg, Some id, Some token =>
      [CompleteLifecycleAction hook asg id token]
  | _, _, _, _ => []
  end.

(** The TTL under which a record set is stored, if there is one. *)
Definition stored_ttl (s : State) (zone_id name record_type : string) : option Z :=
  fst <$> record_set s zone_id name record_type.

(** The record set, if there is one, is stored under the TTL the
    handler submits with every change (line 271). *)
Definition configured_ttl (env : Env) (s : State) (zone_id name record_type : string)
  : Prop :=
  stored_ttl s zone_id name record_type = None
  \/ stored_ttl s zone_id name record_type = Some (ROUTE53_TTL env).

(** The handler can bring the record set to [new]: by an UPSERT when
    [new] has members, by a DELETE only under the stored TTL. *)
Definition deletable (env : Env) (s : State) (zone_id name record_type : string)
  (new : gset string) : Prop :=
  new <> ∅ \/ configured_ttl env s zone_id name record_type.

(** The client error of a DELETE that does not match the live record
    set (line 373). *)
Definition invalid_batch : exn := ClientError "InvalidChangeBatch".

(** The DELETE of lines 368-371 for one family of a terminating
    instance, none when the instance has no address of the family, with
    what the client answers. *)
Definition removal (env : Env) (config : HostnameConfig) (old : gset string)
  (record_type : string) (s : State) : res unit * State :=
  if bool_decide (old ≠ ∅)
  then update_record env config old "DELETE" record_type
         (add_log INFO "Removing all %s %s records %s" s)
  else (Ok tt, s).

(** The state after an answer has been dealt with: lines 375-379 log
    a line after an invalid change batch. *)
Definition settled (answer : res unit * State) : State :=
  match answer.1 with
  | Raise (ClientError code) =>
      if String.eqb code "InvalidChangeBatch"
      then add_log INFO "%s %s records have already been changed" answer.2
      else answer.2
  | _ => answer.2
  end.

(** ** Scenarios *)

Module Scenario.

(** Five groups: [web] in Multi mode, [solo] in Single mode, [odd] with
    two separators in its hostname tag, [bad] with none, [lost] with a
    zone that does not exist; [bare] has no tag at all. *)
Definition tags : list (list TagDescription) :=
  [[mkTag "web" "asg:hostname" "www.example.com@Z1";
    mkTag "solo" "asg:hostname" "db.example.com@Z1";
    mkTag "solo" "asg:hostname_mode" "single"];
   [mkTag "odd" "asg:hostname" "www.example.com@Z1@x";
    mkTag "bad" "asg:hostname" "www.example.com";
    mkTag "lost" "asg:hostname" "gone.example.com@Z9"]].

(** Every service answers. *)
Definition env : Env := mkEnv false 60 tags (fun _ _ => None).

(** Route53 rejects every DELETE as an invalid change batch: the record
    set was changed by someone else after it was read. *)
Definition env_conflict : Env :=
  mkEnv false 60 tags
    (fun _ c => if deletes c then Some (ClientError "InvalidChangeBatch") else None).

(** The completion call fails with a client error. *)
Definition env_late : Env :=
  mkEnv false 60 tags
    (fun _ c => if completion c then Some (ClientError "ValidationError") else None).

Definition member (id group ipv4 : string) (ipv6 : option string)
  (more : list (string * string)) : Instance :=
  mkInstance id "running" (Some ipv4) None ipv6
    (("aws:autoscaling:groupName", group) :: more).

(** Two members of [web], the second tagged as terminating, and one
    member of [solo] without IPv6 address. *)
Definition fleet0 : list (list (list Instance)) :=
  [[[member "i-1" "web" "10.0.0.1" None [];
     member "i-2" "web" "10.0.0.2" (Some "2001:db8::2") [("asg:terminating", "true")]];
    [member "i-5" "solo" "10.0.0.5" None []]]].

(** The zone holds stale sets for [www] and an AAAA record for [db]. *)
Definition zone0 : Zone :=
  {[ ("www.example.com.", "A") := (300, {[ "10.0.0.1"; "10.0.0.9" ]});
     ("www.example.com.", "AAAA") := (60, {[ "2001:db8::9" ]});
     ("db.example.com.", "AAAA") := (60, {[ "2001:db8::4" ]}) ]}.

Definition state0 : State := mkState fleet0 {[ "Z1" := zone0 ]} [] [].

(** [web] with its only member, and its address in the zone. *)
Definition state1 : State :=
  mkState [[[member "i-1" "web" "10.0.0.1" None []]]]
          {[ "Z1" := ({[ ("www.example.com.", "A") := (60, {[ "10.0.0.1" ]}) ]} : Zone) ]}
          [] [].

Definition event (transition id group : string) : Message :=
  list_to_map [("LifecycleTransition", transition); ("EC2InstanceId", id);
               ("AutoScalingGroupName", group); ("LifecycleHookName", "hook");
               ("LifecycleActionToken", "token")].

(** A hook notification without instance id: a test notification. *)
Definition test_notification : Message :=
  list_to_map [("Event", "autoscaling:TEST_NOTIFICATION");
               ("AutoScalingGroupName", "web"); ("LifecycleHookName", "hook")].

Definition web : HostnameConfig := mkConfig "web" "www.example.com" "Z1" "multi".
Definition solo : HostnameConfig := mkConfig "solo" "db.example.com" "Z1" "single".

(** A group whose mode tag is neither [single] nor [multi]. *)
Definition env_modes : Env :=
  mkEnv false 60
    [[mkTag "weird" "asg:hostname" "www.example.com@Z1";
      mkTag "weird" "asg:hostname_mode" "round-robin"]]
    (fun _ _ => None).

(** [web] with two untagged members. *)
Definition state2 : State :=
  mkState [[[member "i-1" "web" "10.0.0.1" None [];
             member "i-3" "web" "10.0.0.3" None []]]]
          {[ "Z1" := ({[ ("www.example.com.", "A") := (60, {[ "10.0.0.1" ]}) ]} : Zone) ]}
          [] [].


(** [solo] with its member [i-5]: its A record is the handler's, its
    AAAA record was stored under another TTL, and [i-6] is an instance
    whose address is not the one on record. *)
Definition state4 : State :=
  mkState [[[member "i-5" "solo" "10.0.0.5" (Some "2001:db8::5") [];
             member "i-6" "solo" "10.0.0.6" None []]]]
          {[ "Z1" := ({[ ("db.example.com.", "A") := (60, {[ "10.0.0.5" ]});
                         ("db.example.com.", "AAAA") := (300, {[ "2001:db8::5" ]}) ]}
                      : Zone) ]}
          [] [].

(** A transition of a kind the handler does not know. *)
Definition odd_event : Message :=
  list_to_map [("LifecycleTransition", "autoscaling:EC2_INSTANCE_REBOOTING");
               ("EC2InstanceId", "i-1"); ("AutoScalingGroupName", "web")].

(** A terminating event that names no group. *)
Definition orphan_event : Message :=
  list_to_map [("LifecycleTransition", TERMINATING); ("EC2InstanceId", "i-1")].

End Scenario.

(** ** Reasoning about runs *)

(** The two equations of the monad. *)
Lemma bind_eq {A B : Type} (m : M A) (k : A -> M B) (s : State) :
  (m ≫= k) s = match m s with
               | (Ok a, s') => k a s'
               | (Raise e, s') => (Raise e, s')
               end.
Proof. reflexivity. Qed.

Lemma bind_ok {A B : Type} (m : M A) (k : A -> M B) (s s' : State) (a : A) :
  m s = (Ok a, s') -> (m ≫= k) s = k a s'.
Proof. intros E. rewrite bind_eq, E. reflexivity. Qed.

Lemma bind_raise {A B : Type} (m : M A) (k : A -> M B) (s s' : State) (e : exn) :
  m s = (Raise e, s') -> (m ≫= k) s = (Raise e, s').
Proof. intros E. rewrite bind_eq, E. reflexivity. Qed.

Section Keeps.

Context (R : relation State) `{!Stable R}.

Lemma keeps_ret {A : Type} (a : A) : keeps R (mret a).
Proof. intros s. simpl. reflexivity. Qed.

Lemma keeps_raise {A : Type} (e : exn) : keeps R (@raise A e).
Proof. intros s. simpl. reflexivity. Qed.

Lemma keeps_logmsg (l : Level) (msg : string) : keeps R (logmsg l msg).
Proof.
  intros s. unfold logmsg. simpl. destruct (enabled l).
  - apply stable_log.
  - reflexivity.
Qed.

Lemma keeps_getitem (d : Message) (k : string) : keeps R (getitem d k).
Proof. unfold getitem. destruct (d !! k); [apply keeps_ret | apply keeps_raise]. Qed.

Lemma keeps_bind {A B : Type} (m : M A) (k : A -> M B) :
  keeps R m -> (forall a, keeps R (k a)) -> keeps R (m ≫= k).
Proof.
  intros Hm Hk s. rewrite bind_eq. specialize (Hm s).
  destruct (m s) as [[a|e] s1]; simpl in *.
  - etransitivity; [exact Hm | apply Hk].
  - exact Hm.
Qed.

Lemma keeps_try_except {A : Type} (m : M A) (h : exn -> M A) :
  keeps R m -> (forall e, keeps R (h e)) -> keeps R (try_except m h).
Proof.
  intros Hm Hh s. unfold try_except. specialize (Hm s).
  destruct (m s) as [[a|e] s1]; simpl in *.
  - exact Hm.
  - etransitivity; [exact Hm | apply Hh].
Qed.

Lemma keeps_for_each {A : Type} (l : list A) (body : A -> M unit) :
  (forall x, keeps R (body x)) -> keeps R (for_each l body).
Proof.
  intros Hb. induction l as [|x l IH]; simpl.
  - apply keeps_ret.
  - apply keeps_bind; auto.
Qed.

Lemma keeps_foldM {A B : Type} (body : B -> A -> M B) (l : list A) (acc : B) :
  (forall b x, keeps R (body b x)) -> keeps R (foldM body acc l).
Proof.
  intros Hb. revert acc. induction l as [|x l IH]; intros acc; simpl.
  - apply keeps_ret.
  - apply keeps_bind; auto.
Qed.

(** A client call is kept when recording it and answering it are. *)
Lemma keeps_api {A : Type} (env : Env) (c : Call) (service : State -> res A * State) :
  (forall s, R s (add_call c s)) -> (forall s, R s (service s).2) ->
  keeps R (api env c service).
Proof.
  intros Hc Hs s. unfold api. destruct (faults env (calls s) c); simpl.
  - apply Hc.
  - etransitivity; [apply Hc | apply Hs].
Qed.

End Keeps.

(** The structural steps of a [keeps] proof. *)
Ltac keeps_step :=
  cbv beta;
  lazymatch goal with
  | |- keeps _ (mret _) => apply keeps_ret; exact _
  | |- keeps _ (raise _) => apply keeps_raise; exact _
  | |- keeps _ (logmsg _ _) => apply keeps_logmsg; exact _
  | |- keeps _ (getitem _ _) => apply keeps_getitem; exact _
  | |- keeps _ (mbind _ _) => apply keeps_bind; [exact _ | | intros ?]
  | |- keeps _ (try_except _ _) => apply keeps_try_except; [exact _ | | intros ?]
  | |- keeps _ (for_each _ _) => apply keeps_for_each; [exact _ | intros ?]
  | |- keeps _ (foldM _ _ _) => apply keeps_foldM; [exact _ | intros ? ?]
  | |- keeps _ (if ?b then _ else _) => destruct b
  | |- keeps _ (match ?x with _ => _ end) => destruct x
  end.

Ltac keeps_auto := repeat keeps_step; try assumption.

(** *** The relations in use *)

#[export] Instance emits_stable (P : Call -> Prop) : Stable (emits P).
Proof.
  split; [split|].
  - intros s. exists []. split; [reflexivity | constructor].
  - intros s1 s2 s3 [l1 [E1 F1]] [l2 [E2 F2]]. exists (l2 ++ l1). split.
    + rewrite E2, E1. apply app_assoc.
    + apply Forall_app. split; assumption.
  - intros l msg s. exists []. split; [reflexivity | constructor].
Qed.

Lemma emits_new_calls (P : Call -> Prop) (s s' : State) :
  emits P s s' -> calls s' = new_calls s s' ++ calls s /\ Forall P (new_calls s s').
Proof.
  intros [l [E F]]. unfold new_calls. rewrite E, length_app.
  replace (length l + length (calls s) - length (calls s))%nat with (length l) by lia.
  rewrite take_app_length. split; [reflexivity | assumption].
Qed.

Lemma emits_weaken (P Q : Call -> Prop) (s s' : State) :
  (forall c, P c -> Q c) -> emits P s s' -> emits Q s s'.
Proof.
  intros H [l [E F]]. exists l. split; [assumption|].
  eapply Forall_impl; eassumption.
Qed.

Lemma emits_same_calls (P : Call -> Prop) (s s' : State) :
  calls s' = calls s -> emits P s s'.
Proof. intros E. exists []. split; [assumption | constructor]. Qed.

Lemma emits_add_call (P : Call -> Prop) (c : Call) (s : State) :
  P c -> emits P s (add_call c s).
Proof. intros H. exists [c]. split; [reflexivity | repeat constructor; assumption]. Qed.

#[export] Instance same_fleet_stable : Stable same_fleet.
Proof.
  split; [split|]; unfold same_fleet.
  - intros s. reflexivity.
  - intros s1 s2 s3 E1 E2. congruence.
  - intros l msg s. reflexivity.
Qed.

#[export] Instance same_zones_stable : Stable same_zones.
Proof.
  split; [split|]; unfold same_zones.
  - intros s. reflexivity.
  - intros s1 s2 s3 E1 E2. congruence.
  - intros l msg s. reflexivity.
Qed.

#[export] Instance same_type_stable (T : string) : Stable (same_type T).
Proof.
  split; [split|]; unfold same_type.
  - intros s zid n. reflexivity.
  - intros s1 s2 s3 E1 E2 zid n. rewrite E2. apply E1.
  - intros l msg s zid n. reflexivity.
Qed.

#[export] Instance both_stable (R1 R2 : relation State) `{!Stable R1} `{!Stable R2} :
  Stable (both R1 R2).
Proof.
  split; [split|]; unfold both.
  - intros s. split; reflexivity.
  - intros s1 s2 s3 [A1 A2] [B1 B2]. split; etransitivity; eassumption.
  - intros l msg s. split; apply stable_log.
Qed.

#[export] Instance quiet_stable : Stable quiet.
Proof.
  split; [split|]; unfold quiet.
  - intros s. done.
  - intros s1 s2 s3 [A1 [A2 A3]] [B1 [B2 B3]]. repeat split; congruence.
  - intros l msg s. done.
Qed.

(** *** What each service does to the state *)

Lemma list_resource_record_sets_state (zid name rt : string) (s : State) :
  (Service.list_resource_record_sets zid name rt s).2 = s.
Proof. unfold Service.list_resource_record_sets. destruct (zones s !! zid); reflexivity. Qed.

Lemma describe_instances_of_group_state (asg : string) (s : State) :
  (Service.describe_instances_of_group asg s).2 = s.
Proof. reflexivity. Qed.

Lemma describe_instances_by_id_state (id : string) (s : State) :
  (Service.describe_instances_by_id id s).2 = s.
Proof. unfold Service.describe_instances_by_id. destruct (Service.known id s); reflexivity. Qed.

Lemma change_resource_record_sets_state (zid op name rt : string) (ttl : Z)
  (vs : gset string) (s : State) :
  let s' := (Service.change_resource_record_sets zid op name rt ttl vs s).2 in
  calls s' = calls s /\ fleet s' = fleet s /\ log s' = log s.
Proof.
  unfold Service.change_resource_record_sets.
  destruct (zones s !! zid) as [z|]; [|done].
  destruct (String.eqb op "UPSERT"); [destruct (bool_decide (vs = ∅)); done|].
  destruct (String.eqb op "DELETE"); [|done].
  destruct (z !! (Service.fqdn name, rt)) as [live|]; [|done].
  destruct (bool_decide (live = (ttl, vs))); done.
Qed.

Lemma create_tags_state (id k v : string) (s : State) :
  let s' := (Service.create_tags id k v s).2 in
  calls s' = calls s /\ zones s' = zones s /\ log s' = log s.
Proof. unfold Service.create_tags. destruct (Service.known id s); done. Qed.

(** A change of one record type leaves the other types alone. *)
Lemma change_resource_record_sets_same_type
  (T zid op name rt : string) (ttl : Z) (vs : gset string) (s : State) :
  rt <> T ->
  same_type T s (Service.change_resource_record_sets zid op name rt ttl vs s).2.
Proof.
  intros Hne zid' n. unfold Service.change_resource_record_sets.
  destruct (zones s !! zid) as [z|] eqn:Ez; [|done].
  assert (Hk : (Service.fqdn name, rt) <> (n, T)) by congruence.
  destruct (String.eqb op "UPSERT").
  { destruct (bool_decide (vs = ∅)); [done|]. simpl. unfold record_set. simpl.
    destruct (decide (zid = zid')) as [<-|Hz].
    - rewrite lookup_insert_eq, Ez. simpl. by rewrite lookup_insert_ne.
    - by rewrite lookup_insert_ne. }
  destruct (String.eqb op "DELETE"); [|done].
  destruct (z !! (Service.fqdn name, rt)) as [live|]; [|done].
  destruct (bool_decide (live = (ttl, vs))); [|done]. simpl. unfold record_set. simpl.
  destruct (decide (zid = zid')) as [<-|Hz].
  - rewrite lookup_insert_eq, Ez. simpl. by rewrite lookup_delete_ne.
  - by rewrite lookup_insert_ne.
Qed.

(** *** What each function of the handler keeps *)

Section HandlerKeeps.

Context (env : Env) (R : relation State) `{!Stable R}.

Lemma keeps_safe_api {A : Type} (c : Call) (service : State -> res A * State) :
  safe R c service -> keeps R (api env c service).
Proof. intros [H1 H2]. by apply keeps_api. Qed.

(** A service that answers without changing anything. *)
Lemma safe_reader {A : Type} (c : Call) (service : State -> res A * State) :
  (forall s, R s (add_call c s)) -> (forall s, (service s).2 = s) -> safe R c service.
Proof. intros H1 H2. split; [assumption|]. intros s. rewrite H2. reflexivity. Qed.

Lemma keeps_from_asg_name (asg : string) :
  (forall s, R s (add_call (DescribeTags asg) s)) -> keeps R (from_asg_name env asg).
Proof.
  intros H. unfold from_asg_name, parse_tags. keeps_auto.
  apply keeps_safe_api, safe_reader; [assumption | reflexivity].
Qed.

Lemma keeps_collect (acc : gset string * gset string) (i : Instance) :
  keeps R (collect env acc i).
Proof. unfold collect. keeps_auto. Qed.

Lemma keeps_fetch_instance_ips (asg : string) (ignore_ids : gset string) :
  (forall s, R s (add_call (DescribeInstancesOfGroup asg) s)) ->
  keeps R (fetch_instance_ips env asg ignore_ids).
Proof.
  intros H. unfold fetch_instance_ips. keeps_auto; try apply keeps_collect.
  apply keeps_safe_api, safe_reader; [assumption | reflexivity].
Qed.

Lemma keeps_fetch_ip_from_ec2 (id : string) :
  (forall s, R s (add_call (DescribeInstancesById id) s)) ->
  keeps R (fetch_ip_from_ec2 env id).
Proof.
  intros H. unfold fetch_ip_from_ec2. keeps_auto; try apply keeps_collect.
  apply keeps_safe_api, safe_reader; [assumption|].
  apply describe_instances_by_id_state.
Qed.

Lemma keeps_set_terminating_tag (id : string) :
  safe R (CreateTags id TERMINATING_TAG_NAME TERMINATING_TAG_VALUE)
       (Service.create_tags id TERMINATING_TAG_NAME TERMINATING_TAG_VALUE) ->
  keeps R (set_terminating_tag env id).
Proof. intros H. unfold set_terminating_tag. keeps_auto. by apply keeps_safe_api. Qed.

Lemma keeps_fetch_values_from_route53 (config : HostnameConfig) (rt : string) :
  (forall s, R s (add_call (ListResourceRecordSets (zone_id config) (hostname config) rt) s)) ->
  keeps R (fetch_values_from_route53 env config rt).
Proof.
  intros H. unfold fetch_values_from_route53. keeps_auto.
  apply keeps_safe_api, safe_reader; [assumption|].
  apply list_resource_record_sets_state.
Qed.

Lemma keeps_update_record (config : HostnameConfig) (values : gset string)
  (op rt : string) :
  safe R (mutation env config op rt values) (mutate env config op rt values) ->
  keeps R (update_record env config values op rt).
Proof. intros H. unfold update_record. keeps_auto. by apply keeps_safe_api. Qed.

Lemma keeps_change_records (config : HostnameConfig) (old new : gset string)
  (rt : string) :
  (old <> new -> new <> ∅ ->
   safe R (mutation env config "UPSERT" rt new) (mutate env config "UPSERT" rt new)) ->
  (old <> ∅ -> new = ∅ ->
   safe R (mutation env config "DELETE" rt old) (mutate env config "DELETE" rt old)) ->
  keeps R (change_records env config old new rt).
Proof.
  intros Hu Hd. unfold change_records.
  destruct (bool_decide_reflect (old = new)) as [E|Hne]; [keeps_auto|].
  destruct (bool_decide_reflect (new <> ∅)) as [Hn|Hn].
  - keeps_auto; apply keeps_update_record; auto.
  - apply dec_stable in Hn. subst new.
    keeps_auto. apply keeps_update_record. apply Hd; [|reflexivity].
    intros ->. by apply Hne.
Qed.

End HandlerKeeps.

(** *** The calls of the small steps *)

Lemma new_calls_app (s s' : State) (l : list Call) :
  calls s' = l ++ calls s -> new_calls s s' = l.
Proof.
  intros E. unfold new_calls. rewrite E, length_app.
  replace (length l + length (calls s) - length (calls s))%nat with (length l) by lia.
  apply take_app_length.
Qed.

Lemma new_calls_same (s s' : State) : calls s' = calls s -> new_calls s s' = [].
Proof. intros E. by apply (new_calls_app s s' []). Qed.

Lemma logmsg_calls (l : Level) (msg : string) (s : State) :
  calls (logmsg l msg s).2 = calls s.
Proof. unfold logmsg. simpl. by destruct (enabled l). Qed.

Lemma logmsg_run (l : Level) (msg : string) (s : State) :
  logmsg l msg s = (Ok tt, if enabled l then add_log l msg s else s).
Proof. reflexivity. Qed.

Lemma bind_ret {A B : Type} (a : A) (k : A -> M B) (s : State) :
  (mret a ≫= k) s = k a s.
Proof. reflexivity. Qed.

Lemma bind_logmsg {B : Type} (l : Level) (msg : string) (k : unit -> M B) (s : State) :
  (logmsg l msg ≫= k) s = k tt (if enabled l then add_log l msg s else s).
Proof. reflexivity. Qed.

Lemma bind_getitem {B : Type} (d : Message) (key v : string) (k : string -> M B)
  (s : State) :
  d !! key = Some v -> (getitem d key ≫= k) s = k v s.
Proof. intros E. unfold getitem. rewrite E. reflexivity. Qed.

Lemma bind_getitem_missing {B : Type} (d : Message) (key : string) (k : string -> M B)
  (s : State) :
  d !! key = None -> (getitem d key ≫= k) s = (Raise (KeyError key), s).
Proof. intros E. unfold getitem. rewrite E. reflexivity. Qed.

(** Runs the log lines and returns at the head of a computation. *)
Ltac mrun := repeat (first [rewrite bind_ret | rewrite bind_logmsg]; cbn [enabled]).

(** [update_record] makes one call, whatever the service answers. *)
Lemma update_record_calls (env : Env) (config : HostnameConfig) (values : gset string)
  (op rt : string) (s : State) :
  calls (update_record env config values op rt s).2
  = mutation env config op rt values :: calls s.
Proof.
  unfold update_record. rewrite bind_eq, logmsg_run. simpl. unfold api. simpl.
  destruct (faults env (calls s) _); [reflexivity|].
  match goal with
  | |- calls (Service.change_resource_record_sets ?a ?b ?c ?d ?e ?f ?s0).2 = _ =>
      destruct (change_resource_record_sets_state a b c d e f s0) as [-> _]
  end.
  reflexivity.
Qed.

(** ** The reconciler's decision *)

(** C1.  [change_records] makes no call at all when the old and the new
    set are equal (and leaves every zone as it was); it makes exactly
    one call, an UPSERT of the whole new set, when they differ and the
    new set is not empty; and exactly one call, a DELETE of the old
    set, when the new set is empty and the old one is not. *)
Theorem change_records_decision (env : Env) (config : HostnameConfig)
  (old new : gset string) (rt : string) (s : State) :
  (old = new ->
   change_records env config old new rt s
   = (Ok tt, add_log INFO "No change in %s %s records %s" s)) /\
  (old <> new -> new <> ∅ ->
   new_calls s (change_records env config old new rt s).2
   = [mutation env config "UPSERT" rt new]) /\
  (new = ∅ -> old <> ∅ ->
   new_calls s (change_records env config old new rt s).2
   = [mutation env config "DELETE" rt old]).
Proof.
  unfold change_records. repeat split.
  - intros ->. rewrite bool_decide_eq_true_2 by reflexivity. reflexivity.
  - intros Hne Hn. rewrite bool_decide_eq_false_2 by assumption.
    rewrite bool_decide_eq_true_2 by assumption.
    apply new_calls_app.
    destruct (bool_decide (new ∖ old ≠ ∅)), (bool_decide (old ∖ new ≠ ∅)); mrun;
      match goal with
      | |- calls (update_record ?e ?c ?v ?o ?t ?s0).2 = _ =>
          rewrite (update_record_calls e c v o t s0)
      end; reflexivity.
  - intros -> Ho. rewrite bool_decide_eq_false_2 by assumption.
    rewrite bool_decide_eq_false_2 by (intros H; by apply H).
    apply new_calls_app. mrun.
    match goal with
    | |- calls (update_record ?e ?c ?v ?o ?t ?s0).2 = _ =>
        rewrite (update_record_calls e c v o t s0)
    end. reflexivity.
Qed.

(** ** The membership of a group *)

(** A loop whose body always returns has the value of the pure fold. *)
Lemma foldM_value {A B : Type} (body : B -> A -> M B) (f : B -> A -> B) :
  (forall b x s, (body b x s).1 = Ok (f b x)) ->
  forall l b s, (foldM body b l s).1 = Ok (foldl f b l).
Proof.
  intros H l. induction l as [|x l IH]; intros b s; simpl; [reflexivity|].
  rewrite bind_eq. specialize (H b x s).
  destruct (body b x s) as [[r|e] s1]; simpl in H; [|discriminate].
  injection H as ->. apply IH.
Qed.

Lemma collect_value (env : Env) (acc : gset string * gset string) (i : Instance)
  (s : State) :
  (collect env acc i s).1 = Ok (addresses env acc i).
Proof.
  unfold collect, addresses.
  destruct (IPV4_FIELD env i), (IPV6_FIELD i); reflexivity.
Qed.

Lemma fetch_instance_ips_value (env : Env) (asg : string) (ignore_ids : gset string)
  (s s' : State) (r : gset string * gset string) :
  fetch_instance_ips env asg ignore_ids s = (Ok r, s') ->
  r = live_ips env asg ignore_ids (fleet s).
Proof.
  unfold fetch_instance_ips, api. rewrite bind_eq.
  destruct (faults env (calls s) _); [discriminate|].
  unfold Service.describe_instances_of_group. cbn [fst snd].
  intros E. apply (f_equal fst) in E. simpl in E.
  rewrite (foldM_value _ (foldl (foldl (pick env ignore_ids)))) in E.
  - injection E as <-. reflexivity.
  - intros b x s0. apply foldM_value. intros b1 x1 s1. apply foldM_value.
    intros b2 i s2. unfold pick.
    destruct (bool_decide (InstanceId i ∈ ignore_ids)); [reflexivity|].
    destruct (has_terminating_tag i); [reflexivity|].
    mrun. apply collect_value.
Qed.

Lemma foldl_concat {A B : Type} (f : B -> A -> B) (ll : list (list A)) (b : B) :
  foldl (foldl f) b ll = foldl f b (concat ll).
Proof.
  revert b. induction ll as [|l ll IH]; intros b; simpl; [reflexivity|].
  rewrite foldl_app. apply IH.
Qed.

Lemma in_instances_filter (p : Instance -> bool) (fl : list (list (list Instance)))
  (i : Instance) :
  In i (instances (map (map (List.filter p)) fl)) <-> In i (instances fl) /\ p i = true.
Proof.
  unfold instances. rewrite !in_concat. split.
  - intros [r [Hr Hi]]. apply in_concat in Hr as [pg [Hpg Hr]].
    apply in_map_iff in Hpg as [pg0 [<- Hpg0]].
    apply in_map_iff in Hr as [r0 [<- Hr0]].
    apply filter_In in Hi as [Hi Hp]. split; [|assumption].
    exists r0. split; [|assumption]. apply in_concat. eauto.
  - intros [[r [Hr Hi]] Hp]. apply in_concat in Hr as [pg [Hpg Hr]].
    exists (List.filter p r). split.
    + apply in_concat. exists (map (List.filter p) pg). split.
      * apply in_map_iff. eauto.
      * apply in_map_iff. eauto.
    + apply filter_In. auto.
Qed.

(** An address is in the picked sets exactly when it was there before
    or an instance that is neither ignored nor tagged holds it. *)
Lemma pick_elem (env : Env) (ignore_ids : gset string) (l : list Instance)
  (acc : gset string * gset string) (a : string) :
  (a ∈ (foldl (pick env ignore_ids) acc l).1 <->
   a ∈ acc.1 \/ exists i, In i l /\ (InstanceId i ∉ ignore_ids)
                          /\ has_terminating_tag i = false /\ IPV4_FIELD env i = Some a) /\
  (a ∈ (foldl (pick env ignore_ids) acc l).2 <->
   a ∈ acc.2 \/ exists i, In i l /\ (InstanceId i ∉ ignore_ids)
                          /\ has_terminating_tag i = false /\ IPV6_FIELD i = Some a).
Proof.
  revert acc. induction l as [|i l IH]; intros acc; simpl.
  - split; (split; [auto | intros [H|[i [[] _]]]; exact H]).
  - destruct (IH (pick env ignore_ids acc i)) as [IH1 IH2]. rewrite IH1, IH2.
    clear IH IH1 IH2. unfold pick, addresses.
    destruct (bool_decide_reflect (InstanceId i ∈ ignore_ids)) as [Hin|Hin].
    { split; (split; [intros [H|[j [Hj H]]]; [auto | right; exists j; tauto]
                     | intros [H|[j [[<-|Hj] H]]]; [auto | tauto | right; exists j; tauto]]). }
    destruct (has_terminating_tag i) eqn:Ht.
    { split; (split; [intros [H|[j [Hj H]]]; [auto | right; exists j; tauto]
                     | intros [H|[j [[<-|Hj] H]]];
                       [auto | destruct H as [_ [H _]]; congruence
                        | right; exists j; tauto]]). }
    simpl. split.
    + destruct (IPV4_FIELD env i) as [b|] eqn:E4.
      * rewrite elem_of_union, elem_of_singleton. split.
        -- intros [[->|H]|[j [Hj H]]]; [right; exists i; tauto | auto
                                        | right; exists j; tauto].
        -- intros [H|[j [[<-|Hj] H]]]; [auto | | right; exists j; tauto].
           left. left. destruct H as [_ [_ H]]. congruence.
      * split.
        -- intros [H|[j [Hj H]]]; [auto | right; exists j; tauto].
        -- intros [H|[j [[<-|Hj] H]]]; [auto | | right; exists j; tauto].
           destruct H as [_ [_ H]]. congruence.
    + unfold IPV6_FIELD. destruct (Ipv6Address i) as [b|] eqn:E6.
      * rewrite elem_of_union, elem_of_singleton. split.
        -- intros [[->|H]|[j [Hj H]]]; [right; exists i; tauto | auto
                                        | right; exists j; tauto].
        -- intros [H|[j [[<-|Hj] H]]]; [auto | | right; exists j; tauto].
           left. left. destruct H as [_ [_ H]]. congruence.
      * split.
        -- intros [H|[j [Hj H]]]; [auto | right; exists j; tauto].
        -- intros [H|[j [[<-|Hj] H]]]; [auto | | right; exists j; tauto].
           destruct H as [_ [_ H]]. congruence.
Qed.

(** C5.  Whenever [fetch_instance_ips] returns, the addresses it
    returns are exactly those of the listed instances that are neither
    in [ignore_ids] nor tagged [asg:terminating = true]: an instance
    that carries the tag contributes nothing, running or not, ignored
    or not. *)
Theorem fetch_instance_ips_excludes_tagged (env : Env) (asg : string)
  (ignore_ids : gset string) (s s' : State) (ipv4s ipv6s : gset string) :
  fetch_instance_ips env asg ignore_ids s = (Ok (ipv4s, ipv6s), s') ->
  forall a,
    (a ∈ ipv4s <-> exists i, counted asg ignore_ids s i /\ IPV4_FIELD env i = Some a) /\
    (a ∈ ipv6s <-> exists i, counted asg ignore_ids s i /\ IPV6_FIELD i = Some a).
Proof.
  intros E a. apply fetch_instance_ips_value in E. unfold live_ips in E.
  rewrite !foldl_concat in E.
  fold (instances (map (map (List.filter (listed asg))) (fleet s))) in E.
  destruct (pick_elem env ignore_ids
              (instances (map (map (List.filter (listed asg))) (fleet s))) (∅, ∅) a)
    as [H4 H6].
  rewrite <- E in H4, H6. simpl in H4, H6.
  unfold counted. split.
  - rewrite H4. split.
    + intros [H|[i [Hi H]]]; [set_solver|]. apply in_instances_filter in Hi.
      exists i. tauto.
    + intros [i H]. right. exists i. rewrite in_instances_filter. tauto.
  - rewrite H6. split.
    + intros [H|[i [Hi H]]]; [set_solver|]. apply in_instances_filter in Hi.
      exists i. tauto.
    + intros [i H]. right. exists i. rewrite in_instances_filter. tauto.
Qed.

(** ** Policy resolution *)

Lemma split1_not_nil (sep : ascii) (s : string) : PyStr.split1 sep s <> [].
Proof. unfold PyStr.split1. destruct (PyStr.split_first sep s) as [[a b]|]; discriminate. Qed.

Lemma split_first_none (sep : ascii) (s : string) :
  PyStr.split_first sep s = None <-> PyStr.count sep s = 0%nat.
Proof.
  induction s as [|c r IH]; simpl; [tauto|].
  destruct (Ascii.eqb c sep).
  - split; [discriminate | intros H; discriminate].
  - destruct (PyStr.split_first sep r) as [[a b]|]; simpl.
    + split; [discriminate|]. intros H. apply IH in H. discriminate.
    + split; [|reflexivity]. intros _. by apply IH.
Qed.

(** A cut is made at the first separator: the head holds none. *)
Lemma split_first_some (sep : ascii) (s a b : string) :
  PyStr.split_first sep s = Some (a, b) ->
  s = a +:+ String sep b /\ PyStr.count sep a = 0%nat.
Proof.
  revert a. induction s as [|c r IH]; intros a; simpl; [discriminate|].
  destruct (Ascii.eqb_spec c sep) as [->|Hne].
  - intros [= <- <-]. split; reflexivity.
  - destruct (PyStr.split_first sep r) as [[a' b']|]; [|discriminate].
    intros [= <- <-]. destruct (IH a' eq_refl) as [-> Hc]. simpl. split; [reflexivity|].
    destruct (Ascii.eqb_spec c sep); [contradiction | assumption].
Qed.

Lemma split1_length (sep : ascii) (s : string) :
  length (PyStr.split1 sep s) = 2%nat <-> (1 <= PyStr.count sep s)%nat.
Proof.
  unfold PyStr.split1. destruct (PyStr.split_first sep s) as [[a b]|] eqn:E; simpl.
  - split; [|reflexivity]. intros _.
    destruct (PyStr.count sep s) eqn:Ec; [|lia].
    apply split_first_none in Ec. congruence.
  - apply split_first_none in E. rewrite E. split; [discriminate | lia].
Qed.

Lemma foldM_run {A B : Type} (body : B -> A -> M B) (f : B -> A -> B) :
  (forall b x s, (body b x s).1 = Ok (f b x)) ->
  forall l b s, exists s', foldM body b l s = (Ok (foldl f b l), s').
Proof.
  intros H l b s. pose proof (foldM_value body f H l b s) as E.
  destruct (foldM body b l s) as [r s']. simpl in E. subst r. by exists s'.
Qed.

(** Once [describe_tags] has answered, resolution is [parse_tags] on
    the dictionary of the group. *)
Lemma from_asg_name_answered (env : Env) (asg : string) (s : State) :
  faults env (calls s) (DescribeTags asg) = None ->
  exists s1, from_asg_name env asg s = parse_tags asg (asg_tags env asg) s1.
Proof.
  intros Hf. unfold from_asg_name. mrun. rewrite bind_eq. unfold api at 1.
  cbn [add_log calls]. rewrite Hf. cbn [fst snd].
  match goal with
  | |- context [(foldM ?body ?acc ?pages ≫= _) ?s0] =>
      assert (exists s1, foldM body acc pages s0 = (Ok (asg_tags env asg), s1)) as [s1 E]
  end.
  - apply foldM_run. intros b x s0. apply foldM_value. intros b1 t s1. reflexivity.
  - exists s1. rewrite bind_eq, E. reflexivity.
Qed.

(** Whatever the service does, a policy that [from_asg_name] returns is
    one [parse_tags] returns on the dictionary of the group. *)
Lemma from_asg_name_returns (env : Env) (asg : string) (s s' : State)
  (r : option HostnameConfig) :
  from_asg_name env asg s = (Ok r, s') ->
  exists s1, parse_tags asg (asg_tags env asg) s1 = (Ok r, s').
Proof.
  destruct (faults env (calls s) (DescribeTags asg)) as [e|] eqn:Hf.
  - unfold from_asg_name. mrun. rewrite bind_eq. unfold api at 1.
    cbn [add_log calls]. rewrite Hf. discriminate.
  - destruct (from_asg_name_answered env asg s Hf) as [s1 E]. rewrite E. eauto.
Qed.

(** The three outcomes of [parse_tags]. *)
Lemma parse_tags_no_separator (asg : string) (tags : gmap string string) (s : State) :
  PyStr.count "@" (default "" (tags !! HOSTNAME_TAG_NAME)) = 0%nat ->
  parse_tags asg tags s
  = (Ok None,
     add_log ERROR "Tag %s for ASG %s value %s does not contain @<ZONE_ID>." s).
Proof.
  intros Hc. unfold parse_tags.
  rewrite bool_decide_eq_false_2 by apply split1_not_nil.
  apply split_first_none in Hc. unfold PyStr.split1. rewrite Hc. reflexivity.
Qed.

Lemma parse_tags_separator (asg : string) (tags : gmap string string) (s : State)
  (h z : string) :
  PyStr.split_first "@" (default "" (tags !! HOSTNAME_TAG_NAME)) = Some (h, z) ->
  parse_tags asg tags s
  = if bool_decide (default MODE_DEFAULT (tags !! MODE_TAG_NAME) ∈ MODES_VALID)
    then (Ok (Some (mkConfig asg h z (default MODE_DEFAULT (tags !! MODE_TAG_NAME)))), s)
    else (Ok None, add_log ERROR "Tag %s for ASG %s value %s is an unknown mode." s).
Proof.
  intros E. unfold parse_tags.
  rewrite bool_decide_eq_false_2 by apply split1_not_nil.
  unfold PyStr.split1. rewrite E. cbn [length Nat.eqb negb].
  destruct (bool_decide _); reflexivity.
Qed.

(** *** Values that flow into the rest of a run *)

Lemma keeps_bind_returns (R : relation State) `{!Stable R} {A B : Type}
  (m : M A) (k : A -> M B) :
  keeps R m -> (forall a, returns m a -> keeps R (k a)) -> keeps R (m ≫= k).
Proof.
  intros Hm Hk s. rewrite bind_eq. specialize (Hm s).
  destruct (m s) as [[a|e] s1] eqn:E; simpl in *; [|exact Hm].
  etransitivity; [exact Hm|]. apply Hk. by exists s, s1.
Qed.

(** The pointwise form: the rest of the run starts where [m] stopped. *)
Lemma run_bind (R : relation State) `{!PreOrder R} {A B : Type}
  (m : M A) (k : A -> M B) (s : State) :
  R s (m s).2 -> (forall a s1, m s = (Ok a, s1) -> R s1 (k a s1).2) ->
  R s ((m ≫= k) s).2.
Proof.
  intros Hm Hk. rewrite bind_eq.
  destruct (m s) as [[a|e] s1] eqn:E; simpl in *; [|exact Hm].
  etransitivity; [exact Hm | by apply Hk].
Qed.

Lemma returns_getitem (d : Message) (key v : string) :
  returns (getitem d key) v -> d !! key = Some v.
Proof.
  intros [s [s' E]]. unfold getitem in E.
  destruct (d !! key); [by injection E as -> | discriminate].
Qed.

Lemma emits_safe (P : Call -> Prop) {A : Type} (c : Call)
  (service : State -> res A * State) :
  P c -> (forall s, calls (service s).2 = calls s) -> safe (emits P) c service.
Proof.
  intros Hc Hs. split; intros s.
  - by apply emits_add_call.
  - apply emits_same_calls, Hs.
Qed.

(** What [classify] and the tagging of lines 309-310 keep. *)
Lemma keeps_classify (R : relation State) `{!Stable R} (msg : Message) :
  keeps R (classify msg).
Proof. unfold classify. keeps_auto. Qed.

(** When the tags of the group resolve to no policy, the event is
    dropped before the directory is read or written. *)
Lemma no_policy_no_route53 (env : Env) (msg : Message) :
  (forall asg s1, msg !! ASG_KEY = Some asg ->
                  (parse_tags asg (asg_tags env asg) s1).1 = Ok None) ->
  keeps (emits (fun c => route53 c = false)) (process_message env msg).
Proof.
  intros Hnone. unfold process_message.
  destruct (bool_decide _); [keeps_auto|].
  keeps_step; [keeps_auto|]. keeps_step; [apply keeps_classify; exact _|].
  destruct a0 as [[launch_ids terminate_ids]|]; [|keeps_auto].
  keeps_step; [keeps_auto|]. keeps_step.
  { keeps_step. apply keeps_set_terminating_tag; [exact _|].
    apply emits_safe; [reflexivity|]. intros s. apply create_tags_state. }
  apply keeps_bind_returns; [exact _ | keeps_auto |]. intros asg Hasg.
  apply returns_getitem in Hasg.
  apply keeps_bind_returns; [exact _ | |].
  { apply keeps_from_asg_name; [exact _|]. intros s. by apply emits_add_call. }
  intros r [s [s' E]]. apply from_asg_name_returns in E as [s1 E].
  specialize (Hnone asg s1 Hasg). rewrite E in Hnone. injection Hnone as ->.
  keeps_auto.
Qed.

(** C6, as the code has it.  Once [describe_tags] has answered, the
    hostname tag is accepted when it holds at least one separator: it
    is cut at the first one, so the zone id is everything after it,
    further separators included, and the policy is resolved when the
    mode tag is absent or valid.  A value without separator resolves to
    no policy, the last line logged is an error, and an event of that
    group makes no call to the directory. *)
Theorem hostname_tag_resolution (env : Env) (asg : string) (s : State) :
  faults env (calls s) (DescribeTags asg) = None ->
  let value := default "" (asg_tags env asg !! HOSTNAME_TAG_NAME) in
  let mode := default MODE_DEFAULT (asg_tags env asg !! MODE_TAG_NAME) in
  (PyStr.count "@" value = 0%nat ->
   (exists s1, from_asg_name env asg s
               = (Ok None,
                  add_log ERROR "Tag %s for ASG %s value %s does not contain @<ZONE_ID>." s1))
   /\ forall msg s0, msg !! ASG_KEY = Some asg ->
        Forall (fun c => route53 c = false) (new_calls s0 (process_message env msg s0).2))
  /\ ((1 <= PyStr.count "@" value)%nat -> mode ∈ MODES_VALID ->
      exists h z s1,
        value = h +:+ String "@" z /\ PyStr.count "@" h = 0%nat
        /\ from_asg_name env asg s = (Ok (Some (mkConfig asg h z mode)), s1)).
Proof.
  intros Hf value mode. destruct (from_asg_name_answered env asg s Hf) as [s1 E].
  split.
  - intros Hc. split.
    + exists s1. rewrite E. by apply parse_tags_no_separator.
    + intros msg s0 Hasg. apply emits_new_calls, no_policy_no_route53.
      intros asg' s2 Hasg'. rewrite Hasg in Hasg'. injection Hasg' as <-.
      by rewrite parse_tags_no_separator.
  - intros Hc Hm.
    destruct (PyStr.split_first "@" value) as [[h z]|] eqn:Es.
    + destruct (split_first_some _ _ _ _ Es) as [Hv Hh].
      exists h, z, s1. split; [assumption|]. split; [assumption|].
      rewrite E, (parse_tags_separator asg _ s1 h z Es).
      fold mode. by rewrite bool_decide_eq_true_2.
    + apply split_first_none in Es. lia.
Qed.

(** C7, at a group without hostname tag.  [split] of the empty default
    is a list of one string, never the empty list, so the branch that
    warns is never taken: the absent tag is reported by the error of
    the malformed tag.  The event still makes no call to the
    directory. *)
Theorem absent_hostname_tag (env : Env) (asg : string) (s : State) :
  faults env (calls s) (DescribeTags asg) = None ->
  asg_tags env asg !! HOSTNAME_TAG_NAME = None ->
  (exists s1, from_asg_name env asg s
              = (Ok None,
                 add_log ERROR "Tag %s for ASG %s value %s does not contain @<ZONE_ID>." s1))
  /\ forall msg s0, msg !! ASG_KEY = Some asg ->
       Forall (fun c => route53 c = false) (new_calls s0 (process_message env msg s0).2).
Proof.
  intros Hf Habsent.
  assert (Hc : PyStr.count "@" (default "" (asg_tags env asg !! HOSTNAME_TAG_NAME)) = 0%nat)
    by (rewrite Habsent; reflexivity).
  split.
  - destruct (from_asg_name_answered env asg s Hf) as [s1 E].
    exists s1. rewrite E. by apply parse_tags_no_separator.
  - intros msg s0 Hasg. apply emits_new_calls, no_policy_no_route53.
    intros asg' s2 Hasg'. rewrite Hasg in Hasg'. injection Hasg' as <-.
    by rewrite parse_tags_no_separator.
Qed.

(** ** The calls of a whole event *)

Lemma emits_mutation_safe (P : Call -> Prop) (env : Env) (config : HostnameConfig)
  (op rt : string) (values : gset string) :
  P (mutation env config op rt values) ->
  safe (emits P) (mutation env config op rt values) (mutate env config op rt values).
Proof.
  intros H. apply emits_safe; [assumption|]. intros s.
  apply change_resource_record_sets_state.
Qed.

Lemma emits_create_tags_safe (P : Call -> Prop) (id k v : string) :
  P (CreateTags id k v) ->
  safe (emits P) (CreateTags id k v) (Service.create_tags id k v).
Proof.
  intros H. apply emits_safe; [assumption|]. intros s. apply create_tags_state.
Qed.

(** Closes the leaves of a [keeps (emits P)] goal when [P] holds of the
    call at hand. *)
Ltac emits_leaf tac :=
  lazymatch goal with
  | |- keeps _ (classify _) => apply keeps_classify; exact _
  | |- keeps _ (collect _ _ _) => apply keeps_collect; exact _
  | |- keeps _ (from_asg_name _ _) =>
      apply keeps_from_asg_name; [exact _ | intros ?; apply emits_add_call; tac]
  | |- keeps _ (fetch_values_from_route53 _ _ _) =>
      apply keeps_fetch_values_from_route53; [exact _ | intros ?; apply emits_add_call; tac]
  | |- keeps _ (fetch_ip_from_ec2 _ _) =>
      apply keeps_fetch_ip_from_ec2; [exact _ | intros ?; apply emits_add_call; tac]
  | |- keeps _ (fetch_instance_ips _ _ _) =>
      apply keeps_fetch_instance_ips; [exact _ | intros ?; apply emits_add_call; tac]
  | |- keeps _ (set_terminating_tag _ _) =>
      apply keeps_set_terminating_tag; [exact _ | apply emits_create_tags_safe; tac]
  | |- keeps _ (change_records _ _ _ _ _) =>
      apply keeps_change_records;
      [exact _ | intros ? ?; apply emits_mutation_safe; tac
       | intros ? ?; apply emits_mutation_safe; tac]
  end.

(** An event calls autoscaling, EC2 and Route53 as it pleases, but it
    never sends the completion signal itself. *)
Lemma process_message_no_completion (env : Env) (msg : Message) :
  keeps (emits (fun c => completion c = false)) (process_message env msg).
Proof.
  unfold process_message, reconcile, single_mode, multi_mode, single_launch,
    single_terminate, guarded_delete.
  repeat first [keeps_step | emits_leaf ltac:(idtac; reflexivity)].
Qed.

(** ** Deletes and the invalid change batch *)

(** A delete through [change_records] is one log line and the
    mutation. *)
Lemma change_records_delete (env : Env) (config : HostnameConfig) (old : gset string)
  (rt : string) (s : State) :
  old <> ∅ ->
  change_records env config old ∅ rt s
  = update_record env config old "DELETE" rt
      (add_log INFO "Removing all %s %s records %s" s).
Proof.
  intros Ho. unfold change_records.
  rewrite bool_decide_eq_false_2 by assumption.
  rewrite bool_decide_eq_false_2 by (intros H; by apply H).
  reflexivity.
Qed.

(** The guard of lines 370-382.  It submits the mutation once; when
    the mutation fails with the client error [InvalidChangeBatch] the
    guard logs an info line and returns normally; it re-raises every
    other exception; and it returns what the mutation returns
    otherwise.  Without the guard [change_records] returns whatever the
    mutation returns, this client error included. *)
Lemma guarded_delete_outcome (env : Env) (config : HostnameConfig)
  (old : gset string) (rt : string) (s : State) :
  old <> ∅ ->
  let answer := update_record env config old "DELETE" rt
                  (add_log INFO "Removing all %s %s records %s" s) in
  new_calls s (guarded_delete env config old rt s).2
  = [mutation env config "DELETE" rt old]
  /\ (answer.1 = Raise (ClientError "InvalidChangeBatch") ->
      guarded_delete env config old rt s
      = (Ok tt, add_log INFO "%s %s records have already been changed" answer.2))
  /\ (forall e, answer.1 = Raise e -> e <> ClientError "InvalidChangeBatch" ->
      guarded_delete env config old rt s = (Raise e, answer.2))
  /\ (answer.1 = Ok tt -> guarded_delete env config old rt s = answer)
  /\ change_records env config old ∅ rt s = answer.
Proof.
  intros Ho answer.
  assert (Hcalls : calls answer.2 = mutation env config "DELETE" rt old :: calls s)
    by (unfold answer; rewrite update_record_calls; reflexivity).
  assert (Hrun : change_records env config old ∅ rt s = answer)
    by (by apply change_records_delete).
  unfold guarded_delete, try_except. rewrite Hrun.
  destruct answer as [[[]|e] s1]; simpl in *.
  - split; [by apply new_calls_app|].
    split; [discriminate|]. split; [intros e He; discriminate|]. by split.
  - assert (Hcase : e = ClientError "InvalidChangeBatch"
                    \/ e <> ClientError "InvalidChangeBatch").
    { destruct e as [code| |]; try (right; discriminate).
      destruct (String.eqb_spec code "InvalidChangeBatch") as [->|Hne];
        [by left | right; congruence]. }
    destruct Hcase as [->|Hne].
    + split; [by apply new_calls_app|]. split; [reflexivity|].
      split; [intros e [= <-] He; by destruct He|]. by split.
    + assert (Hh : match e with
                   | ClientError code =>
                       if negb (String.eqb code "InvalidChangeBatch") then raise e
                       else logmsg INFO "%s %s records have already been changed"
                   | _ => raise e
                   end s1 = (Raise e, s1)).
      { destruct e as [code| |]; try reflexivity.
        destruct (String.eqb_spec code "InvalidChangeBatch") as [->|Hc];
          [by destruct Hne | reflexivity]. }
      rewrite Hh. split; [by apply new_calls_app|].
      split; [intros [= ->]; by destruct Hne|].
      split; [by intros e' [= <-] _|]. by split.
Qed.

(** *** The two modes and the rejected DELETE *)

Lemma invalid_batch_or_not (e : exn) : e = invalid_batch \/ e <> invalid_batch.
Proof.
  unfold invalid_batch. destruct e as [code| |]; try (right; discriminate).
  destruct (String.eqb_spec code "InvalidChangeBatch") as [->|Hne];
    [by left | right; congruence].
Qed.

(** An answer is either an exception other than the invalid change
    batch, or nothing worse than it. *)
Lemma answer_cases (a : res unit * State) :
  (exists e, a.1 = Raise e /\ e <> invalid_batch)
  \/ (forall e, a.1 = Raise e -> e = invalid_batch).
Proof.
  destruct a as [[[]|e] s]; simpl.
  - right. intros e; discriminate.
  - destruct (invalid_batch_or_not e) as [->|Hne].
    + right. by intros e [= <-].
    + left. eauto.
Qed.

Lemma removal_calls (env : Env) (config : HostnameConfig) (old : gset string)
  (rt : string) (s : State) :
  calls (removal env config old rt s).2
  = (if bool_decide (old ≠ ∅) then [mutation env config "DELETE" rt old] else [])
    ++ calls s.
Proof.
  unfold removal. destruct (bool_decide (old ≠ ∅)); [|reflexivity].
  rewrite update_record_calls. reflexivity.
Qed.

Lemma settled_calls (a : res unit * State) : calls (settled a) = calls a.2.
Proof.
  unfold settled. destruct a.1 as [[]|[code| |]]; try reflexivity.
  destruct (String.eqb code "InvalidChangeBatch"); reflexivity.
Qed.

Lemma fetch_ip_from_ec2_calls (env : Env) (id : string) (s s1 : State)
  (r : gset string * gset string) :
  fetch_ip_from_ec2 env id s = (Ok r, s1) ->
  calls s1 = DescribeInstancesById id :: calls s.
Proof.
  unfold fetch_ip_from_ec2. rewrite bind_eq. unfold api.
  destruct (faults env (calls s) _); [discriminate|].
  unfold Service.describe_instances_by_id.
  destruct (Service.known id _); [|discriminate]. intros E.
  match type of E with
  | foldM ?body ?acc ?pages ?s0 = _ =>
      assert (Hq : keeps quiet (foldM body acc pages))
        by (keeps_auto; apply keeps_collect; exact _);
      specialize (Hq s0); rewrite E in Hq; destruct Hq as [Hc _]; exact Hc
  end.
Qed.

(** One family of lines 367-382, read off the answer to its DELETE. *)
Lemma guarded_step (env : Env) (config : HostnameConfig) (old : gset string)
  (rt : string) (s : State) :
  let a := removal env config old rt s in
  let step := (if bool_decide (old ≠ ∅) then guarded_delete env config old rt
               else mret tt) s in
  (forall e, a.1 = Raise e -> e <> invalid_batch -> step = (Raise e, a.2))
  /\ ((forall e, a.1 = Raise e -> e = invalid_batch) -> step = (Ok tt, settled a)).
Proof.
  unfold removal. destruct (bool_decide_reflect (old ≠ ∅)) as [Hold|Hold]; cbv zeta.
  - destruct (guarded_delete_outcome env config old rt s Hold)
      as [_ [Hswallow [Hraise [Hok _]]]].
    cbv zeta in Hswallow, Hraise, Hok. split; [exact Hraise|]. intros Hib.
    unfold settled.
    destruct (update_record env config old "DELETE" rt
                (add_log INFO "Removing all %s %s records %s" s)) as [[[]|e] s1];
      simpl in *.
    + by apply Hok.
    + rewrite (Hib e eq_refl) in *. by apply Hswallow.
  - split; [intros e; discriminate | reflexivity].
Qed.

(** Lines 366-382 after the lookup of the instance: the two families,
    one after the other. *)
Lemma single_terminate_run (env : Env) (config : HostnameConfig) (id : string)
  (s s1 : State) (own : gset string * gset string) :
  fetch_ip_from_ec2 env id s = (Ok own, s1) ->
  single_terminate env config id s
  = match (if bool_decide (own.1 ≠ ∅) then guarded_delete env config own.1 "A"
           else mret tt) s1 with
    | (Ok _, s2) =>
        (if bool_decide (own.2 ≠ ∅) then guarded_delete env config own.2 "AAAA"
         else mret tt) s2
    | (Raise e, s2) => (Raise e, s2)
    end.
Proof.
  intros E. unfold single_terminate. rewrite (bind_ok _ _ _ _ _ E).
  destruct own as [v4 v6]. cbn [for_each fst snd]. rewrite bind_eq.
  destruct ((if bool_decide (v4 ≠ ∅) then guarded_delete env config v4 "A"
             else mret tt) s1) as [[[]|e] s2]; [|reflexivity].
  rewrite bind_eq.
  destruct ((if bool_decide (v6 ≠ ∅) then guarded_delete env config v6 "AAAA"
             else mret tt) s2) as [[[]|e] s3]; reflexivity.
Qed.

(** C3, as the code has it.  The two modes differ.  In Single mode
    (lines 366-382), once the addresses of the terminating instance
    have been looked up, each family's DELETE is submitted at most
    once; a DELETE that fails with the client error
    [InvalidChangeBatch] is not propagated: an info line is logged and
    the next family is dealt with, so that the Single-mode branch never
    ends with this error; any other exception of a DELETE leaves the
    branch at once.  In Multi mode (lines 386-391) a delete is the bare
    mutation, and whatever exception a change raises, the invalid
    change batch included, leaves [multi_mode]. *)
Theorem delete_conflict_by_mode (env : Env) (config : HostnameConfig)
  (id asg : string) (terminate_ids old_ipv4s old_ipv6s : gset string)
  (own members : gset string * gset string) (s s1 t t1 : State) :
  fetch_ip_from_ec2 env id s = (Ok own, s1) ->
  fetch_instance_ips env asg terminate_ids t = (Ok members, t1) ->
  let a4 := removal env config own.1 "A" s1 in
  let a6 := removal env config own.2 "AAAA" (settled a4) in
  let single := single_terminate env config id s in
  let m4 := change_records env config old_ipv4s members.1 "A" t1 in
  let multi := multi_mode env config asg terminate_ids old_ipv4s old_ipv6s t in
  single_mode env config ∅ {[id]} old_ipv4s old_ipv6s s = single
  /\ single.1 <> Raise invalid_batch
  /\ sublist (new_calls s single.2)
       [mutation env config "DELETE" "AAAA" own.2;
        mutation env config "DELETE" "A" own.1;
        DescribeInstancesById id]
  /\ (forall e, a4.1 = Raise e -> e <> invalid_batch -> single = (Raise e, a4.2))
  /\ ((forall e, a4.1 = Raise e -> e = invalid_batch) ->
      (forall e, a6.1 = Raise e -> e <> invalid_batch -> single = (Raise e, a6.2))
      /\ ((forall e, a6.1 = Raise e -> e = invalid_batch) ->
          single = (Ok tt, settled a6)))
  /\ (forall old rt u, old <> ∅ ->
        change_records env config old ∅ rt u = removal env config old rt u)
  /\ (forall e, m4.1 = Raise e -> multi = (Raise e, m4.2))
  /\ (forall t2, m4 = (Ok tt, t2) ->
        multi = change_records env config old_ipv6s members.2 "AAAA" t2).
Proof.
  intros Es Et a4 a6 single m4 multi.
  pose proof (single_terminate_run env config id s s1 own Es) as Hrun.
  fold single in Hrun.
  destruct (guarded_step env config own.1 "A" s1) as [Hr4 Hs4].
  destruct (guarded_step env config own.2 "AAAA" (settled a4)) as [Hr6 Hs6].
  cbv zeta in Hr4, Hs4, Hr6, Hs6. fold a4 in Hr4, Hs4. fold a6 in Hr6, Hs6.
  assert (H4 : forall e, a4.1 = Raise e -> e <> invalid_batch ->
                         single = (Raise e, a4.2)).
  { intros e He Hne. rewrite Hrun, (Hr4 e He Hne). reflexivity. }
  assert (H6 : (forall e, a4.1 = Raise e -> e = invalid_batch) ->
               (forall e, a6.1 = Raise e -> e <> invalid_batch ->
                          single = (Raise e, a6.2))
               /\ ((forall e, a6.1 = Raise e -> e = invalid_batch) ->
                   single = (Ok tt, settled a6))).
  { intros Hib. rewrite Hrun, (Hs4 Hib). split.
    - intros e He Hne. by apply Hr6.
    - intros Hib6. by apply Hs6. }
  assert (Hc1 : calls s1 = DescribeInstancesById id :: calls s)
    by (by apply (fetch_ip_from_ec2_calls env id s s1 own)).
  assert (Hc4 : calls a4.2
                = (if bool_decide (own.1 ≠ ∅)
                   then [mutation env config "DELETE" "A" own.1] else [])
                  ++ [DescribeInstancesById id] ++ calls s).
  { unfold a4. rewrite removal_calls, Hc1. reflexivity. }
  assert (Hc6 : calls a6.2
                = ((if bool_decide (own.2 ≠ ∅)
                    then [mutation env config "DELETE" "AAAA" own.2] else [])
                   ++ (if bool_decide (own.1 ≠ ∅)
                       then [mutation env config "DELETE" "A" own.1] else [])
                   ++ [DescribeInstancesById id]) ++ calls s).
  { unfold a6. rewrite removal_calls, settled_calls, Hc4.
    by rewrite <- !app_assoc. }
  split; [|split; [|split; [|split; [exact H4|split; [exact H6|]]]]].
  - unfold single_mode. rewrite elements_empty, elements_singleton.
    cbn [for_each]. rewrite bind_ret, bind_eq.
    fold single. destruct single as [[[]|e] s2]; reflexivity.
  - destruct (answer_cases a4) as [[e [He Hne]]|Hib4].
    { rewrite (H4 e He Hne). simpl. congruence. }
    destruct (H6 Hib4) as [Hr Hk].
    destruct (answer_cases a6) as [[e [He Hne]]|Hib6].
    { rewrite (Hr e He Hne). simpl. congruence. }
    rewrite (Hk Hib6). discriminate.
  - assert (Hsub : forall l, sublist l [mutation env config "DELETE" "AAAA" own.2;
                                         mutation env config "DELETE" "A" own.1;
                                         DescribeInstancesById id] ->
                             forall s2, calls s2 = l ++ calls s ->
                                        sublist (new_calls s s2)
                                          [mutation env config "DELETE" "AAAA" own.2;
                                           mutation env config "DELETE" "A" own.1;
                                           DescribeInstancesById id]).
    { intros l Hl s2 E. by rewrite (new_calls_app s s2 l E). }
    assert (Hl4 : sublist ((if bool_decide (own.1 ≠ ∅)
                            then [mutation env config "DELETE" "A" own.1] else [])
                           ++ [DescribeInstancesById id])
                    [mutation env config "DELETE" "AAAA" own.2;
                     mutation env config "DELETE" "A" own.1;
                     DescribeInstancesById id]).
    { destruct (bool_decide (own.1 ≠ ∅)); simpl;
        repeat first [apply sublist_skip | apply sublist_cons | apply sublist_nil]. }
    assert (Hl6 : sublist ((if bool_decide (own.2 ≠ ∅)
                            then [mutation env config "DELETE" "AAAA" own.2] else [])
                           ++ (if bool_decide (own.1 ≠ ∅)
                               then [mutation env config "DELETE" "A" own.1] else [])
                           ++ [DescribeInstancesById id])
                    [mutation env config "DELETE" "AAAA" own.2;
                     mutation env config "DELETE" "A" own.1;
                     DescribeInstancesById id]).
    { destruct (bool_decide (own.2 ≠ ∅)), (bool_decide (own.1 ≠ ∅)); simpl;
        repeat first [apply sublist_skip | apply sublist_cons | apply sublist_nil]. }
    destruct (answer_cases a4) as [[e [He Hne]]|Hib4].
    { rewrite (H4 e He Hne). apply (Hsub _ Hl4). simpl. rewrite Hc4.
      by rewrite <- !app_assoc. }
    destruct (H6 Hib4) as [Hr Hk].
    destruct (answer_cases a6) as [[e [He Hne]]|Hib6].
    { rewrite (Hr e He Hne). apply (Hsub _ Hl6). exact Hc6. }
    rewrite (Hk Hib6). apply (Hsub _ Hl6). simpl. rewrite settled_calls. exact Hc6.
  - split; [|split].
    + intros old rt u Hold. rewrite (change_records_delete env config old rt u Hold).
      unfold removal. by rewrite bool_decide_eq_true_2.
    + intros e He. subst multi m4. unfold multi_mode. rewrite (bind_ok _ _ _ _ _ Et).
      destruct members as [C4 C6]. cbn [fst snd] in *. rewrite bind_eq.
      destruct (change_records env config old_ipv4s C4 "A" t1) as [[[]|e'] t2];
        simpl in He; [discriminate|].
      injection He as ->. reflexivity.
    + intros t2 E. subst multi m4. unfold multi_mode. rewrite (bind_ok _ _ _ _ _ Et).
      destruct members as [C4 C6]. cbn [fst snd] in *. rewrite bind_eq, E.
      reflexivity.
Qed.

(** ** The loop over the batch *)

Lemma for_each_app {A : Type} (l1 l2 : list A) (body : A -> M unit) (s : State) :
  for_each (l1 ++ l2) body s = (for_each l1 body;; for_each l2 body) s.
Proof.
  revert s. induction l1 as [|x l1 IH]; intros s; simpl; [reflexivity|].
  rewrite !bind_eq. destruct (body x s) as [[[]|e] s1]; [|reflexivity].
  rewrite IH. reflexivity.
Qed.

(** The completion step of an event that carries the four fields. *)
Lemma complete_run (env : Env) (msg : Message) (s : State) (hook asg id token : string) :
  msg !! LIFECYCLE_KEY = Some hook -> msg !! ASG_KEY = Some asg ->
  msg !! "EC2InstanceId" = Some id -> msg !! "LifecycleActionToken" = Some token ->
  let s0 := add_log INFO "Finishing ASG action" s in
  let c := CompleteLifecycleAction hook asg id token in
  complete env msg s
  = match faults env (calls s0) c with
    | None => (Ok tt, add_log INFO "ASG action complete: %s" (add_call c s0))
    | Some (ClientError code) =>
        (Ok tt, add_log INFO "Ignoring complete lifecycle action error: %s" (add_call c s0))
    | Some e => (Raise e, add_call c s0)
    end.
Proof.
  intros Hh Ha Hi Ht s0 c. unfold complete. rewrite Hh, Ha.
  rewrite !bool_decide_eq_true_2 by eauto. cbn [andb]. mrun.
  unfold try_except. unfold LIFECYCLE_KEY, ASG_KEY in Hh, Ha.
  rewrite (bind_getitem _ _ _ _ _ Hh), (bind_getitem _ _ _ _ _ Ha),
    (bind_getitem _ _ _ _ _ Hi), (bind_getitem _ _ _ _ _ Ht).
  rewrite bind_eq. unfold api. fold s0. fold c.
  destruct (faults env (calls s0) c) as [[code| |]|]; reflexivity.
Qed.

Lemma filter_none {A : Type} (f : A -> bool) (l : list A) :
  Forall (fun x => f x = false) l -> List.filter f l = [].
Proof.
  induction 1 as [|x l Hx _ IH]; simpl; [reflexivity|]. by rewrite Hx.
Qed.

Lemma handle_ok (env : Env) (msg : Message) (s s1 : State) :
  process_record env msg s = (Ok tt, s1) -> handle env msg s = complete env msg s1.
Proof. intros E. unfold handle. by rewrite (bind_ok _ _ _ _ _ E). Qed.

Lemma handle_raise (env : Env) (msg : Message) (s s1 : State) (e : exn) :
  process_record env msg s = (Raise e, s1) -> handle env msg s = (Raise e, s1).
Proof. intros E. unfold handle. by rewrite (bind_raise _ _ _ _ _ E). Qed.

(** What an event called, when it ends in [s1]. *)
Lemma process_record_calls (env : Env) (msg : Message) (s s1 : State) (r : res unit) :
  process_record env msg s = (r, s1) ->
  calls s1 = new_calls s s1 ++ calls s
  /\ Forall (fun c => completion c = false) (new_calls s s1).
Proof.
  intros E. pose proof (process_message_no_completion env msg s) as H.
  unfold process_record in E. rewrite E in H. by apply emits_new_calls.
Qed.

(** C8, as the code has it.  For an event that carries the four
    completion fields: when its processing returns, the completion
    signal is sent exactly once, and a client error of the completion
    call is logged and swallowed; when its processing raises, the
    exception leaves the loop at once and no completion signal is
    sent. *)
Theorem completion_signal (env : Env) (msg : Message) (s : State)
  (hook asg id token : string) :
  msg !! LIFECYCLE_KEY = Some hook -> msg !! ASG_KEY = Some asg ->
  msg !! "EC2InstanceId" = Some id -> msg !! "LifecycleActionToken" = Some token ->
  let c := CompleteLifecycleAction hook asg id token in
  (forall s1, process_record env msg s = (Ok tt, s1) ->
     let s0 := add_log INFO "Finishing ASG action" s1 in
     List.filter completion (new_calls s (handle env msg s).2) = [c]
     /\ (forall code, faults env (calls s0) c = Some (ClientError code) ->
           handle env msg s
           = (Ok tt, add_log INFO "Ignoring complete lifecycle action error: %s"
                       (add_call c s0))))
  /\ (forall e s1, process_record env msg s = (Raise e, s1) ->
        handle env msg s = (Raise e, s1)
        /\ List.filter completion (new_calls s s1) = []).
Proof.
  intros Hh Ha Hi Ht c. split.
  - intros s1 E s0. rewrite (handle_ok _ _ _ _ E).
    rewrite (complete_run env msg s1 hook asg id token Hh Ha Hi Ht).
    fold s0. fold c. destruct (process_record_calls _ _ _ _ _ E) as [Hc Hn]. split.
    + assert (Hfinal : forall s2, calls s2 = c :: calls s1 ->
                                  List.filter completion (new_calls s s2) = [c]).
      { intros s2 E2. rewrite (new_calls_app s s2 (c :: new_calls s s1)).
        - simpl. by rewrite filter_none.
        - rewrite E2, Hc. reflexivity. }
      destruct (faults env (calls s0) c) as [[code| |]|]; by apply Hfinal.
    + intros code ->. reflexivity.
  - intros e s1 E. split; [by apply handle_raise|].
    apply filter_none. by apply (process_record_calls _ _ _ _ _ E).
Qed.

(** C9, as the code has it.  When the events before [m] have been
    processed to completion and [m] raises, the exception leaves
    [lambda_handler] in the state in which [m] failed: no event after
    [m] is processed. *)
Theorem failure_aborts_batch (env : Env) (pre post : list Message) (m : Message)
  (s s1 s2 : State) (e : exn) :
  for_each pre (handle env) (add_log INFO "Processing SNS event: %s" s) = (Ok tt, s1) ->
  handle env m s1 = (Raise e, s2) ->
  lambda_handler env (pre ++ m :: post) s = (Raise e, s2).
Proof.
  intros Hpre Hm. unfold lambda_handler. mrun.
  rewrite for_each_app, (bind_ok _ _ _ _ _ Hpre). simpl.
  by rewrite (bind_raise _ _ _ _ _ Hm).
Qed.

(** C10.  The completion step looks only for the hook name and the
    group name before it reads four fields.  With these two present and
    the event processed: a message without [EC2InstanceId] raises the
    key error of that field, a message with it but without
    [LifecycleActionToken] raises the key error of that one, neither is
    caught; with all four present the lookups succeed and the
    completion call is made. *)
Theorem completion_key_lookups (env : Env) (msg : Message) (s s1 : State)
  (hook asg : string) :
  msg !! LIFECYCLE_KEY = Some hook -> msg !! ASG_KEY = Some asg ->
  process_record env msg s = (Ok tt, s1) ->
  let s0 := add_log INFO "Finishing ASG action" s1 in
  (msg !! "EC2InstanceId" = None ->
   handle env msg s = (Raise (KeyError "EC2InstanceId"), s0))
  /\ (is_Some (msg !! "EC2InstanceId") -> msg !! "LifecycleActionToken" = None ->
      handle env msg s = (Raise (KeyError "LifecycleActionToken"), s0))
  /\ (forall id token,
        msg !! "EC2InstanceId" = Some id -> msg !! "LifecycleActionToken" = Some token ->
        calls (handle env msg s).2 = CompleteLifecycleAction hook asg id token :: calls s1).
Proof.
  intros Hh Ha E s0. rewrite (handle_ok _ _ _ _ E). repeat split.
  - intros Hi. unfold complete. rewrite Hh, Ha.
    rewrite !bool_decide_eq_true_2 by eauto. cbn [andb]. mrun.
    unfold try_except. unfold LIFECYCLE_KEY, ASG_KEY in Hh, Ha.
    rewrite (bind_getitem _ _ _ _ _ Hh), (bind_getitem _ _ _ _ _ Ha).
    rewrite (bind_getitem_missing _ _ _ _ Hi). reflexivity.
  - intros [id Hi] Ht. unfold complete. rewrite Hh, Ha.
    rewrite !bool_decide_eq_true_2 by eauto. cbn [andb]. mrun.
    unfold try_except. unfold LIFECYCLE_KEY, ASG_KEY in Hh, Ha.
    rewrite (bind_getitem _ _ _ _ _ Hh), (bind_getitem _ _ _ _ _ Ha),
      (bind_getitem _ _ _ _ _ Hi).
    rewrite (bind_getitem_missing _ _ _ _ Ht). reflexivity.
  - intros id token Hi Ht.
    rewrite (complete_run env msg s1 hook asg id token Hh Ha Hi Ht).
    destruct (faults env _ _) as [[code| |]|]; reflexivity.
Qed.

(** ** Single mode: a launch *)

Lemma fetch_ip_from_ec2_value (env : Env) (id : string) (s s' : State)
  (r : gset string * gset string) :
  fetch_ip_from_ec2 env id s = (Ok r, s') -> r = own_ips env id (fleet s).
Proof.
  unfold fetch_ip_from_ec2, api. rewrite bind_eq.
  destruct (faults env (calls s) _); [discriminate|].
  unfold Service.describe_instances_by_id.
  destruct (Service.known id (add_call _ s)); [|discriminate]. cbn [fst snd].
  intros E. apply (f_equal fst) in E. simpl in E.
  rewrite (foldM_value _ (foldl (foldl (addresses env)))) in E.
  - injection E as <-. reflexivity.
  - intros b x s0. apply foldM_value. intros b1 x1 s1. apply foldM_value.
    intros b2 i s2. mrun. apply collect_value.
Qed.

Lemma addresses_elem (env : Env) (l : list Instance) (acc : gset string * gset string)
  (a : string) :
  (a ∈ (foldl (addresses env) acc l).1 ->
   a ∈ acc.1 \/ exists i, In i l /\ IPV4_FIELD env i = Some a) /\
  (a ∈ (foldl (addresses env) acc l).2 ->
   a ∈ acc.2 \/ exists i, In i l /\ IPV6_FIELD i = Some a).
Proof.
  revert acc. induction l as [|i l IH]; intros acc; simpl; [tauto|].
  destruct (IH (addresses env acc i)) as [IH1 IH2]. split.
  - intros H. apply IH1 in H as [H|[j [Hj H]]]; [|right; exists j; tauto].
    unfold addresses in H. simpl in H.
    destruct (IPV4_FIELD env i) as [b|] eqn:E; [|tauto].
    apply elem_of_union in H as [H|H]; [|tauto].
    apply elem_of_singleton in H as ->. right. exists i. tauto.
  - intros H. apply IH2 in H as [H|[j [Hj H]]]; [|right; exists j; tauto].
    unfold addresses in H. simpl in H.
    destruct (IPV6_FIELD i) as [b|] eqn:E; [|tauto].
    apply elem_of_union in H as [H|H]; [|tauto].
    apply elem_of_singleton in H as ->. right. exists i. tauto.
Qed.

(** An instance without address of a family has an empty set for it. *)
Lemma own_ips_empty (env : Env) (id : string) (fl : list (list (list Instance))) :
  ((forall i, In i (instances fl) -> InstanceId i = id -> IPV4_FIELD env i = None) ->
   (own_ips env id fl).1 = ∅) /\
  ((forall i, In i (instances fl) -> InstanceId i = id -> IPV6_FIELD i = None) ->
   (own_ips env id fl).2 = ∅).
Proof.
  unfold own_ips. rewrite !foldl_concat.
  fold (instances (map (map (List.filter (fun i => String.eqb (InstanceId i) id))) fl)).
  split; intros H; apply set_eq; intros a; split; try set_solver; intros Ha.
  - apply addresses_elem in Ha as [Ha|[i [Hi Ha]]]; [set_solver|].
    apply in_instances_filter in Hi as [Hi Hid]. apply String.eqb_eq in Hid.
    rewrite (H i Hi Hid) in Ha. discriminate.
  - apply addresses_elem in Ha as [Ha|[i [Hi Ha]]]; [set_solver|].
    apply in_instances_filter in Hi as [Hi Hid]. apply String.eqb_eq in Hid.
    rewrite (H i Hi Hid) in Ha. discriminate.
Qed.

Lemma classify_launching (msg : Message) (id : string)
  (ids : option (gset string * gset string)) :
  msg !! "LifecycleTransition" = Some LAUNCHING -> msg !! "EC2InstanceId" = Some id ->
  returns (classify msg) ids -> ids = Some ({[id]}, ∅).
Proof.
  intros Ht Hi [s [s' E]]. unfold classify in E.
  rewrite (bind_getitem _ _ _ _ _ Ht) in E. rewrite String.eqb_refl in E.
  rewrite (bind_getitem _ _ _ _ _ Hi) in E. by injection E as <-.
Qed.

(** A resolved policy has the mode of the tag, or the default. *)
Lemma parse_tags_mode (asg : string) (tags : gmap string string) (s s' : State)
  (config : HostnameConfig) :
  parse_tags asg tags s = (Ok (Some config), s') ->
  mode config = default MODE_DEFAULT (tags !! MODE_TAG_NAME).
Proof.
  destruct (PyStr.split_first "@" (default "" (tags !! HOSTNAME_TAG_NAME)))
    as [[h z]|] eqn:E.
  - rewrite (parse_tags_separator asg tags s h z E).
    destruct (bool_decide _); [|discriminate]. by intros [= <- _].
  - apply split_first_none in E. rewrite (parse_tags_no_separator asg tags s E).
    discriminate.
Qed.

Lemma launch_frame_add_call (P : Call -> Prop) (T : string) (c : Call) (s : State) :
  P c -> launch_frame P T s (add_call c s).
Proof.
  intros H. split; [by apply emits_add_call|]. split; [|reflexivity].
  intros zid n. reflexivity.
Qed.

(** An upsert of another type than [T] is within the frame. *)
Lemma launch_frame_change_records (P : Call -> Prop) (T : string) (env : Env)
  (config : HostnameConfig) (old new : gset string) (rt : string) :
  P (mutation env config "UPSERT" rt new) -> rt <> T -> new <> ∅ ->
  keeps (launch_frame P T) (change_records env config old new rt).
Proof.
  intros HP Hrt Hnew. apply keeps_change_records; [exact _ | |].
  - intros _ _. split; intros s.
    + by apply launch_frame_add_call.
    + split; [|split].
      * apply emits_same_calls, change_resource_record_sets_state.
      * by apply change_resource_record_sets_same_type.
      * apply change_resource_record_sets_state.
  - intros _ E. contradiction.
Qed.

(** The launch of one instance stays within the frame of every type
    for which the instance has no address. *)
Lemma single_launch_frame (P : Call -> Prop) (T : string) (env : Env)
  (config : HostnameConfig) (old_ipv4s old_ipv6s : gset string) (id : string)
  (s : State) :
  P (DescribeInstancesById id) ->
  (forall rt new, rt <> T -> P (mutation env config "UPSERT" rt new)) ->
  (T = "A" -> (own_ips env id (fleet s)).1 = ∅) ->
  (T = "AAAA" -> (own_ips env id (fleet s)).2 = ∅) ->
  launch_frame P T s (single_launch env config old_ipv4s old_ipv6s id s).2.
Proof.
  intros Hd Hu H4 H6. unfold single_launch. apply run_bind; [exact _ | |].
  - apply keeps_fetch_ip_from_ec2; [exact _|]. intros s0.
    by apply launch_frame_add_call.
  - intros [ipv4s ipv6s] s1 E. apply fetch_ip_from_ec2_value in E.
    assert (Hkeeps : keeps (launch_frame P T)
              (for_each [(old_ipv4s, ipv4s, "A"); (old_ipv6s, ipv6s, "AAAA")]
                 (fun '(old, new, record_type) =>
                    if bool_decide (new ≠ ∅)
                    then change_records env config old new record_type
                    else mret tt))); [|apply Hkeeps].
    simpl. keeps_step; [|keeps_step; [|keeps_auto]].
    + destruct (bool_decide_reflect (ipv4s ≠ ∅)) as [Hn|Hn]; [|keeps_auto].
      apply launch_frame_change_records; [apply Hu| |assumption];
        intros <-; apply Hn; rewrite <- (H4 eq_refl), <- E; reflexivity.
    + destruct (bool_decide_reflect (ipv6s ≠ ∅)) as [Hn|Hn]; [|keeps_auto].
      apply launch_frame_change_records; [apply Hu| |assumption];
        intros <-; apply Hn; rewrite <- (H6 eq_refl), <- E; reflexivity.
Qed.

#[export] Instance at_fleet_stable (F : list (list (list Instance))) (P : Call -> Prop)
  (T : string) : Stable (at_fleet F P T).
Proof.
  split; [split|]; unfold at_fleet.
  - intros s _. reflexivity.
  - intros s1 s2 s3 H12 H23 HF. specialize (H12 HF).
    etransitivity; [exact H12|]. apply H23.
    destruct H12 as [_ [_ Hfl]]. unfold same_fleet in Hfl. congruence.
  - intros l msg s _. apply stable_log.
Qed.

Lemma at_fleet_keeps (F : list (list (list Instance))) (P : Call -> Prop) (T : string)
  {A : Type} (m : M A) :
  keeps (launch_frame P T) m -> keeps (at_fleet F P T) m.
Proof. intros H s _. apply H. Qed.

(** A launching event of a group in Single mode, from the fleet [F]:
    it reads the tags, the directory and the instance, and upserts. *)
Lemma launching_single_frame (F : list (list (list Instance))) (P : Call -> Prop)
  (T : string) (env : Env) (msg : Message) (id : string) :
  msg !! "LifecycleTransition" = Some LAUNCHING -> msg !! "EC2InstanceId" = Some id ->
  (forall asg, msg !! ASG_KEY = Some asg ->
               asg_tags env asg !! MODE_TAG_NAME = Some MODE_SINGLE) ->
  (forall c, deletes c = false -> mutates T c = false -> P c) ->
  (T = "A" -> (own_ips env id F).1 = ∅) ->
  (T = "AAAA" -> (own_ips env id F).2 = ∅) ->
  keeps (at_fleet F P T) (process_message env msg).
Proof.
  intros Ht Hi Hmode HP H4 H6. unfold process_message.
  rewrite bool_decide_eq_false_2 by (rewrite Ht; discriminate).
  keeps_step; [keeps_auto|].
  apply keeps_bind_returns; [exact _ | apply keeps_classify; exact _ |].
  intros ids Hids. rewrite (classify_launching msg id ids Ht Hi Hids).
  keeps_step; [keeps_auto|]. rewrite elements_empty. simpl.
  keeps_step; [keeps_auto|].
  apply keeps_bind_returns; [exact _ | keeps_auto |]. intros asg Hasg.
  apply returns_getitem in Hasg.
  apply keeps_bind_returns; [exact _ | |].
  { apply at_fleet_keeps, keeps_from_asg_name; [exact _|]. intros s.
    apply launch_frame_add_call. by apply HP. }
  intros [config|] [s [s' E]]; [|keeps_auto].
  apply from_asg_name_returns in E as [s1 E]. apply parse_tags_mode in E.
  rewrite (Hmode asg Hasg) in E. simpl in E.
  unfold reconcile, is_single. rewrite E. rewrite String.eqb_refl.
  keeps_step; [|keeps_step].
  - apply at_fleet_keeps, keeps_fetch_values_from_route53; [exact _|]. intros s0.
    apply launch_frame_add_call. by apply HP.
  - apply at_fleet_keeps, keeps_fetch_values_from_route53; [exact _|]. intros s0.
    apply launch_frame_add_call. by apply HP.
  - unfold single_mode. rewrite elements_singleton, elements_empty. simpl.
    keeps_step; [|keeps_auto]. keeps_step; [|keeps_auto].
    intros s0 HF. apply single_launch_frame.
    + by apply HP.
    + intros rt new Hrt. apply HP; [reflexivity|]. simpl.
      by apply String.eqb_neq.
    + rewrite HF. exact H4.
    + rewrite HF. exact H6.
Qed.

(** C4.  A launching event of a group in Single mode never submits a
    DELETE; and for a family in which the launched instance has no
    address it submits no mutation at all, so every record set of that
    type is left as it was. *)
Theorem single_launch_spares_empty_family (env : Env) (msg : Message) (id : string)
  (s : State) :
  msg !! "LifecycleTransition" = Some LAUNCHING -> msg !! "EC2InstanceId" = Some id ->
  (forall asg, msg !! ASG_KEY = Some asg ->
               asg_tags env asg !! MODE_TAG_NAME = Some MODE_SINGLE) ->
  let s' := (process_message env msg s).2 in
  Forall (fun c => deletes c = false) (new_calls s s')
  /\ ((forall i, In i (instances (fleet s)) -> InstanceId i = id ->
                 IPV4_FIELD env i = None) ->
      Forall (fun c => mutates "A" c = false) (new_calls s s') /\ same_type "A" s s')
  /\ ((forall i, In i (instances (fleet s)) -> InstanceId i = id ->
                 IPV6_FIELD i = None) ->
      Forall (fun c => mutates "AAAA" c = false) (new_calls s s')
      /\ same_type "AAAA" s s').
Proof.
  intros Ht Hi Hmode s'. split; [|split].
  - assert (H : at_fleet (fleet s) (fun c => deletes c = false) "" s s').
    { apply (launching_single_frame (fleet s) _ "" env msg id); try assumption.
      - intros c Hc _. exact Hc.
      - discriminate.
      - discriminate. }
    destruct (H eq_refl) as [He _]. by apply emits_new_calls.
  - intros Hnone.
    assert (H : at_fleet (fleet s) (fun c => mutates "A" c = false) "A" s s').
    { apply (launching_single_frame (fleet s) _ "A" env msg id); try assumption.
      - intros c _ Hc. exact Hc.
      - intros _. by apply own_ips_empty.
      - discriminate. }
    destruct (H eq_refl) as [He [Hs _]]. split; [by apply emits_new_calls | exact Hs].
  - intros Hnone.
    assert (H : at_fleet (fleet s) (fun c => mutates "AAAA" c = false) "AAAA" s s').
    { apply (launching_single_frame (fleet s) _ "AAAA" env msg id); try assumption.
      - intros c _ Hc. exact Hc.
      - discriminate.
      - intros _. by apply own_ips_empty. }
    destruct (H eq_refl) as [He [Hs _]]. split; [by apply emits_new_calls | exact Hs].
Qed.

(** ** Multi mode: one reconciliation pass *)

Lemma same_world_add_call (c : Call) (s : State) : same_world s (add_call c s).
Proof. split; reflexivity. Qed.

Lemma foldl_add_values (l : list string) (X : gset string) :
  foldl (fun vs rr => {[rr]} ∪ vs) X l = list_to_set l ∪ X.
Proof.
  revert X. induction l as [|x l IH]; intros X; simpl.
  - by rewrite (left_id_L ∅ (∪)).
  - rewrite IH. apply set_eq. intros a.
    rewrite !elem_of_union, elem_of_singleton. tauto.
Qed.

Lemma next_after_lookup (start : string * string) (z : Zone)
  (kv : string * string * (Z * gset string)) :
  Service.next_after start z = Some kv -> z !! kv.1 = Some kv.2.
Proof.
  unfold Service.next_after.
  assert (H : forall l, (forall x, In x l -> z !! x.1 = Some x.2) ->
    foldr (fun kv best =>
             if Service.key_ltb start kv.1 then
               match best with
               | Some b => if Service.key_ltb kv.1 b.1 then Some kv else best
               | None => Some kv
               end
             else best) None l = Some kv -> z !! kv.1 = Some kv.2).
  { induction l as [|x l IH]; simpl; [discriminate|]. intros Hin.
    destruct (Service.key_ltb start x.1).
    - destruct (foldr _ None l) as [b|] eqn:Eb.
      + destruct (Service.key_ltb x.1 b.1).
        * intros [= <-]. apply Hin. by left.
        * intros E. apply IH; [|exact E]. intros y Hy. apply Hin. by right.
      + intros [= <-]. apply Hin. by left.
    - apply IH. intros y Hy. apply Hin. by right. }
  apply H. intros [k v] Hx. apply list_elem_of_In in Hx.
  by apply elem_of_map_to_list in Hx.
Qed.

(** The reader finds the values of the record set asked for, and
    nothing when the listing starts at another record set. *)
Lemma read_values_list_from (config : HostnameConfig) (rt : string) (z : Zone) :
  read_values config rt (Service.list_from (canonical_hostname config, rt) z)
  = match z !! (canonical_hostname config, rt) with
    | Some (_, values) => values
    | None => ∅
    end.
Proof.
  unfold read_values, Service.list_from.
  destruct (z !! (canonical_hostname config, rt)) as [[ttl vs]|] eqn:E; simpl.
  - rewrite !String.eqb_refl. simpl. rewrite foldl_add_values.
    rewrite list_to_set_elements_L. apply (right_id_L ∅ (∪)).
  - destruct (Service.next_after _ z) as [[[n t] [ttl vs]]|] eqn:En; simpl; [|reflexivity].
    apply next_after_lookup in En. simpl in En.
    destruct (String.eqb_spec n (canonical_hostname config)) as [->|Hn]; [|reflexivity].
    destruct (String.eqb_spec t rt) as [->|Ht]; [|reflexivity]. congruence.
Qed.

(** Without faults the reader returns the directory's set and changes
    neither zones nor fleet. *)
Lemma fetch_values_from_route53_reads (env : Env) (config : HostnameConfig) (rt : string)
  (s : State) :
  no_faults env -> is_Some (zones s !! zone_id config) ->
  Service.fqdn (hostname config) = canonical_hostname config ->
  exists s',
    fetch_values_from_route53 env config rt s
    = (Ok (directory s (zone_id config) (canonical_hostname config) rt), s')
    /\ same_world s s'.
Proof.
  intros Hnf [z Hz] Hfq.
  assert (Hrun : exists s',
            fetch_values_from_route53 env config rt s
            = (Ok (directory s (zone_id config) (canonical_hostname config) rt), s')).
  { unfold fetch_values_from_route53. mrun. rewrite bind_eq.
    unfold api at 1. rewrite Hnf. unfold Service.list_resource_record_sets.
    cbn [add_call add_log zones]. rewrite Hz, Hfq.
    match goal with
    | |- context [(foldM ?body ?acc ?response ≫= _) ?s0] =>
        assert (exists s1, foldM body acc response s0
                           = (Ok (read_values config rt response), s1)) as [s1 E];
        [apply foldM_run|]
    end.
    - intros b x s0. destruct (negb _); [reflexivity|]. destruct (negb _); reflexivity.
    - rewrite bind_eq, E. rewrite read_values_list_from.
      assert (Hd : directory s (zone_id config) (canonical_hostname config) rt
                   = match z !! (canonical_hostname config, rt) with
                     | Some (_, values) => values
                     | None => ∅
                     end).
      { unfold directory, record_set. rewrite Hz. reflexivity. }
      rewrite <- Hd. destruct (bool_decide _); eexists; reflexivity. }
  destruct Hrun as [s' E]. exists s'. split; [exact E|].
  assert (Hframe : same_world s (fetch_values_from_route53 env config rt s).2).
  { apply keeps_fetch_values_from_route53; [exact _|]. intros s0.
    apply same_world_add_call. }
  by rewrite E in Hframe.
Qed.

(** Without faults the membership query returns the live addresses and
    changes neither zones nor fleet. *)
Lemma fetch_instance_ips_reads (env : Env) (asg : string) (ignore_ids : gset string)
  (s : State) :
  no_faults env ->
  exists s',
    fetch_instance_ips env asg ignore_ids s
    = (Ok (live_ips env asg ignore_ids (fleet s)), s')
    /\ same_world s s'.
Proof.
  intros Hnf.
  assert (Hrun : exists r s', fetch_instance_ips env asg ignore_ids s = (Ok r, s')).
  { unfold fetch_instance_ips. rewrite bind_eq. unfold api at 1. rewrite Hnf.
    unfold Service.describe_instances_of_group.
    match goal with
    | |- context [foldM ?body (∅, ∅) ?pages ?s0] =>
        destruct (foldM body (∅, ∅) pages s0) as [[r|e] s2] eqn:E
    end.
    - eauto.
    - exfalso. apply (f_equal fst) in E. simpl in E.
      rewrite (foldM_value _ (foldl (foldl (pick env ignore_ids)))) in E;
        [discriminate|].
      intros b x s0. apply foldM_value. intros b1 x1 s3. apply foldM_value.
      intros b2 i s4. unfold pick.
      destruct (bool_decide (InstanceId i ∈ ignore_ids)); [reflexivity|].
      destruct (has_terminating_tag i); [reflexivity|].
        mrun. apply collect_value. }
  destruct Hrun as [r [s' E]]. exists s'.
  rewrite <- (fetch_instance_ips_value env asg ignore_ids s s' r E).
  split; [exact E|].
  assert (Hframe : same_world s (fetch_instance_ips env asg ignore_ids s).2).
  { apply keeps_fetch_instance_ips; [exact _|]. intros s0. apply same_world_add_call. }
  by rewrite E in Hframe.
Qed.

Lemma update_record_answered (env : Env) (config : HostnameConfig) (values : gset string)
  (op rt : string) (s : State) :
  no_faults env ->
  update_record env config values op rt s
  = mutate env config op rt values
      (add_call (mutation env config op rt values)
         (add_log INFO "Changing record with %s for %s -> %s in %s" s)).
Proof.
  intros Hnf. unfold update_record. mrun. unfold api. rewrite Hnf. reflexivity.
Qed.

(** What one decision does to the zones when no service fails, the
    old set is the one the zone holds and, where the record set is to
    be deleted, it is stored under the TTL the handler submits. *)
Lemma change_records_zones (env : Env) (config : HostnameConfig) (new : gset string)
  (rt : string) (s : State) (z : Zone) :
  no_faults env -> zones s !! zone_id config = Some z ->
  Service.fqdn (hostname config) = canonical_hostname config ->
  (forall ttl, z !! (canonical_hostname config, rt) <> Some (ttl, ∅)) ->
  (new = ∅ -> forall ttl values,
     z !! (canonical_hostname config, rt) = Some (ttl, values) -> ttl = ROUTE53_TTL env) ->
  let k := (canonical_hostname config, rt) in
  let old := match z !! k with Some (_, values) => values | None => ∅ end in
  exists s',
    change_records env config old new rt s = (Ok tt, s')
    /\ fleet s' = fleet s
    /\ zones s'
       = if bool_decide (old = new) then zones s
         else if bool_decide (new ≠ ∅)
              then <[zone_id config := <[k := (ROUTE53_TTL env, new)]> z]> (zones s)
              else <[zone_id config := delete k z]> (zones s).
Proof.
  intros Hnf Hz Hfq Hwf Httl k old. unfold change_records.
  destruct (bool_decide_reflect (old = new)) as [E|Hne].
  { eexists. split; [reflexivity|]. split; reflexivity. }
  destruct (bool_decide_reflect (new ≠ ∅)) as [Hn|Hn].
  - assert (Hrun : forall s0, zones s0 = zones s -> fleet s0 = fleet s ->
              exists s', update_record env config new "UPSERT" rt s0 = (Ok tt, s')
                         /\ fleet s' = fleet s
                         /\ zones s' = <[zone_id config
                                          := <[k := (ROUTE53_TTL env, new)]> z]> (zones s)).
    { intros s0 Hz0 Hf0. rewrite update_record_answered by assumption.
      unfold mutate, Service.change_resource_record_sets. cbn [add_call add_log zones].
      rewrite Hz0, Hz, Hfq. cbn [String.eqb Ascii.eqb Bool.eqb].
      rewrite bool_decide_eq_false_2 by assumption.
      eexists. split; [reflexivity|]. split; [exact Hf0 | reflexivity]. }
    destruct (bool_decide (new ∖ old ≠ ∅)), (bool_decide (old ∖ new ≠ ∅)); mrun;
      apply Hrun; reflexivity.
  - apply dec_stable in Hn. subst new. mrun.
    rewrite update_record_answered by assumption.
    unfold mutate, Service.change_resource_record_sets. cbn [add_call add_log zones].
    rewrite Hz, Hfq. cbn [String.eqb Ascii.eqb Bool.eqb]. fold k.
    specialize (Httl eq_refl). fold k in Httl.
    subst old. destruct (z !! k) as [[ttl live]|] eqn:Ek; [|by destruct Hne].
    rewrite (Httl ttl live eq_refl).
    rewrite bool_decide_eq_true_2 by reflexivity.
    eexists. split; [reflexivity|]. split; reflexivity.
Qed.

(** The delete of a record set that is stored under another TTL than
    the handler's: Route53 rejects it, and zones and fleet are as they
    were. *)
Lemma change_records_rejected (env : Env) (config : HostnameConfig) (old : gset string)
  (rt : string) (ttl : Z) (s : State) :
  no_faults env -> is_Some (zones s !! zone_id config) ->
  Service.fqdn (hostname config) = canonical_hostname config ->
  record_set s (zone_id config) (canonical_hostname config) rt = Some (ttl, old) ->
  old <> ∅ -> ttl <> ROUTE53_TTL env ->
  exists s',
    change_records env config old ∅ rt s = (Raise invalid_batch, s')
    /\ fleet s' = fleet s /\ zones s' = zones s.
Proof.
  intros Hnf [z Hz] Hfq Hrec Hold Httl.
  rewrite (change_records_delete env config old rt s Hold).
  rewrite update_record_answered by assumption.
  unfold mutate, Service.change_resource_record_sets. cbn [add_call add_log zones].
  rewrite Hz, Hfq. cbn [String.eqb Ascii.eqb Bool.eqb].
  unfold record_set in Hrec. rewrite Hz in Hrec. simpl in Hrec. rewrite Hrec.
  rewrite bool_decide_eq_false_2 by congruence.
  eexists. split; [reflexivity|]. split; reflexivity.
Qed.

Lemma deletable_at_zone (env : Env) (config : HostnameConfig) (new : gset string)
  (rt : string) (s : State) (z : Zone) :
  zones s !! zone_id config = Some z ->
  deletable env s (zone_id config) (canonical_hostname config) rt new ->
  new = ∅ -> forall ttl values,
    z !! (canonical_hostname config, rt) = Some (ttl, values) -> ttl = ROUTE53_TTL env.
Proof.
  intros Hz [Hn|Hc] -> ttl values Ek; [by destruct Hn|].
  unfold configured_ttl, stored_ttl, record_set in Hc. rewrite Hz in Hc. simpl in Hc.
  rewrite Ek in Hc. simpl in Hc. destruct Hc as [Hc|Hc]; congruence.
Qed.

(** The same, read off the directory: after the decision the directory
    holds the new set, the record set is gone when the new set is
    empty, and the record sets of the other types are as they were. *)
Lemma change_records_converges (env : Env) (config : HostnameConfig) (new : gset string)
  (rt : string) (s : State) :
  no_faults env -> is_Some (zones s !! zone_id config) ->
  Service.fqdn (hostname config) = canonical_hostname config ->
  (forall ttl, record_set s (zone_id config) (canonical_hostname config) rt
               <> Some (ttl, ∅)) ->
  deletable env s (zone_id config) (canonical_hostname config) rt new ->
  exists s',
    change_records env config
      (directory s (zone_id config) (canonical_hostname config) rt) new rt s
    = (Ok tt, s')
    /\ fleet s' = fleet s
    /\ is_Some (zones s' !! zone_id config)
    /\ directory s' (zone_id config) (canonical_hostname config) rt = new
    /\ (new = ∅ ->
        record_set s' (zone_id config) (canonical_hostname config) rt = None)
    /\ (forall T name, T <> rt ->
          record_set s' (zone_id config) name T = record_set s (zone_id config) name T).
Proof.
  intros Hnf [z Hz] Hfq Hwf Hdel.
  assert (Hwfz : forall ttl, z !! (canonical_hostname config, rt) <> Some (ttl, ∅)).
  { intros ttl. specialize (Hwf ttl). unfold record_set in Hwf.
    rewrite Hz in Hwf. exact Hwf. }
  destruct (change_records_zones env config new rt s z Hnf Hz Hfq Hwfz
              (deletable_at_zone env config new rt s z Hz Hdel))
    as [s' [Hrun [Hfl Hzs]]].
  assert (Hold : directory s (zone_id config) (canonical_hostname config) rt
                 = match z !! (canonical_hostname config, rt) with
                   | Some (_, values) => values
                   | None => ∅
                   end)
    by (unfold directory, record_set; rewrite Hz; reflexivity).
  exists s'. rewrite Hold. split; [exact Hrun|]. split; [exact Hfl|].
  clear Hrun Hold Hdel. unfold directory, record_set. rewrite Hzs.
  destruct (bool_decide_reflect
              (match z !! (canonical_hostname config, rt) with
               | Some (_, values) => values
               | None => ∅
               end = new)) as [E|Hne].
  { rewrite Hz. simpl. split; [eauto|]. split; [exact E|].
    split; [|intros; reflexivity].
    intros ->. destruct (z !! (canonical_hostname config, rt)) as [[ttl vs]|] eqn:Ek;
      [|reflexivity].
    subst vs. exfalso. by apply (Hwfz ttl). }
  destruct (bool_decide_reflect (new ≠ ∅)) as [Hn|Hn].
  - rewrite lookup_insert_eq. simpl. rewrite lookup_insert_eq.
    split; [eauto|]. split; [reflexivity|]. split; [intros ->; by destruct Hn|].
    intros T name HT. rewrite Hz. simpl. rewrite lookup_insert_ne by congruence.
    reflexivity.
  - apply dec_stable in Hn. subst new.
    rewrite lookup_insert_eq. simpl. rewrite lookup_delete_eq.
    split; [eauto|]. split; [reflexivity|]. split; [reflexivity|].
    intros T name HT. rewrite Hz. simpl. rewrite lookup_delete_ne by congruence.
    reflexivity.
Qed.

(** A record set the handler cannot bring to [new]: it is to be
    deleted and is stored under another TTL. *)
Lemma not_deletable (env : Env) (s : State) (zid name rt : string) (new : gset string) :
  ~ deletable env s zid name rt new ->
  new = ∅ /\ exists ttl, record_set s zid name rt = Some (ttl, directory s zid name rt)
                         /\ ttl <> ROUTE53_TTL env.
Proof.
  intros H. unfold deletable, configured_ttl, stored_ttl, directory in *.
  split; [apply dec_stable; tauto|].
  destruct (record_set s zid name rt) as [[ttl vs]|]; simpl in H; [|tauto].
  exists ttl. split; [reflexivity|]. intros ->. tauto.
Qed.

(** The reads of a pass in Multi mode: they return, change neither
    zones nor fleet, and hand the two decisions what the directory
    holds and the membership computed from the fleet. *)
Lemma multi_mode_reads (env : Env) (config : HostnameConfig) (asg : string)
  (launch_ids terminate_ids : gset string) (s : State) :
  no_faults env -> is_single config = false ->
  is_Some (zones s !! zone_id config) ->
  Service.fqdn (hostname config) = canonical_hostname config ->
  let C := live_ips env asg terminate_ids (fleet s) in
  let zid := zone_id config in
  let name := canonical_hostname config in
  exists s3,
    zones s3 = zones s /\ fleet s3 = fleet s
    /\ reconcile env config asg launch_ids terminate_ids s
       = (change_records env config (directory s zid name "A") C.1 "A";;
          change_records env config (directory s zid name "AAAA") C.2 "AAAA") s3.
Proof.
  intros Hnf Hmulti Hzone Hfq C zid name. subst zid name.
  destruct (fetch_values_from_route53_reads env config "A" s Hnf Hzone Hfq)
    as [s1 [E1 [Hz1 Hf1]]].
  unfold same_zones in Hz1. unfold same_fleet in Hf1.
  assert (Hzone1 : is_Some (zones s1 !! zone_id config)) by (by rewrite Hz1).
  destruct (fetch_values_from_route53_reads env config "AAAA" s1 Hnf Hzone1 Hfq)
    as [s2 [E2 [Hz2 Hf2]]].
  unfold same_zones in Hz2. unfold same_fleet in Hf2.
  destruct (fetch_instance_ips_reads env asg terminate_ids s2 Hnf)
    as [s3 [E3 [Hz3 Hf3]]].
  unfold same_zones in Hz3. unfold same_fleet in Hf3.
  assert (Hd1 : directory s1 (zone_id config) (canonical_hostname config) "AAAA"
                = directory s (zone_id config) (canonical_hostname config) "AAAA")
    by (unfold directory, record_set; by rewrite Hz1).
  assert (HC : live_ips env asg terminate_ids (fleet s2) = C)
    by (unfold C; congruence).
  exists s3. split; [congruence|]. split; [congruence|].
  unfold reconcile. rewrite (bind_ok _ _ _ _ _ E1), (bind_ok _ _ _ _ _ E2), Hmulti.
  unfold multi_mode. rewrite (bind_ok _ _ _ _ _ E3), HC, Hd1.
  destruct C as [C4 C6]. reflexivity.
Qed.

(** One pass in Multi mode, with what it leaves behind. *)
Lemma multi_pass (env : Env) (config : HostnameConfig) (asg : string)
  (launch_ids terminate_ids : gset string) (s : State) :
  no_faults env -> is_single config = false ->
  is_Some (zones s !! zone_id config) ->
  Service.fqdn (hostname config) = canonical_hostname config ->
  well_formed s ->
  let C := live_ips env asg terminate_ids (fleet s) in
  let zid := zone_id config in
  let name := canonical_hostname config in
  deletable env s zid name "A" C.1 -> deletable env s zid name "AAAA" C.2 ->
  exists s',
    reconcile env config asg launch_ids terminate_ids s = (Ok tt, s')
    /\ fleet s' = fleet s
    /\ is_Some (zones s' !! zid)
    /\ directory s' zid name "A" = C.1
    /\ directory s' zid name "AAAA" = C.2
    /\ (C.1 = ∅ -> record_set s' zid name "A" = None)
    /\ (C.2 = ∅ -> record_set s' zid name "AAAA" = None).
Proof.
  intros Hnf Hmulti Hzone Hfq Hwf C zid name HtA HtB. subst zid name.
  destruct (multi_mode_reads env config asg launch_ids terminate_ids s
              Hnf Hmulti Hzone Hfq) as [s3 [Hzs [Hfs Erun]]].
  fold C in Erun. rewrite Erun. clear Erun.
  assert (Hrec : forall n T, record_set s3 (zone_id config) n T
                             = record_set s (zone_id config) n T)
    by (intros n T; unfold record_set; by rewrite Hzs).
  assert (Hdir : forall T, directory s3 (zone_id config) (canonical_hostname config) T
                           = directory s (zone_id config) (canonical_hostname config) T)
    by (intros T; unfold directory; by rewrite Hrec).
  destruct (change_records_converges env config C.1 "A" s3 Hnf) as [s4 H4].
  { by rewrite Hzs. }
  { exact Hfq. }
  { intros ttl. rewrite Hrec. apply Hwf. }
  { unfold deletable, configured_ttl, stored_ttl. rewrite Hrec. exact HtA. }
  destruct H4 as [E4 [Hf4 [Hzone4 [HdA [HnA Hframe4]]]]].
  destruct (change_records_converges env config C.2 "AAAA" s4 Hnf Hzone4 Hfq)
    as [s5 H5].
  { intros ttl. rewrite Hframe4 by discriminate. rewrite Hrec. apply Hwf. }
  { unfold deletable, configured_ttl, stored_ttl.
    rewrite Hframe4 by discriminate. rewrite Hrec. exact HtB. }
  destruct H5 as [E5 [Hf5 [Hzone5 [HdB [HnB Hframe5]]]]].
  assert (Hd4 : directory s4 (zone_id config) (canonical_hostname config) "AAAA"
                = directory s (zone_id config) (canonical_hostname config) "AAAA").
  { rewrite <- Hdir. unfold directory. by rewrite Hframe4. }
  exists s5. split.
  - rewrite Hdir in E4. rewrite (bind_ok _ _ _ _ _ E4).
    rewrite Hd4 in E5. exact E5.
  - split; [congruence|]. split; [exact Hzone5|].
    split; [|split; [exact HdB|split; [|exact HnB]]].
    + unfold directory. rewrite Hframe5 by discriminate. exact HdA.
    + intros H. rewrite Hframe5 by discriminate. by apply HnA.
Qed.

(** A pass in Multi mode that has to delete the A record set and finds
    it stored under another TTL: the rejection leaves the pass and no
    zone has changed. *)
Lemma multi_pass_rejected_ipv4 (env : Env) (config : HostnameConfig) (asg : string)
  (launch_ids terminate_ids : gset string) (s : State) :
  no_faults env -> is_single config = false ->
  is_Some (zones s !! zone_id config) ->
  Service.fqdn (hostname config) = canonical_hostname config ->
  well_formed s ->
  ~ deletable env s (zone_id config) (canonical_hostname config) "A"
      (live_ips env asg terminate_ids (fleet s)).1 ->
  exists s',
    reconcile env config asg launch_ids terminate_ids s = (Raise invalid_batch, s')
    /\ zones s' = zones s.
Proof.
  intros Hnf Hmulti Hzone Hfq Hwf Hno.
  destruct (multi_mode_reads env config asg launch_ids terminate_ids s
              Hnf Hmulti Hzone Hfq) as [s3 [Hzs [Hfs Erun]]].
  rewrite Erun. clear Erun.
  apply not_deletable in Hno as [HC [ttl [Hrec Httl]]]. rewrite HC.
  destruct (change_records_rejected env config
              (directory s (zone_id config) (canonical_hostname config) "A") "A" ttl s3
              Hnf) as [s4 [E4 [_ Hz4]]].
  { by rewrite Hzs. }
  { exact Hfq. }
  { unfold record_set. rewrite Hzs. exact Hrec. }
  { intros E. rewrite E in Hrec. by apply (Hwf _ _ _ _ Hrec). }
  { exact Httl. }
  exists s4. split; [|congruence].
  by rewrite (bind_raise _ _ _ _ _ E4).
Qed.

(** The same for the AAAA record set, after the A record set has been
    brought to the membership: the AAAA record set stays. *)
Lemma multi_pass_rejected_ipv6 (env : Env) (config : HostnameConfig) (asg : string)
  (launch_ids terminate_ids : gset string) (s : State) :
  no_faults env -> is_single config = false ->
  is_Some (zones s !! zone_id config) ->
  Service.fqdn (hostname config) = canonical_hostname config ->
  well_formed s ->
  deletable env s (zone_id config) (canonical_hostname config) "A"
    (live_ips env asg terminate_ids (fleet s)).1 ->
  ~ deletable env s (zone_id config) (canonical_hostname config) "AAAA"
      (live_ips env asg terminate_ids (fleet s)).2 ->
  exists s',
    reconcile env config asg launch_ids terminate_ids s = (Raise invalid_batch, s')
    /\ record_set s' (zone_id config) (canonical_hostname config) "AAAA"
       = record_set s (zone_id config) (canonical_hostname config) "AAAA".
Proof.
  intros Hnf Hmulti Hzone Hfq Hwf HtA Hno.
  destruct (multi_mode_reads env config asg launch_ids terminate_ids s
              Hnf Hmulti Hzone Hfq) as [s3 [Hzs [Hfs Erun]]].
  rewrite Erun. clear Erun.
  assert (Hrec3 : forall n T, record_set s3 (zone_id config) n T
                              = record_set s (zone_id config) n T)
    by (intros n T; unfold record_set; by rewrite Hzs).
  destruct (change_records_converges env config
              (live_ips env asg terminate_ids (fleet s)).1 "A" s3 Hnf) as [s4 H4].
  { by rewrite Hzs. }
  { exact Hfq. }
  { intros ttl. rewrite Hrec3. apply Hwf. }
  { unfold deletable, configured_ttl, stored_ttl. rewrite Hrec3. exact HtA. }
  destruct H4 as [E4 [Hf4 [Hzone4 [_ [_ Hframe4]]]]].
  assert (Hd3 : directory s3 (zone_id config) (canonical_hostname config) "A"
                = directory s (zone_id config) (canonical_hostname config) "A")
    by (unfold directory; by rewrite Hrec3).
  rewrite Hd3 in E4. rewrite (bind_ok _ _ _ _ _ E4).
  apply not_deletable in Hno as [HC [ttl [Hrec Httl]]]. rewrite HC.
  destruct (change_records_rejected env config
              (directory s (zone_id config) (canonical_hostname config) "AAAA") "AAAA"
              ttl s4 Hnf Hzone4 Hfq) as [s5 [E5 [_ Hz5]]].
  { rewrite Hframe4 by discriminate. rewrite Hrec3. exact Hrec. }
  { intros E. rewrite E in Hrec. by apply (Hwf _ _ _ _ Hrec). }
  { exact Httl. }
  exists s5. split; [exact E5|].
  unfold record_set at 1. rewrite Hz5.
  fold (record_set s4 (zone_id config) (canonical_hostname config) "AAAA").
  rewrite Hframe4 by discriminate. apply Hrec3.
Qed.


Lemma well_formed_zones_sound (s : State) : well_formed_zones s -> well_formed s.
Proof.
  intros H zid name T ttl E. unfold record_set in E.
  destruct (zones s !! zid) as [z|] eqn:Ez; [|discriminate]. simpl in E.
  apply (H zid z Ez (name, T) (ttl, ∅) E). reflexivity.
Qed.

(** ** The claims at the scenarios *)

Import Scenario.

(** Decides a closed decidable proposition by evaluation. *)
Ltac evaluate := apply (bool_decide_unpack _); vm_compute; exact I.

(** C1 at the stale A set of [www]: an UPSERT of the whole new set. *)
Lemma change_records_decision_witness :
  ({[ "10.0.0.1"; "10.0.0.9" ]} : gset string) <> {[ "10.0.0.1" ]}
  /\ ({[ "10.0.0.1" ]} : gset string) <> ∅
  /\ new_calls state0
       (change_records env web {[ "10.0.0.1"; "10.0.0.9" ]} {[ "10.0.0.1" ]} "A" state0).2
     = [ChangeResourceRecordSets "Z1" "UPSERT" "www.example.com" "A" 60 {[ "10.0.0.1" ]}].
Proof.
  assert (H1 : ({[ "10.0.0.1"; "10.0.0.9" ]} : gset string) <> {[ "10.0.0.1" ]})
    by evaluate.
  assert (H2 : ({[ "10.0.0.1" ]} : gset string) <> ∅) by evaluate.
  split; [exact H1|]. split; [exact H2|].
  exact (proj1 (proj2 (change_records_decision env web _ _ "A" state0)) H1 H2).
Defined.



(** C3 at two terminations whose DELETEs Route53 rejects as invalid
    change batches.  In Single mode, for [i-5] of [solo], both
    rejections are swallowed and the branch returns; in Multi mode, for
    the last member of [web], the rejection leaves [multi_mode]. *)
Lemma delete_conflict_by_mode_witness :
  fetch_ip_from_ec2 env_conflict "i-5" state4
  = (Ok ({[ "10.0.0.5" ]}, {[ "2001:db8::5" ]}),
     (fetch_ip_from_ec2 env_conflict "i-5" state4).2)
  /\ fetch_instance_ips env_conflict "web" {[ "i-1" ]} state1
     = (Ok (∅, ∅), (fetch_instance_ips env_conflict "web" {[ "i-1" ]} state1).2)
  /\ single_mode env_conflict solo ∅ {[ "i-5" ]} {[ "10.0.0.1" ]} ∅ state4
     = single_terminate env_conflict solo "i-5" state4
  /\ (single_terminate env_conflict solo "i-5" state4).1 = Ok tt
  /\ sublist (new_calls state4 (single_terminate env_conflict solo "i-5" state4).2)
       [ChangeResourceRecordSets "Z1" "DELETE" "db.example.com" "AAAA" 60
          {[ "2001:db8::5" ]};
        ChangeResourceRecordSets "Z1" "DELETE" "db.example.com" "A" 60 {[ "10.0.0.5" ]};
        DescribeInstancesById "i-5"]
  /\ (multi_mode env_conflict solo "web" {[ "i-1" ]} {[ "10.0.0.1" ]} ∅ state1).1
     = Raise invalid_batch.
Proof.
  assert (H1 : fetch_ip_from_ec2 env_conflict "i-5" state4
               = (Ok ({[ "10.0.0.5" ]}, {[ "2001:db8::5" ]}),
                  (fetch_ip_from_ec2 env_conflict "i-5" state4).2))
    by (vm_compute; reflexivity).
  assert (H2 : fetch_instance_ips env_conflict "web" {[ "i-1" ]} state1
               = (Ok (∅, ∅), (fetch_instance_ips env_conflict "web" {[ "i-1" ]} state1).2))
    by (vm_compute; reflexivity).
  split; [exact H1|]. split; [exact H2|].
  destruct (delete_conflict_by_mode env_conflict solo "i-5" "web" {[ "i-1" ]}
              {[ "10.0.0.1" ]} ∅ _ _ state4 _ state1 _ H1 H2)
    as [Hmode [_ [Hcalls [_ [Hsingle [_ [Hmulti _]]]]]]].
  split; [exact Hmode|]. split; [|split; [exact Hcalls|]].
  - destruct Hsingle as [_ Hreturns].
    + intros e He. vm_compute in He. injection He as <-. reflexivity.
    + rewrite Hreturns; [reflexivity|].
      intros e He. vm_compute in He. injection He as <-. reflexivity.
  - rewrite (Hmulti invalid_batch); [reflexivity|]. vm_compute. reflexivity.
Defined.

(** The claim C3 fails in Multi mode: the last member of [web]
    terminates, the DELETE of its address is rejected as an invalid
    change batch, and the error leaves [process_message]. *)
Lemma multi_mode_delete_conflict_propagates :
  is_single web = false
  /\ head (calls (process_message env_conflict (event TERMINATING "i-1" "web") state1).2)
     = Some (ChangeResourceRecordSets "Z1" "DELETE" "www.example.com" "A" 60
               {[ "10.0.0.1" ]})
  /\ (process_message env_conflict (event TERMINATING "i-1" "web") state1).1
     = Raise (ClientError "InvalidChangeBatch").
Proof. vm_compute. repeat split. Qed.

(** C4 at the launch of [i-5], which has no IPv6 address: no DELETE, no
    AAAA mutation, and the AAAA record of [db] stays. *)
Lemma single_launch_spares_empty_family_witness :
  event LAUNCHING "i-5" "solo" !! "LifecycleTransition" = Some LAUNCHING
  /\ event LAUNCHING "i-5" "solo" !! "EC2InstanceId" = Some "i-5"
  /\ (forall asg, event LAUNCHING "i-5" "solo" !! ASG_KEY = Some asg ->
                  asg_tags env asg !! MODE_TAG_NAME = Some MODE_SINGLE)
  /\ (forall i, In i (instances (fleet state0)) -> InstanceId i = "i-5" ->
                IPV6_FIELD i = None)
  /\ Forall (fun c => deletes c = false)
        (new_calls state0 (process_message env (event LAUNCHING "i-5" "solo") state0).2)
  /\ Forall (fun c => mutates "AAAA" c = false)
        (new_calls state0 (process_message env (event LAUNCHING "i-5" "solo") state0).2)
  /\ same_type "AAAA" state0
        (process_message env (event LAUNCHING "i-5" "solo") state0).2.
Proof.
  assert (H1 : event LAUNCHING "i-5" "solo" !! "LifecycleTransition" = Some LAUNCHING)
    by (vm_compute; reflexivity).
  assert (H2 : event LAUNCHING "i-5" "solo" !! "EC2InstanceId" = Some "i-5")
    by (vm_compute; reflexivity).
  assert (H3 : forall asg, event LAUNCHING "i-5" "solo" !! ASG_KEY = Some asg ->
                           asg_tags env asg !! MODE_TAG_NAME = Some MODE_SINGLE).
  { intros asg E. vm_compute in E. injection E as <-. vm_compute. reflexivity. }
  assert (H4 : forall i, In i (instances (fleet state0)) -> InstanceId i = "i-5" ->
                         IPV6_FIELD i = None).
  { intros i Hi Hid. simpl in Hi. destruct Hi as [<-|[<-|[<-|[]]]]; try reflexivity.
    discriminate Hid. }
  repeat (split; [assumption|]).
  destruct (single_launch_spares_empty_family env _ "i-5" state0 H1 H2 H3)
    as [Hd [_ H6]].
  destruct (H6 H4) as [Hm Hs]. split; [exact Hd|]. split; [exact Hm | exact Hs].
Defined.

(** C5 at [state0]: [i-2] is running, is not in the exclusion set and
    is tagged; its address is not returned. *)
Lemma fetch_instance_ips_excludes_tagged_witness :
  fetch_instance_ips env "web" ∅ state0
  = (Ok ({[ "10.0.0.1" ]}, ∅), (fetch_instance_ips env "web" ∅ state0).2)
  /\ ("10.0.0.2" ∈ ({[ "10.0.0.1" ]} : gset string) <->
      exists i, counted "web" ∅ state0 i /\ IPV4_FIELD env i = Some "10.0.0.2").
Proof.
  assert (H : fetch_instance_ips env "web" ∅ state0
              = (Ok ({[ "10.0.0.1" ]}, ∅), (fetch_instance_ips env "web" ∅ state0).2))
    by (vm_compute; reflexivity).
  split; [exact H|].
  exact (proj1 (fetch_instance_ips_excludes_tagged env "web" ∅ state0 _ _ _ H "10.0.0.2")).
Defined.

(** C6 at the group [bad], whose tag has no separator. *)
Lemma hostname_tag_resolution_witness :
  faults env (calls state0) (DescribeTags "bad") = None
  /\ PyStr.count "@" (default "" (asg_tags env "bad" !! HOSTNAME_TAG_NAME)) = 0%nat
  /\ (exists s1, from_asg_name env "bad" state0
                 = (Ok None,
                    add_log ERROR "Tag %s for ASG %s value %s does not contain @<ZONE_ID>."
                      s1)).
Proof.
  assert (H1 : faults env (calls state0) (DescribeTags "bad") = None) by reflexivity.
  assert (H2 : PyStr.count "@" (default "" (asg_tags env "bad" !! HOSTNAME_TAG_NAME))
               = 0%nat) by (vm_compute; reflexivity).
  split; [exact H1|]. split; [exact H2|].
  exact (proj1 (proj1 (hostname_tag_resolution env "bad" state0 H1) H2)).
Defined.

(** The claim C6 fails at the group [odd]: its tag holds two
    separators, resolution succeeds with the zone id [Z1@x], and the
    event goes on to read the directory. *)
Lemma two_separators_are_accepted :
  PyStr.count "@" (default "" (asg_tags env "odd" !! HOSTNAME_TAG_NAME)) = 2%nat
  /\ (from_asg_name env "odd" state0).1
     = Ok (Some (mkConfig "odd" "www.example.com" "Z1@x" "multi"))
  /\ In (ListResourceRecordSets "Z1@x" "www.example.com" "A")
        (calls (process_message env (event LAUNCHING "i-1" "odd") state0).2).
Proof. vm_compute. split; [reflexivity|]. split; [reflexivity|]. by left. Qed.

(** C7 at the group [bare], which has no tag: the last line logged is
    the error of the malformed tag, not the warning. *)
Lemma absent_hostname_tag_witness :
  faults env (calls state0) (DescribeTags "bare") = None
  /\ asg_tags env "bare" !! HOSTNAME_TAG_NAME = None
  /\ (exists s1, from_asg_name env "bare" state0
                 = (Ok None,
                    add_log ERROR "Tag %s for ASG %s value %s does not contain @<ZONE_ID>."
                      s1)).
Proof.
  assert (H1 : faults env (calls state0) (DescribeTags "bare") = None) by reflexivity.
  assert (H2 : asg_tags env "bare" !! HOSTNAME_TAG_NAME = None)
    by (vm_compute; reflexivity).
  split; [exact H1|]. split; [exact H2|].
  exact (proj1 (absent_hostname_tag env "bare" state0 H1 H2)).
Defined.

(** C8 at a launch in [solo] whose completion call fails with a client
    error: the signal is sent once and the error is swallowed. *)
Lemma completion_signal_witness :
  event LAUNCHING "i-5" "solo" !! LIFECYCLE_KEY = Some "hook"
  /\ event LAUNCHING "i-5" "solo" !! ASG_KEY = Some "solo"
  /\ event LAUNCHING "i-5" "solo" !! "EC2InstanceId" = Some "i-5"
  /\ event LAUNCHING "i-5" "solo" !! "LifecycleActionToken" = Some "token"
  /\ List.filter completion
       (new_calls state0 (handle env_late (event LAUNCHING "i-5" "solo") state0).2)
     = [CompleteLifecycleAction "hook" "solo" "i-5" "token"]
  /\ (handle env_late (event LAUNCHING "i-5" "solo") state0).1 = Ok tt.
Proof.
  assert (H1 : event LAUNCHING "i-5" "solo" !! LIFECYCLE_KEY = Some "hook")
    by (vm_compute; reflexivity).
  assert (H2 : event LAUNCHING "i-5" "solo" !! ASG_KEY = Some "solo")
    by (vm_compute; reflexivity).
  assert (H3 : event LAUNCHING "i-5" "solo" !! "EC2InstanceId" = Some "i-5")
    by (vm_compute; reflexivity).
  assert (H4 : event LAUNCHING "i-5" "solo" !! "LifecycleActionToken" = Some "token")
    by (vm_compute; reflexivity).
  repeat (split; [assumption|]).
  assert (E : process_record env_late (event LAUNCHING "i-5" "solo") state0
              = (Ok tt, (process_record env_late (event LAUNCHING "i-5" "solo") state0).2))
    by (vm_compute; reflexivity).
  destruct (proj1 (completion_signal env_late _ state0 _ _ _ _ H1 H2 H3 H4) _ E)
    as [Honce Hswallow].
  split; [exact Honce|]. rewrite (Hswallow "ValidationError" eq_refl). reflexivity.
Defined.

(** The claim C8 fails at a launch in [lost]: the event carries the
    four completion fields, reading the directory raises a client error
    that leaves the handler, and no completion signal is sent. *)
Lemma no_completion_after_dns_failure :
  is_Some (event LAUNCHING "i-5" "lost" !! LIFECYCLE_KEY)
  /\ is_Some (event LAUNCHING "i-5" "lost" !! "LifecycleActionToken")
  /\ (lambda_handler env [event LAUNCHING "i-5" "lost"] state0).1
     = Raise (ClientError "NoSuchHostedZone")
  /\ List.filter completion
       (calls (lambda_handler env [event LAUNCHING "i-5" "lost"] state0).2) = [].
Proof.
  split; [evaluate|]. split; [evaluate|]. vm_compute. split; reflexivity.
Qed.

(** C9 at a batch of three: the first event completes, the second
    raises, the third is never reached. *)
Lemma failure_aborts_batch_witness :
  for_each [event LAUNCHING "i-5" "solo"] (handle env)
    (add_log INFO "Processing SNS event: %s" state0)
  = (Ok tt, (lambda_handler env [event LAUNCHING "i-5" "solo"] state0).2)
  /\ handle env (event LAUNCHING "i-5" "lost")
       (lambda_handler env [event LAUNCHING "i-5" "solo"] state0).2
     = (Raise (ClientError "NoSuchHostedZone"),
        (lambda_handler env [event LAUNCHING "i-5" "solo"; event LAUNCHING "i-5" "lost"]
           state0).2)
  /\ lambda_handler env
       ([event LAUNCHING "i-5" "solo"]
        ++ event LAUNCHING "i-5" "lost" :: [event LAUNCHING "i-1" "web"]) state0
     = (Raise (ClientError "NoSuchHostedZone"),
        (lambda_handler env [event LAUNCHING "i-5" "solo"; event LAUNCHING "i-5" "lost"]
           state0).2).
Proof.
  assert (H1 : for_each [event LAUNCHING "i-5" "solo"] (handle env)
                 (add_log INFO "Processing SNS event: %s" state0)
               = (Ok tt, (lambda_handler env [event LAUNCHING "i-5" "solo"] state0).2))
    by (vm_compute; reflexivity).
  assert (H2 : handle env (event LAUNCHING "i-5" "lost")
                 (lambda_handler env [event LAUNCHING "i-5" "solo"] state0).2
               = (Raise (ClientError "NoSuchHostedZone"),
                  (lambda_handler env
                     [event LAUNCHING "i-5" "solo"; event LAUNCHING "i-5" "lost"]
                     state0).2))
    by (vm_compute; reflexivity).
  split; [exact H1|]. split; [exact H2|].
  exact (failure_aborts_batch env _ [event LAUNCHING "i-1" "web"] _ state0 _ _ _ H1 H2).
Defined.

(** The claim C9 fails at a batch of two: the first event raises, and
    the second, which alone would read the tags of [web], is not
    processed at all. *)
Lemma later_events_are_not_processed :
  (lambda_handler env [event LAUNCHING "i-5" "lost"; event LAUNCHING "i-1" "web"]
     state0).1
  = Raise (ClientError "NoSuchHostedZone")
  /\ ~ In (DescribeTags "web")
       (calls (lambda_handler env
                 [event LAUNCHING "i-5" "lost"; event LAUNCHING "i-1" "web"] state0).2)
  /\ In (DescribeTags "web")
       (calls (lambda_handler env [event LAUNCHING "i-1" "web"] state0).2).
Proof.
  vm_compute. split; [reflexivity|]. split.
  - intros [H|[H|[]]]; discriminate H.
  - tauto.
Qed.

(** C10 at a notification that names the hook and the group but no
    instance: the lookup of [EC2InstanceId] raises, uncaught, out of
    [lambda_handler]. *)
Lemma completion_key_lookups_witness :
  test_notification !! LIFECYCLE_KEY = Some "hook"
  /\ test_notification !! ASG_KEY = Some "web"
  /\ process_record env test_notification state0
     = (Ok tt, add_log INFO "Skipping %s event" state0)
  /\ test_notification !! "EC2InstanceId" = None
  /\ handle env test_notification state0
     = (Raise (KeyError "EC2InstanceId"),
        add_log INFO "Finishing ASG action" (add_log INFO "Skipping %s event" state0))
  /\ (lambda_handler env [test_notification] state0).1
     = Raise (KeyError "EC2InstanceId").
Proof.
  assert (H1 : test_notification !! LIFECYCLE_KEY = Some "hook")
    by (vm_compute; reflexivity).
  assert (H2 : test_notification !! ASG_KEY = Some "web") by (vm_compute; reflexivity).
  assert (H3 : process_record env test_notification state0
               = (Ok tt, add_log INFO "Skipping %s event" state0))
    by (vm_compute; reflexivity).
  assert (H4 : test_notification !! "EC2InstanceId" = None) by (vm_compute; reflexivity).
  repeat (split; [assumption|]).
  split; [|vm_compute; reflexivity].
  exact (proj1 (completion_key_lookups env _ state0 _ "hook" "web" H1 H2 H3) H4).
Defined.

(** ** More on policy resolution *)

Lemma rstrip_snoc (c : ascii) (s : string) :
  PyStr.rstrip c (s +:+ String c EmptyString) = PyStr.rstrip c s.
Proof.
  induction s as [|a r IH]; simpl.
  - by rewrite Ascii.eqb_refl.
  - by rewrite IH.
Qed.

Lemma rstrip_no_trailing (c : ascii) (s : string) :
  PyStr.ends_with c (PyStr.rstrip c s) = false.
Proof.
  induction s as [|a r IH]; simpl; [reflexivity|].
  destruct (PyStr.rstrip c r) as [|b r'] eqn:E.
  - destruct (Ascii.eqb a c) eqn:Ea; simpl; [reflexivity | exact Ea].
  - exact IH.
Qed.

(** X1.  The canonical hostname is a stem without trailing dot followed
    by exactly one dot, and it does not change when a dot is appended
    to the hostname. *)
Theorem canonical_hostname_one_dot (asg h z m : string) :
  (exists stem, canonical_hostname (mkConfig asg h z m) = stem +:+ "."
                /\ PyStr.ends_with "." stem = false)
  /\ canonical_hostname (mkConfig asg (h +:+ ".") z m)
     = canonical_hostname (mkConfig asg h z m).
Proof.
  unfold canonical_hostname. simpl. split.
  - exists (PyStr.rstrip "." h). split; [reflexivity | apply rstrip_no_trailing].
  - by rewrite rstrip_snoc.
Qed.

Lemma split_first_join (sep : ascii) (a b : string) :
  PyStr.count sep a = 0%nat ->
  PyStr.split_first sep (a +:+ String sep b) = Some (a, b).
Proof.
  induction a as [|c r IH]; simpl.
  - intros _. by rewrite Ascii.eqb_refl.
  - destruct (Ascii.eqb c sep); [discriminate|]. intros H. by rewrite IH.
Qed.

(** X2.  A hostname tag [h@z] whose hostname part holds no separator
    resolves to the policy with exactly that hostname and that zone id,
    in the mode of the mode tag, Multi when there is none. *)
Theorem hostname_zone_round_trip (env : Env) (asg h z : string) (s : State) :
  faults env (calls s) (DescribeTags asg) = None ->
  asg_tags env asg !! HOSTNAME_TAG_NAME = Some (h +:+ String "@" z) ->
  PyStr.count "@" h = 0%nat ->
  default MODE_DEFAULT (asg_tags env asg !! MODE_TAG_NAME) ∈ MODES_VALID ->
  exists s1,
    from_asg_name env asg s
    = (Ok (Some (mkConfig asg h z
                   (default MODE_DEFAULT (asg_tags env asg !! MODE_TAG_NAME)))), s1)
    /\ (asg_tags env asg !! MODE_TAG_NAME = None ->
        is_single (mkConfig asg h z
                     (default MODE_DEFAULT (asg_tags env asg !! MODE_TAG_NAME))) = false).
Proof.
  intros Hf Htag Hh Hmode. destruct (from_asg_name_answered env asg s Hf) as [s1 E].
  exists s1. split.
  - rewrite E. rewrite (parse_tags_separator asg _ s1 h z).
    + by rewrite bool_decide_eq_true_2.
    + rewrite Htag. simpl. by apply split_first_join.
  - intros ->. reflexivity.
Qed.

(** X3.  A mode tag that is neither [single] nor [multi] resolves to no
    policy, even with a well-formed hostname tag: the last line logged
    is the error of the unknown mode, and an event of that group makes
    no call to the directory. *)
Theorem unknown_mode_is_refused (env : Env) (asg : string) (s : State) :
  faults env (calls s) (DescribeTags asg) = None ->
  (1 <= PyStr.count "@" (default "" (asg_tags env asg !! HOSTNAME_TAG_NAME)))%nat ->
  default MODE_DEFAULT (asg_tags env asg !! MODE_TAG_NAME) ∉ MODES_VALID ->
  (exists s1, from_asg_name env asg s
              = (Ok None,
                 add_log ERROR "Tag %s for ASG %s value %s is an unknown mode." s1))
  /\ forall msg s0, msg !! ASG_KEY = Some asg ->
       Forall (fun c => route53 c = false) (new_calls s0 (process_message env msg s0).2).
Proof.
  intros Hf Hc Hmode.
  destruct (PyStr.split_first "@" (default "" (asg_tags env asg !! HOSTNAME_TAG_NAME)))
    as [[h z]|] eqn:Es; [|apply split_first_none in Es; lia].
  assert (Hparse : forall s1, parse_tags asg (asg_tags env asg) s1
                     = (Ok None,
                        add_log ERROR "Tag %s for ASG %s value %s is an unknown mode." s1)).
  { intros s1. rewrite (parse_tags_separator asg _ s1 h z Es).
    by rewrite bool_decide_eq_false_2. }
  split.
  - destruct (from_asg_name_answered env asg s Hf) as [s1 E]. exists s1.
    by rewrite E.
  - intros msg s0 Hasg. apply emits_new_calls, no_policy_no_route53.
    intros asg' s2 Hasg'. rewrite Hasg in Hasg'. injection Hasg' as <-.
    by rewrite Hparse.
Qed.

Lemma foldl_snoc {A B : Type} (f : B -> A -> B) (l : list A) (x : A) (b : B) :
  foldl f b (l ++ [x]) = f (foldl f b l) x.
Proof. by rewrite foldl_app. Qed.

(** X4.  The dictionary of tags keeps, for each key, the value of the
    last tag listed with that key: a later page replaces an earlier
    one. *)
Theorem last_tag_wins (env : Env) (asg k : string) :
  asg_tags env asg !! k
  = Value <$> last (List.filter (fun t => String.eqb (Key t) k)
                      (concat (Service.describe_tags (asg_tag_pages env) asg))).
Proof.
  unfold asg_tags. rewrite foldl_concat.
  induction (concat (Service.describe_tags (asg_tag_pages env) asg))
    as [|t l IH] using rev_ind.
  - reflexivity.
  - rewrite foldl_snoc, List.filter_app. simpl.
    destruct (String.eqb_spec (Key t) k) as [<-|Hne].
    + rewrite lookup_insert_eq, last_snoc. reflexivity.
    + rewrite lookup_insert_ne by assumption. rewrite app_nil_r. exact IH.
Qed.


(** ** More on the readers *)

(** X5.  Whenever the directory reader returns, from a zone that files
    the hostname under the canonical name, it returns exactly the
    values of the record set of the name and type asked for, the empty
    set when the listing starts at another record set; it has made one
    listing call and changed neither zones nor fleet. *)
Theorem reader_returns_the_record_set (env : Env) (config : HostnameConfig) (rt : string)
  (s s' : State) (values : gset string) :
  fetch_values_from_route53 env config rt s = (Ok values, s') ->
  Service.fqdn (hostname config) = canonical_hostname config ->
  values = directory s (zone_id config) (canonical_hostname config) rt
  /\ new_calls s s' = [ListResourceRecordSets (zone_id config) (hostname config) rt]
  /\ zones s' = zones s /\ fleet s' = fleet s.
Proof.
  intros E Hfq. unfold fetch_values_from_route53 in E. revert E. mrun.
  rewrite bind_eq. unfold api at 1.
  destruct (faults env _ _); [discriminate|].
  unfold Service.list_resource_record_sets. cbn [add_call add_log zones].
  destruct (zones s !! zone_id config) as [z|] eqn:Hz; [|discriminate]. rewrite Hfq.
  match goal with
  | |- context [(foldM ?body ?acc ?response ≫= _) ?s0] =>
      assert (exists s1, foldM body acc response s0
                         = (Ok (read_values config rt response), s1)
                         /\ quiet s0 s1) as [s1 [E1 [Hc [Hzs Hfl]]]]
  end.
  { match goal with
    | |- exists s1, foldM ?body ?acc ?response ?s0 = _ /\ _ =>
        destruct (foldM_run body
                    (fun values rr_set =>
                       if negb (String.eqb (Name rr_set) (canonical_hostname config))
                       then values
                       else if negb (String.eqb (Type_ rr_set) rt) then values
                       else foldl (fun vs rr => {[rr]} ∪ vs) values
                              (ResourceRecords rr_set)))
          with (l := response) (b := acc) (s := s0) as [s1 E1];
        [|exists s1; split; [exact E1|];
          assert (Hq : keeps quiet (foldM body acc response)) by keeps_auto;
          specialize (Hq s0); by rewrite E1 in Hq]
    end.
    intros b x s0. destruct (negb _); [reflexivity|]. destruct (negb _); reflexivity. }
  rewrite bind_eq, E1, read_values_list_from.
  assert (Hd : directory s (zone_id config) (canonical_hostname config) rt
               = match z !! (canonical_hostname config, rt) with
                 | Some (_, values) => values
                 | None => ∅
                 end)
    by (unfold directory, record_set; rewrite Hz; reflexivity).
  rewrite <- Hd. simpl in Hc, Hzs, Hfl.
  destruct (bool_decide _); intros [= <- <-]; simpl;
    (split; [reflexivity|]); (split; [apply new_calls_app; simpl; by rewrite Hc|]);
    split; assumption.
Qed.

Lemma addresses_elem_of (env : Env) (l : list Instance) (acc : gset string * gset string)
  (a : string) :
  (a ∈ (foldl (addresses env) acc l).1 <->
   a ∈ acc.1 \/ exists i, In i l /\ IPV4_FIELD env i = Some a) /\
  (a ∈ (foldl (addresses env) acc l).2 <->
   a ∈ acc.2 \/ exists i, In i l /\ IPV6_FIELD i = Some a).
Proof.
  revert acc. induction l as [|i l IH]; intros acc; simpl.
  - split; (split; [auto | intros [H|[i [[] _]]]; exact H]).
  - destruct (IH (addresses env acc i)) as [IH1 IH2]. rewrite IH1, IH2.
    clear IH IH1 IH2. unfold addresses. simpl. split.
    + destruct (IPV4_FIELD env i) as [b|] eqn:E4.
      * rewrite elem_of_union, elem_of_singleton. split.
        -- intros [[->|H]|[j [Hj H]]]; [right; exists i; tauto | auto
                                        | right; exists j; tauto].
        -- intros [H|[j [[<-|Hj] H]]]; [auto | | right; exists j; tauto].
           left. left. congruence.
      * split.
        -- intros [H|[j [Hj H]]]; [auto | right; exists j; tauto].
        -- intros [H|[j [[<-|Hj] H]]]; [auto | congruence | right; exists j; tauto].
    + destruct (IPV6_FIELD i) as [b|] eqn:E6.
      * rewrite elem_of_union, elem_of_singleton. split.
        -- intros [[->|H]|[j [Hj H]]]; [right; exists i; tauto | auto
                                        | right; exists j; tauto].
        -- intros [H|[j [[<-|Hj] H]]]; [auto | | right; exists j; tauto].
           left. left. congruence.
      * split.
        -- intros [H|[j [Hj H]]]; [auto | right; exists j; tauto].
        -- intros [H|[j [[<-|Hj] H]]]; [auto | congruence | right; exists j; tauto].
Qed.

(** X6.  Whenever the lookup of one instance returns, the addresses it
    returns are exactly those of the instances with that id: nothing is
    filtered, neither the state nor the terminating tag. *)
Theorem fetch_ip_from_ec2_is_unfiltered (env : Env) (id : string) (s s' : State)
  (ipv4s ipv6s : gset string) :
  fetch_ip_from_ec2 env id s = (Ok (ipv4s, ipv6s), s') ->
  forall a,
    (a ∈ ipv4s <-> exists i, In i (instances (fleet s)) /\ InstanceId i = id
                             /\ IPV4_FIELD env i = Some a) /\
    (a ∈ ipv6s <-> exists i, In i (instances (fleet s)) /\ InstanceId i = id
                             /\ IPV6_FIELD i = Some a).
Proof.
  intros E a. apply fetch_ip_from_ec2_value in E. unfold own_ips in E.
  rewrite !foldl_concat in E.
  fold (instances (map (map (List.filter (fun i => String.eqb (InstanceId i) id)))
                       (fleet s))) in E.
  destruct (addresses_elem_of env
              (instances (map (map (List.filter (fun i => String.eqb (InstanceId i) id)))
                              (fleet s))) (∅, ∅) a) as [H4 H6].
  rewrite <- E in H4, H6. simpl in H4, H6. split.
  - rewrite H4. split.
    + intros [H|[i [Hi H]]]; [set_solver|]. apply in_instances_filter in Hi as [Hi Hid].
      apply String.eqb_eq in Hid. exists i. tauto.
    + intros [i [Hi [Hid H]]]. right. exists i. split; [|exact H].
      apply in_instances_filter. split; [exact Hi | by apply String.eqb_eq].
  - rewrite H6. split.
    + intros [H|[i [Hi H]]]; [set_solver|]. apply in_instances_filter in Hi as [Hi Hid].
      apply String.eqb_eq in Hid. exists i. tauto.
    + intros [i [Hi [Hid H]]]. right. exists i. split; [|exact H].
      apply in_instances_filter. split; [exact Hi | by apply String.eqb_eq].
Qed.

(** ** More on the events *)

(** What follows the tagging in [process_message] makes calls of any
    kind. *)
Lemma keeps_after_tagging (env : Env) (msg : Message)
  (launch_ids terminate_ids : gset string) :
  keeps (emits (fun _ => True))
    (asg_name ← getitem msg "AutoScalingGroupName";
     config ← from_asg_name env asg_name;
     match config with
     | None => mret tt
     | Some config => reconcile env config asg_name launch_ids terminate_ids
     end).
Proof.
  unfold reconcile, single_mode, multi_mode, single_launch, single_terminate,
    guarded_delete.
  repeat first [keeps_step | emits_leaf ltac:(idtac; exact I)].
Qed.

Lemma set_terminating_tag_calls (env : Env) (id : string) (s : State) :
  calls (set_terminating_tag env id s).2
  = CreateTags id TERMINATING_TAG_NAME TERMINATING_TAG_VALUE :: calls s.
Proof.
  unfold set_terminating_tag. mrun. unfold api. cbn [add_log calls].
  destruct (faults env _ _); [reflexivity|].
  destruct (create_tags_state id TERMINATING_TAG_NAME TERMINATING_TAG_VALUE
              (add_call (CreateTags id TERMINATING_TAG_NAME TERMINATING_TAG_VALUE)
                 (add_log INFO "Adding %s = %s tag for instance-id %s" s)))
    as [-> _].
  reflexivity.
Qed.

(** The head of [process_message] for a terminating event. *)
Lemma process_message_terminating (env : Env) (msg : Message) (t id : string)
  (s : State) :
  msg !! "LifecycleTransition" = Some t -> t = TERMINATING \/ t = LAUNCH_ERROR ->
  msg !! "EC2InstanceId" = Some id ->
  process_message env msg s
  = (set_terminating_tag env id;;
     asg_name ← getitem msg "AutoScalingGroupName";
     config ← from_asg_name env asg_name;
     match config with
     | None => mret tt
     | Some config => reconcile env config asg_name ∅ {[id]}
     end)
      (add_log INFO "Processing message: %s"
         (add_log INFO "Processing %s lifecycle transition" s)).
Proof.
  intros Ht Hkind Hi. unfold process_message.
  rewrite bool_decide_eq_false_2 by (rewrite Ht; discriminate). mrun.
  unfold classify. rewrite bind_eq.
  rewrite (bind_getitem _ _ _ _ _ Ht).
  assert (Hl : String.eqb t LAUNCHING = false) by (by destruct Hkind as [->| ->]).
  assert (Hk : String.eqb t TERMINATING || String.eqb t LAUNCH_ERROR = true)
    by (by destruct Hkind as [->| ->]).
  rewrite Hl, Hk. rewrite (bind_getitem _ _ _ _ _ Hi). simpl. mrun.
  rewrite elements_singleton. simpl. rewrite !bind_eq.
  destruct (set_terminating_tag env id _) as [[[]|e] s1]; reflexivity.
Qed.

(** X7.  A terminating or launch-error event first sets the terminating
    tag on its instance: the tagging call is the first call of the
    event, whatever the policy of the group, before any tag of the
    group, any record and any instance is read. *)
Theorem terminating_event_tags_first (env : Env) (msg : Message) (t id : string)
  (s : State) :
  msg !! "LifecycleTransition" = Some t -> t = TERMINATING \/ t = LAUNCH_ERROR ->
  msg !! "EC2InstanceId" = Some id ->
  exists later,
    new_calls s (process_message env msg s).2
    = later ++ [CreateTags id TERMINATING_TAG_NAME TERMINATING_TAG_VALUE].
Proof.
  intros Ht Hkind Hi. rewrite (process_message_terminating env msg t id s Ht Hkind Hi).
  rewrite bind_eq.
  pose proof (set_terminating_tag_calls env id
                (add_log INFO "Processing message: %s"
                   (add_log INFO "Processing %s lifecycle transition" s))) as Hc.
  destruct (set_terminating_tag env id _) as [[[]|e] s1]; simpl in Hc.
  - destruct (keeps_after_tagging env msg ∅ {[id]} s1) as [l [El _]].
    exists l. apply new_calls_app. rewrite El, Hc. by rewrite <- app_assoc.
  - exists []. apply new_calls_app. simpl. exact Hc.
Qed.

Lemma instances_map (f : Instance -> Instance) (fl : list (list (list Instance))) :
  instances (map (map (map f)) fl) = map f (instances fl).
Proof.
  unfold instances. rewrite <- !concat_map. reflexivity.
Qed.

Lemma set_tag_terminating (i : Instance) :
  has_terminating_tag (Service.set_tag TERMINATING_TAG_NAME TERMINATING_TAG_VALUE i)
  = true.
Proof. reflexivity. Qed.

(** The state in which a successful tagging ends. *)
Lemma set_terminating_tag_fleet (env : Env) (id : string) (s s1 : State) :
  set_terminating_tag env id s = (Ok tt, s1) ->
  fleet s1
  = map (map (map (fun i =>
           if String.eqb (InstanceId i) id
           then Service.set_tag TERMINATING_TAG_NAME TERMINATING_TAG_VALUE i
           else i))) (fleet s).
Proof.
  unfold set_terminating_tag. mrun. unfold api.
  destruct (faults env _ _); [discriminate|].
  unfold Service.create_tags. destruct (Service.known id _); [|discriminate].
  by intros [= <-].
Qed.

(** X8.  Mark before read: once the terminating tag of an instance has
    been set, a membership query returns only addresses held by other
    instances, also when the instance is still running and the
    exclusion set passed is empty. *)
Theorem tagged_instance_is_not_counted (env : Env) (id asg : string)
  (ignore_ids : gset string) (s s1 s2 : State) (ipv4s ipv6s : gset string) :
  set_terminating_tag env id s = (Ok tt, s1) ->
  fetch_instance_ips env asg ignore_ids s1 = (Ok (ipv4s, ipv6s), s2) ->
  forall a,
    (a ∈ ipv4s -> exists i, In i (instances (fleet s)) /\ InstanceId i <> id
                            /\ IPV4_FIELD env i = Some a) /\
    (a ∈ ipv6s -> exists i, In i (instances (fleet s)) /\ InstanceId i <> id
                            /\ IPV6_FIELD i = Some a).
Proof.
  intros Etag E a. apply set_terminating_tag_fleet in Etag.
  apply fetch_instance_ips_value in E. unfold live_ips in E.
  rewrite !foldl_concat in E.
  fold (instances (map (map (List.filter (listed asg))) (fleet s1))) in E.
  destruct (pick_elem env ignore_ids
              (instances (map (map (List.filter (listed asg))) (fleet s1))) (∅, ∅) a)
    as [H4 H6].
  rewrite <- E in H4, H6. simpl in H4, H6.
  assert (Hother : forall j, In j (instances (map (map (List.filter (listed asg)))
                                                  (fleet s1))) ->
                             has_terminating_tag j = false ->
                             In j (instances (fleet s)) /\ InstanceId j <> id).
  { intros j Hj Htag. apply in_instances_filter in Hj as [Hj _].
    rewrite Etag, instances_map in Hj. apply in_map_iff in Hj as [i [Hij Hi]].
    destruct (String.eqb_spec (InstanceId i) id) as [Hid|Hid].
    - subst j. by rewrite set_tag_terminating in Htag.
    - subst j. tauto. }
  split.
  - intros Ha. apply H4 in Ha as [Ha|[j [Hj [_ [Htag Hip]]]]]; [set_solver|].
    destruct (Hother j Hj Htag). exists j. tauto.
  - intros Ha. apply H6 in Ha as [Ha|[j [Hj [_ [Htag Hip]]]]]; [set_solver|].
    destruct (Hother j Hj Htag). exists j. tauto.
Qed.

(** X9.  An event that is no lifecycle transition, or a transition of
    an unknown kind, has no effect: no call is made, zones and fleet
    are as before.  It returns normally, except that a message with
    neither [LifecycleTransition] nor [Event] raises the key error of
    [Event]. *)
Theorem unknown_event_has_no_effect (env : Env) (msg : Message) (s : State) :
  (forall t, msg !! "LifecycleTransition" = Some t ->
             t <> LAUNCHING /\ t <> TERMINATING /\ t <> LAUNCH_ERROR) ->
  quiet s (process_message env msg s).2
  /\ (process_message env msg s).1
     = match msg !! "LifecycleTransition", msg !! "Event" with
       | None, None => Raise (KeyError "Event")
       | _, _ => Ok tt
       end.
Proof.
  intros Hkind. unfold process_message.
  destruct (msg !! "LifecycleTransition") as [t|] eqn:Ht.
  - rewrite bool_decide_eq_false_2 by discriminate. mrun.
    unfold classify. rewrite bind_eq, (bind_getitem _ _ _ _ _ Ht).
    destruct (Hkind t eq_refl) as [H1 [H2 H3]].
    apply String.eqb_neq in H1, H2, H3. rewrite H1, H2, H3. simpl.
    split; [done | reflexivity].
  - rewrite bool_decide_eq_true_2 by reflexivity.
    destruct (msg !! "Event") as [ev|] eqn:Hev.
    + rewrite (bind_getitem _ _ _ _ _ Hev). split; [done | reflexivity].
    + rewrite (bind_getitem_missing _ _ _ _ Hev). split; [done | reflexivity].
Qed.

(** X10.  The terminating tag is set before the group name is read: a
    terminating event without [AutoScalingGroupName] makes the tagging
    call and nothing else, and when the tagging has succeeded it raises
    the key error of the group name, the tag left in place. *)
Theorem terminating_event_without_group (env : Env) (msg : Message) (t id : string)
  (s : State) :
  msg !! "LifecycleTransition" = Some t -> t = TERMINATING \/ t = LAUNCH_ERROR ->
  msg !! "EC2InstanceId" = Some id -> msg !! "AutoScalingGroupName" = None ->
  let s0 := add_log INFO "Processing message: %s"
              (add_log INFO "Processing %s lifecycle transition" s) in
  new_calls s (process_message env msg s).2
  = [CreateTags id TERMINATING_TAG_NAME TERMINATING_TAG_VALUE]
  /\ forall s1, set_terminating_tag env id s0 = (Ok tt, s1) ->
       process_message env msg s = (Raise (KeyError "AutoScalingGroupName"), s1).
Proof.
  intros Ht Hkind Hi Ha s0.
  rewrite (process_message_terminating env msg t id s Ht Hkind Hi). fold s0.
  rewrite bind_eq. pose proof (set_terminating_tag_calls env id s0) as Hc.
  destruct (set_terminating_tag env id s0) as [[[]|e] s1]; simpl in Hc.
  - rewrite (bind_getitem_missing _ _ _ _ Ha). split.
    + apply new_calls_app. simpl. exact Hc.
    + by intros s2 [= <-].
  - split; [apply new_calls_app; simpl; exact Hc | discriminate].
Qed.

(** ** More on Single mode *)

(** X12.  In Single mode a terminating instance only deletes what is
    its own: besides the lookup of the instance, every call of lines
    366-382 is a DELETE of exactly the address set the instance holds
    in that family; nothing is upserted. *)
Theorem single_terminate_deletes_own_addresses (env : Env) (config : HostnameConfig)
  (id : string) (s : State) :
  Forall (fun c =>
            c = DescribeInstancesById id
            \/ c = mutation env config "DELETE" "A" (own_ips env id (fleet s)).1
            \/ c = mutation env config "DELETE" "AAAA" (own_ips env id (fleet s)).2)
         (new_calls s (single_terminate env config id s).2).
Proof.
  set (P := fun c =>
              c = DescribeInstancesById id
              \/ c = mutation env config "DELETE" "A" (own_ips env id (fleet s)).1
              \/ c = mutation env config "DELETE" "AAAA" (own_ips env id (fleet s)).2).
  apply emits_new_calls. unfold single_terminate.
  apply (run_bind (emits P)).
  - apply keeps_fetch_ip_from_ec2; [exact _|]. intros s0. apply emits_add_call. by left.
  - intros [ipv4s ipv6s] s1 E. apply fetch_ip_from_ec2_value in E.
    assert (H4 : P (mutation env config "DELETE" "A" ipv4s))
      by (right; left; by rewrite <- E).
    assert (H6 : P (mutation env config "DELETE" "AAAA" ipv6s))
      by (right; right; by rewrite <- E).
    clearbody P.
    match goal with
    | |- emits P s1 (?m s1).2 => assert (Hkeeps : keeps (emits P) m); [|apply Hkeeps]
    end.
    simpl. unfold guarded_delete.
    repeat first
      [ keeps_step
      | apply keeps_change_records;
        [exact _ | intros _ Hn; by destruct Hn
         | intros _ _; apply emits_mutation_safe; assumption] ].
Qed.

(** Without faults the lookup of a known instance returns its addresses
    and changes neither zones nor fleet. *)
Lemma fetch_ip_from_ec2_reads (env : Env) (id : string) (s : State) :
  no_faults env -> Service.known id s = true ->
  exists s',
    fetch_ip_from_ec2 env id s = (Ok (own_ips env id (fleet s)), s')
    /\ same_world s s'.
Proof.
  intros Hnf Hknown.
  assert (Hrun : exists r s', fetch_ip_from_ec2 env id s = (Ok r, s')).
  { unfold fetch_ip_from_ec2. rewrite bind_eq. unfold api at 1. rewrite Hnf.
    unfold Service.describe_instances_by_id.
    change (Service.known id (add_call (DescribeInstancesById id) s))
      with (Service.known id s).
    rewrite Hknown.
    match goal with
    | |- context [foldM ?body (∅, ∅) ?pages ?s0] =>
        destruct (foldM body (∅, ∅) pages s0) as [[r|e] s2] eqn:E
    end.
    - eauto.
    - exfalso. apply (f_equal fst) in E. simpl in E.
      rewrite (foldM_value _ (foldl (foldl (addresses env)))) in E; [discriminate|].
      intros b x s0. apply foldM_value. intros b1 x1 s3. apply foldM_value.
      intros b2 i s4. mrun. apply collect_value. }
  destruct Hrun as [r [s' E]]. exists s'.
  rewrite <- (fetch_ip_from_ec2_value env id s s' r E). split; [exact E|].
  assert (Hframe : same_world s (fetch_ip_from_ec2 env id s).2).
  { apply keeps_fetch_ip_from_ec2; [exact _|]. intros s0. apply same_world_add_call. }
  by rewrite E in Hframe.
Qed.

(** One family of lines 367-382 when no service fails: the step
    returns whatever the zone holds, and the one record set it can
    remove is the canonical name's, of this type, when it holds exactly
    the submitted addresses under the TTL the handler submits. *)
Lemma guarded_delete_settles (env : Env) (config : HostnameConfig) (old : gset string)
  (rt : string) (s : State) :
  no_faults env -> is_Some (zones s !! zone_id config) ->
  Service.fqdn (hostname config) = canonical_hostname config ->
  exists s',
    (if bool_decide (old ≠ ∅) then guarded_delete env config old rt else mret tt) s
    = (Ok tt, s')
    /\ fleet s' = fleet s
    /\ is_Some (zones s' !! zone_id config)
    /\ forall z n T,
         record_set s' z n T
         = if bool_decide ((z, n, T) = (zone_id config, canonical_hostname config, rt)
                           /\ old ≠ ∅
                           /\ record_set s z n T = Some (ROUTE53_TTL env, old))
           then None else record_set s z n T.
Proof.
  intros Hnf [zz Hz] Hfq.
  destruct (bool_decide_reflect (old ≠ ∅)) as [Hold|Hold].
  2:{ exists s. split; [reflexivity|]. split; [reflexivity|]. split; [eauto|].
      intros z n T. rewrite bool_decide_eq_false_2 by tauto. reflexivity. }
  assert (Hstays : forall s', zones s' = zones s -> forall z n T,
            zz !! (canonical_hostname config, rt) <> Some (ROUTE53_TTL env, old) ->
            record_set s' z n T
            = if bool_decide ((z, n, T) = (zone_id config, canonical_hostname config, rt)
                              /\ old ≠ ∅
                              /\ record_set s z n T = Some (ROUTE53_TTL env, old))
              then None else record_set s z n T).
  { intros s' Hzs z n T Hk. rewrite bool_decide_eq_false_2.
    - unfold record_set. by rewrite Hzs.
    - intros [E [_ Hr]]. injection E as -> -> ->.
      unfold record_set in Hr. rewrite Hz in Hr. simpl in Hr. contradiction. }
  unfold guarded_delete, try_except.
  rewrite (change_records_delete env config old rt s Hold).
  rewrite update_record_answered by assumption.
  unfold mutate, Service.change_resource_record_sets. cbn [add_call add_log zones].
  rewrite Hz, Hfq. cbn [String.eqb Ascii.eqb Bool.eqb].
  destruct (zz !! (canonical_hostname config, rt)) as [live|] eqn:Ek.
  - destruct (bool_decide_reflect (live = (ROUTE53_TTL env, old))) as [E|Hne].
    + subst live. eexists. split; [reflexivity|]. split; [reflexivity|].
      split; [simpl; rewrite lookup_insert_eq; eauto|].
      intros z n T. unfold record_set. simpl.
      destruct (decide (z = zone_id config)) as [->|Hzne].
      * rewrite lookup_insert_eq, Hz. simpl.
        destruct (decide ((n, T) = (canonical_hostname config, rt))) as [E|Hk].
        -- injection E as -> ->. rewrite lookup_delete_eq.
           by rewrite bool_decide_eq_true_2.
        -- rewrite lookup_delete_ne by congruence.
           rewrite bool_decide_eq_false_2; [reflexivity|].
           intros [E _]. apply Hk. congruence.
      * rewrite lookup_insert_ne by congruence.
        rewrite bool_decide_eq_false_2; [reflexivity|].
        intros [E _]. apply Hzne. congruence.
    + eexists. split; [reflexivity|]. split; [reflexivity|]. split; [simpl; eauto|].
      intros z n T. apply Hstays; [reflexivity|]. congruence.
  - eexists. split; [reflexivity|]. split; [reflexivity|]. split; [simpl; eauto|].
    intros z n T. apply Hstays; [reflexivity|]. congruence.
Qed.

(** X11.  Safe supersession.  In Single mode, when no service fails,
    the termination of a known instance returns normally whatever the
    zone holds.  A record set of the hostname is removed exactly when
    it holds the addresses of the terminating instance under the TTL
    the handler submits; when it holds other addresses, as after a
    newer instance has taken the name over, or is stored under another
    TTL, it stays as it is, and so does every other record set. *)
Theorem stale_delete_is_harmless (env : Env) (config : HostnameConfig) (id : string)
  (s : State) :
  no_faults env -> Service.known id s = true ->
  is_Some (zones s !! zone_id config) ->
  Service.fqdn (hostname config) = canonical_hostname config ->
  let own := own_ips env id (fleet s) in
  let zid := zone_id config in
  let name := canonical_hostname config in
  exists s',
    single_terminate env config id s = (Ok tt, s')
    /\ fleet s' = fleet s
    /\ record_set s' zid name "A"
       = (if bool_decide (own.1 ≠ ∅
                          /\ record_set s zid name "A" = Some (ROUTE53_TTL env, own.1))
          then None else record_set s zid name "A")
    /\ record_set s' zid name "AAAA"
       = (if bool_decide (own.2 ≠ ∅
                          /\ record_set s zid name "AAAA" = Some (ROUTE53_TTL env, own.2))
          then None else record_set s zid name "AAAA")
    /\ (forall z n T, (z, n, T) <> (zid, name, "A") -> (z, n, T) <> (zid, name, "AAAA") ->
          record_set s' z n T = record_set s z n T).
Proof.
  intros Hnf Hknown Hzone Hfq own zid name. subst zid name.
  destruct (fetch_ip_from_ec2_reads env id s Hnf Hknown) as [s1 [E1 [Hz1 Hf1]]].
  unfold same_zones in Hz1. unfold same_fleet in Hf1. fold own in E1.
  assert (Hrec1 : forall z n T, record_set s1 z n T = record_set s z n T)
    by (intros z n T; unfold record_set; by rewrite Hz1).
  destruct (guarded_delete_settles env config own.1 "A" s1 Hnf) as [s2 H2];
    [by rewrite Hz1 | exact Hfq |].
  destruct H2 as [E2 [Hf2 [Hzone2 Hrec2]]].
  destruct (guarded_delete_settles env config own.2 "AAAA" s2 Hnf Hzone2 Hfq)
    as [s3 [E3 [Hf3 [_ Hrec3]]]].
  exists s3. split; [|split; [congruence|split; [|split]]].
  - rewrite (single_terminate_run env config id s s1 own E1), E2. exact E3.
  - rewrite Hrec3, bool_decide_eq_false_2 by (intros [E _]; discriminate E).
    rewrite Hrec2, Hrec1. apply (f_equal (fun b : bool => if b then _ else _)).
    apply bool_decide_ext. tauto.
  - rewrite Hrec3, Hrec2.
    rewrite (bool_decide_eq_false_2
               ((zone_id config, canonical_hostname config, "AAAA")
                = (zone_id config, canonical_hostname config, "A") /\ _))
      by (intros [E _]; discriminate E).
    rewrite Hrec1. apply (f_equal (fun b : bool => if b then _ else _)).
    apply bool_decide_ext. tauto.
  - intros z n T HA HB. rewrite Hrec3, bool_decide_eq_false_2 by tauto.
    rewrite Hrec2, bool_decide_eq_false_2 by tauto. apply Hrec1.
Qed.

(** One family of a launch (lines 359-360). *)
Lemma launch_family (env : Env) (config : HostnameConfig) (new : gset string)
  (rt : string) (s : State) :
  no_faults env -> is_Some (zones s !! zone_id config) ->
  Service.fqdn (hostname config) = canonical_hostname config ->
  (forall ttl, record_set s (zone_id config) (canonical_hostname config) rt
               <> Some (ttl, ∅)) ->
  exists s',
    (if bool_decide (new ≠ ∅)
     then change_records env config
            (directory s (zone_id config) (canonical_hostname config) rt) new rt
     else mret tt) s = (Ok tt, s')
    /\ fleet s' = fleet s
    /\ is_Some (zones s' !! zone_id config)
    /\ directory s' (zone_id config) (canonical_hostname config) rt
       = (if bool_decide (new ≠ ∅) then new
          else directory s (zone_id config) (canonical_hostname config) rt)
    /\ (forall T name, T <> rt ->
          record_set s' (zone_id config) name T = record_set s (zone_id config) name T).
Proof.
  intros Hnf Hzone Hfq Hwf. destruct (bool_decide_reflect (new ≠ ∅)) as [Hnew|Hnew].
  - destruct (change_records_converges env config new rt s Hnf Hzone Hfq Hwf
                (or_introl Hnew))
      as [s' [E [Hfl [Hz [Hd [_ Hframe]]]]]].
    exists s'. tauto.
  - exists s. repeat split; try reflexivity. exact Hzone.
Qed.

(** X13.  Single mode, a launch: when no service fails and the
    instance is known, one pass returns and leaves, for each family in
    which the launched instance has addresses, the directory's set
    equal to exactly these addresses, whatever it held before; the set
    of a family in which the instance has none is the one it was. *)
Theorem single_launch_takes_over (env : Env) (config : HostnameConfig) (asg id : string)
  (s : State) :
  no_faults env -> is_single config = true ->
  is_Some (zones s !! zone_id config) ->
  Service.fqdn (hostname config) = canonical_hostname config ->
  well_formed s -> Service.known id s = true ->
  let own := own_ips env id (fleet s) in
  let zid := zone_id config in
  let name := canonical_hostname config in
  exists s',
    reconcile env config asg {[id]} ∅ s = (Ok tt, s')
    /\ directory s' zid name "A"
       = (if bool_decide (own.1 ≠ ∅) then own.1 else directory s zid name "A")
    /\ directory s' zid name "AAAA"
       = (if bool_decide (own.2 ≠ ∅) then own.2 else directory s zid name "AAAA").
Proof.
  intros Hnf Hsingle Hzone Hfq Hwf Hknown own zid name. subst zid name.
  destruct (fetch_values_from_route53_reads env config "A" s Hnf Hzone Hfq)
    as [s1 [E1 [Hz1 Hf1]]].
  unfold same_zones in Hz1. unfold same_fleet in Hf1.
  assert (Hzone1 : is_Some (zones s1 !! zone_id config)) by (by rewrite Hz1).
  destruct (fetch_values_from_route53_reads env config "AAAA" s1 Hnf Hzone1 Hfq)
    as [s2 [E2 [Hz2 Hf2]]].
  unfold same_zones in Hz2. unfold same_fleet in Hf2.
  assert (Hknown2 : Service.known id s2 = true).
  { unfold Service.known in *. by rewrite Hf2, Hf1. }
  destruct (fetch_ip_from_ec2_reads env id s2 Hnf Hknown2) as [s3 [E3 [Hz3 Hf3]]].
  unfold same_zones in Hz3. unfold same_fleet in Hf3.
  assert (Hzs : zones s3 = zones s) by congruence.
  assert (Hdir : forall T, directory s3 (zone_id config) (canonical_hostname config) T
                           = directory s (zone_id config) (canonical_hostname config) T)
    by (intros T; unfold directory, record_set; by rewrite Hzs).
  assert (Hd1 : directory s1 (zone_id config) (canonical_hostname config) "AAAA"
                = directory s (zone_id config) (canonical_hostname config) "AAAA")
    by (unfold directory, record_set; by rewrite Hz1).
  assert (Hown : own_ips env id (fleet s2) = own) by (unfold own; congruence).
  destruct (launch_family env config own.1 "A" s3 Hnf) as [s4 H4].
  { by rewrite Hzs. }
  { exact Hfq. }
  { intros ttl. unfold record_set. rewrite Hzs. apply Hwf. }
  destruct H4 as [E4 [Hf4 [Hzone4 [HdA Hframe4]]]].
  destruct (launch_family env config own.2 "AAAA" s4 Hnf Hzone4 Hfq) as [s5 H5].
  { intros ttl. rewrite Hframe4 by discriminate. unfold record_set. rewrite Hzs.
    apply Hwf. }
  destruct H5 as [E5 [Hf5 [Hzone5 [HdB Hframe5]]]].
  assert (Hd4 : directory s4 (zone_id config) (canonical_hostname config) "AAAA"
                = directory s (zone_id config) (canonical_hostname config) "AAAA").
  { rewrite <- Hdir. unfold directory. by rewrite Hframe4. }
  exists s5. split; [|split].
  - unfold reconcile. rewrite (bind_ok _ _ _ _ _ E1), (bind_ok _ _ _ _ _ E2), Hsingle.
    unfold single_mode. rewrite elements_singleton, elements_empty. simpl.
    unfold single_launch. rewrite !bind_eq, E3, Hown.
    destruct own as [own4 own6]. simpl in *.
    rewrite Hdir in E4. rewrite !bind_eq, E4.
    rewrite Hd1. rewrite Hd4 in E5. rewrite bind_eq, E5. reflexivity.
  - unfold directory. rewrite Hframe5 by discriminate.
    fold (directory s4 (zone_id config) (canonical_hostname config) "A").
    rewrite HdA. by rewrite Hdir.
  - rewrite HdB. by rewrite Hd4.
Qed.


(** ** More on Multi mode *)

(** One pass in Multi mode over a directory that already holds the
    membership: reads only. *)
Lemma converged_pass (env : Env) (config : HostnameConfig) (asg : string)
  (launch_ids terminate_ids : gset string) (s : State) :
  no_faults env -> is_single config = false ->
  is_Some (zones s !! zone_id config) ->
  Service.fqdn (hostname config) = canonical_hostname config ->
  directory s (zone_id config) (canonical_hostname config) "A"
  = (live_ips env asg terminate_ids (fleet s)).1 ->
  directory s (zone_id config) (canonical_hostname config) "AAAA"
  = (live_ips env asg terminate_ids (fleet s)).2 ->
  exists s',
    reconcile env config asg launch_ids terminate_ids s = (Ok tt, s')
    /\ zones s' = zones s /\ fleet s' = fleet s
    /\ Forall (fun c => changes c = false) (new_calls s s').
Proof.
  intros Hnf Hmulti Hzone Hfq HA HB.
  destruct (fetch_values_from_route53_reads env config "A" s Hnf Hzone Hfq)
    as [s1 [E1 [Hz1 Hf1]]].
  unfold same_zones in Hz1. unfold same_fleet in Hf1.
  assert (Hzone1 : is_Some (zones s1 !! zone_id config)) by (by rewrite Hz1).
  destruct (fetch_values_from_route53_reads env config "AAAA" s1 Hnf Hzone1 Hfq)
    as [s2 [E2 [Hz2 Hf2]]].
  unfold same_zones in Hz2. unfold same_fleet in Hf2.
  destruct (fetch_instance_ips_reads env asg terminate_ids s2 Hnf)
    as [s3 [E3 [Hz3 Hf3]]].
  unfold same_zones in Hz3. unfold same_fleet in Hf3.
  assert (Hd1 : directory s1 (zone_id config) (canonical_hostname config) "AAAA"
                = directory s (zone_id config) (canonical_hostname config) "AAAA")
    by (unfold directory, record_set; by rewrite Hz1).
  assert (HC : live_ips env asg terminate_ids (fleet s2)
               = live_ips env asg terminate_ids (fleet s)) by congruence.
  set (P := fun c => changes c = false).
  assert (H1 : emits P s s1).
  { assert (K : keeps (emits P) (fetch_values_from_route53 env config "A"))
      by (apply keeps_fetch_values_from_route53; [exact _|];
          intros s0; by apply emits_add_call).
    specialize (K s). by rewrite E1 in K. }
  assert (H2 : emits P s1 s2).
  { assert (K : keeps (emits P) (fetch_values_from_route53 env config "AAAA"))
      by (apply keeps_fetch_values_from_route53; [exact _|];
          intros s0; by apply emits_add_call).
    specialize (K s1). by rewrite E2 in K. }
  assert (H3 : emits P s2 s3).
  { assert (K : keeps (emits P) (fetch_instance_ips env asg terminate_ids))
      by (apply keeps_fetch_instance_ips; [exact _|];
          intros s0; by apply emits_add_call).
    specialize (K s2). by rewrite E3 in K. }
  exists (add_log INFO "No change in %s %s records %s"
            (add_log INFO "No change in %s %s records %s" s3)).
  split; [|split; [simpl; congruence|split; [simpl; congruence|]]].
  - unfold reconcile. rewrite (bind_ok _ _ _ _ _ E1), (bind_ok _ _ _ _ _ E2), Hmulti.
    unfold multi_mode. rewrite (bind_ok _ _ _ _ _ E3), HC, Hd1, HA, HB.
    destruct (live_ips env asg terminate_ids (fleet s)) as [C4 C6]. simpl.
    unfold change_records. rewrite !bool_decide_eq_true_2 by reflexivity.
    reflexivity.
  - apply emits_new_calls.
    transitivity s1; [exact H1|]. transitivity s2; [exact H2|].
    transitivity s3; [exact H3|]. apply emits_same_calls. reflexivity.
Qed.

(** A pass in Multi mode that returns has brought both families to
    the membership: a pass that cannot do so ends with the rejection of
    its DELETE. *)
Lemma multi_pass_returned (env : Env) (config : HostnameConfig) (asg : string)
  (launch_ids terminate_ids : gset string) (s s1 : State) :
  no_faults env -> is_single config = false ->
  is_Some (zones s !! zone_id config) ->
  Service.fqdn (hostname config) = canonical_hostname config ->
  well_formed s ->
  reconcile env config asg launch_ids terminate_ids s = (Ok tt, s1) ->
  fleet s1 = fleet s
  /\ is_Some (zones s1 !! zone_id config)
  /\ directory s1 (zone_id config) (canonical_hostname config) "A"
     = (live_ips env asg terminate_ids (fleet s)).1
  /\ directory s1 (zone_id config) (canonical_hostname config) "AAAA"
     = (live_ips env asg terminate_ids (fleet s)).2.
Proof.
  intros Hnf Hmulti Hzone Hfq Hwf E.
  assert (Hdec : forall T C, deletable env s (zone_id config) (canonical_hostname config) T C
                             \/ ~ deletable env s (zone_id config)
                                    (canonical_hostname config) T C).
  { intros T C. unfold deletable, configured_ttl.
    destruct (decide (C = ∅)) as [->|HC]; [|by left; left].
    destruct (stored_ttl s (zone_id config) (canonical_hostname config) T) as [ttl|];
      [|by left; right; left].
    destruct (decide (ttl = ROUTE53_TTL env)) as [->|Hne]; [by left; right; right|].
    right. intros [H|[H|H]]; [by apply H | discriminate | congruence]. }
  destruct (Hdec "A" (live_ips env asg terminate_ids (fleet s)).1) as [HtA|HtA].
  2:{ destruct (multi_pass_rejected_ipv4 env config asg launch_ids terminate_ids s
                  Hnf Hmulti Hzone Hfq Hwf HtA) as [s' [E' _]]. congruence. }
  destruct (Hdec "AAAA" (live_ips env asg terminate_ids (fleet s)).2) as [HtB|HtB].
  2:{ destruct (multi_pass_rejected_ipv6 env config asg launch_ids terminate_ids s
                  Hnf Hmulti Hzone Hfq Hwf HtA HtB) as [s' [E' _]]. congruence. }
  destruct (multi_pass env config asg launch_ids terminate_ids s
              Hnf Hmulti Hzone Hfq Hwf HtA HtB) as [s' [E' [Hfl [Hz [HA [HB _]]]]]].
  assert (s' = s1) by congruence. subst s'. tauto.
Qed.

(** X14.  Idempotence in Multi mode: when no service fails, a pass
    right after a pass that has returned returns as well, submits no
    mutation and leaves every zone as the first pass left it. *)
Theorem multi_mode_is_idempotent (env : Env) (config : HostnameConfig) (asg : string)
  (launch_ids terminate_ids : gset string) (s s1 : State) :
  no_faults env -> is_single config = false ->
  is_Some (zones s !! zone_id config) ->
  Service.fqdn (hostname config) = canonical_hostname config ->
  well_formed s ->
  reconcile env config asg launch_ids terminate_ids s = (Ok tt, s1) ->
  exists s2,
    reconcile env config asg launch_ids terminate_ids s1 = (Ok tt, s2)
    /\ zones s2 = zones s1
    /\ Forall (fun c => changes c = false) (new_calls s1 s2).
Proof.
  intros Hnf Hmulti Hzone Hfq Hwf E1.
  destruct (multi_pass_returned env config asg launch_ids terminate_ids s s1
              Hnf Hmulti Hzone Hfq Hwf E1) as [Hfl [Hzone1 [HA HB]]].
  rewrite <- Hfl in HA, HB.
  destruct (converged_pass env config asg launch_ids terminate_ids s1
              Hnf Hmulti Hzone1 Hfq HA HB) as [s2 [E2 [Hzs [_ Hcalls]]]].
  exists s2. tauto.
Qed.

(** ** More on the batch *)

Lemma complete_signals (env : Env) (msg : Message) (s s1 : State) :
  complete env msg s = (Ok tt, s1) -> calls s1 = signal msg ++ calls s.
Proof.
  unfold signal.
  destruct (msg !! LIFECYCLE_KEY) as [hook|] eqn:Hh;
    [|unfold complete; rewrite Hh;
      rewrite (bool_decide_eq_false_2 (is_Some None)) by (intros [x Hx]; discriminate);
      by intros [= <-]].
  destruct (msg !! ASG_KEY) as [asg|] eqn:Ha;
    [|unfold complete; rewrite Hh, Ha;
      rewrite (bool_decide_eq_false_2 (is_Some None)) by (intros [x Hx]; discriminate);
      rewrite andb_false_r; by intros [= <-]].
  destruct (msg !! "EC2InstanceId") as [id|] eqn:Hi.
  - destruct (msg !! "LifecycleActionToken") as [token|] eqn:Ht.
    + rewrite (complete_run env msg s hook asg id token Hh Ha Hi Ht).
      destruct (faults env _ _) as [[code| |]|]; intros [= <-]; reflexivity.
    + unfold complete. rewrite Hh, Ha.
      rewrite !bool_decide_eq_true_2 by eauto. cbn [andb]. mrun.
      unfold try_except. unfold LIFECYCLE_KEY, ASG_KEY in Hh, Ha.
      rewrite (bind_getitem _ _ _ _ _ Hh), (bind_getitem _ _ _ _ _ Ha),
        (bind_getitem _ _ _ _ _ Hi), (bind_getitem_missing _ _ _ _ Ht).
      discriminate.
  - unfold complete. rewrite Hh, Ha.
    rewrite !bool_decide_eq_true_2 by eauto. cbn [andb]. mrun.
    unfold try_except. unfold LIFECYCLE_KEY, ASG_KEY in Hh, Ha.
    rewrite (bind_getitem _ _ _ _ _ Hh), (bind_getitem _ _ _ _ _ Ha),
      (bind_getitem_missing _ _ _ _ Hi).
    discriminate.
Qed.

Lemma filter_signal (msg : Message) : List.filter completion (signal msg) = signal msg.
Proof.
  unfold signal.
  destruct (msg !! LIFECYCLE_KEY), (msg !! ASG_KEY), (msg !! "EC2InstanceId"),
    (msg !! "LifecycleActionToken"); reflexivity.
Qed.

Lemma handle_signals (env : Env) (msg : Message) (s s1 : State) :
  handle env msg s = (Ok tt, s1) ->
  exists l, calls s1 = l ++ calls s /\ List.filter completion l = signal msg.
Proof.
  unfold handle. rewrite bind_eq.
  destruct (process_record env msg s) as [[[]|e] s0] eqn:E0; [|discriminate].
  intros E1. apply complete_signals in E1.
  destruct (process_record_calls _ _ _ _ _ E0) as [Hc Hn].
  exists (signal msg ++ new_calls s s0). split.
  - rewrite E1, Hc at 1. by rewrite app_assoc.
  - rewrite List.filter_app, filter_signal, (filter_none _ _ Hn). apply app_nil_r.
Qed.

Lemma for_each_signals (env : Env) (events : list Message) (s s' : State) :
  for_each events (handle env) s = (Ok tt, s') ->
  exists l, calls s' = l ++ calls s
            /\ List.filter completion l = concat (map signal (rev events)).
Proof.
  revert s. induction events as [|m r IH]; intros s; simpl.
  - intros [= <-]. by exists [].
  - rewrite bind_eq. destruct (handle env m s) as [[[]|e] s1] eqn:Em; [|discriminate].
    intros Er. destruct (handle_signals _ _ _ _ Em) as [lm [Hm Fm]].
    destruct (IH _ Er) as [lr [Hr Fr]].
    exists (lr ++ lm). split.
    + rewrite Hr, Hm. by rewrite app_assoc.
    + rewrite List.filter_app, Fr, Fm, map_app, concat_app. simpl.
      by rewrite app_nil_r.
Qed.

(** X15.  When [lambda_handler] returns normally, the completion
    signals it has sent are exactly those of the events that carry the
    four completion fields, one for each, in the order of the batch
    (latest first in the history of calls). *)
Theorem handler_signals_every_event (env : Env) (events : list Message) (s s' : State) :
  lambda_handler env events s = (Ok tt, s') ->
  List.filter completion (new_calls s s') = concat (map signal (rev events)).
Proof.
  unfold lambda_handler. mrun. intros E.
  destruct (for_each_signals _ _ _ _ E) as [l [Hc Hf]].
  by rewrite (new_calls_app s s' l Hc).
Qed.


(** ** The further properties at the scenarios *)

(** X2 at the group [web]. *)
Lemma hostname_zone_round_trip_witness :
  faults env (calls state0) (DescribeTags "web") = None
  /\ asg_tags env "web" !! HOSTNAME_TAG_NAME = Some ("www.example.com" +:+ String "@" "Z1")
  /\ PyStr.count "@" "www.example.com" = 0%nat
  /\ default MODE_DEFAULT (asg_tags env "web" !! MODE_TAG_NAME) ∈ MODES_VALID
  /\ exists s1,
       from_asg_name env "web" state0
       = (Ok (Some (mkConfig "web" "www.example.com" "Z1"
                      (default MODE_DEFAULT (asg_tags env "web" !! MODE_TAG_NAME)))), s1)
       /\ (asg_tags env "web" !! MODE_TAG_NAME = None ->
           is_single (mkConfig "web" "www.example.com" "Z1"
                        (default MODE_DEFAULT (asg_tags env "web" !! MODE_TAG_NAME)))
           = false).
Proof.
  assert (H1 : faults env (calls state0) (DescribeTags "web") = None) by reflexivity.
  assert (H2 : asg_tags env "web" !! HOSTNAME_TAG_NAME
               = Some ("www.example.com" +:+ String "@" "Z1"))
    by (vm_compute; reflexivity).
  assert (H3 : PyStr.count "@" "www.example.com" = 0%nat) by reflexivity.
  assert (H4 : default MODE_DEFAULT (asg_tags env "web" !! MODE_TAG_NAME) ∈ MODES_VALID)
    by evaluate.
  repeat (split; [assumption|]).
  exact (hostname_zone_round_trip env "web" "www.example.com" "Z1" state0 H1 H2 H3 H4).
Defined.

(** X3 at the group [weird]. *)
Lemma unknown_mode_is_refused_witness :
  faults env_modes (calls state0) (DescribeTags "weird") = None
  /\ (1 <= PyStr.count "@" (default "" (asg_tags env_modes "weird" !! HOSTNAME_TAG_NAME)))%nat
  /\ (default MODE_DEFAULT (asg_tags env_modes "weird" !! MODE_TAG_NAME) ∉ MODES_VALID)
  /\ exists s1, from_asg_name env_modes "weird" state0
                = (Ok None,
                   add_log ERROR "Tag %s for ASG %s value %s is an unknown mode." s1).
Proof.
  assert (H1 : faults env_modes (calls state0) (DescribeTags "weird") = None)
    by reflexivity.
  assert (H2 : (1 <= PyStr.count "@"
                      (default "" (asg_tags env_modes "weird" !! HOSTNAME_TAG_NAME)))%nat)
    by (vm_compute; lia).
  assert (H3 : default MODE_DEFAULT (asg_tags env_modes "weird" !! MODE_TAG_NAME)
               ∉ MODES_VALID) by evaluate.
  repeat (split; [assumption|]).
  exact (proj1 (unknown_mode_is_refused env_modes "weird" state0 H1 H2 H3)).
Defined.

(** X5 at the A set of [db]: the listing starts at the AAAA record set
    of [db], which the reader discards. *)
Lemma reader_returns_the_record_set_witness :
  fetch_values_from_route53 env solo "A" state0
  = (Ok ∅, (fetch_values_from_route53 env solo "A" state0).2)
  /\ Service.fqdn (hostname solo) = canonical_hostname solo
  /\ Service.list_from ("db.example.com.", "A") zone0
     = [mkRRSet "db.example.com." "AAAA" ["2001:db8::4"]]
  /\ (∅ : gset string) = directory state0 "Z1" "db.example.com." "A"
  /\ new_calls state0 (fetch_values_from_route53 env solo "A" state0).2
     = [ListResourceRecordSets "Z1" "db.example.com" "A"].
Proof.
  assert (H1 : fetch_values_from_route53 env solo "A" state0
               = (Ok ∅, (fetch_values_from_route53 env solo "A" state0).2))
    by (vm_compute; reflexivity).
  assert (H2 : Service.fqdn (hostname solo) = canonical_hostname solo) by reflexivity.
  split; [exact H1|]. split; [exact H2|]. split; [vm_compute; reflexivity|].
  destruct (reader_returns_the_record_set env solo "A" state0 _ ∅ H1 H2)
    as [Hv [Hc _]].
  split; [exact Hv | exact Hc].
Defined.

(** X6 at [i-2], which is tagged as terminating: its addresses are
    returned all the same. *)
Lemma fetch_ip_from_ec2_is_unfiltered_witness :
  fetch_ip_from_ec2 env "i-2" state0
  = (Ok ({[ "10.0.0.2" ]}, {[ "2001:db8::2" ]}), (fetch_ip_from_ec2 env "i-2" state0).2)
  /\ ("10.0.0.2" ∈ ({[ "10.0.0.2" ]} : gset string) <->
      exists i, In i (instances (fleet state0)) /\ InstanceId i = "i-2"
                /\ IPV4_FIELD env i = Some "10.0.0.2").
Proof.
  assert (H : fetch_ip_from_ec2 env "i-2" state0
              = (Ok ({[ "10.0.0.2" ]}, {[ "2001:db8::2" ]}),
                 (fetch_ip_from_ec2 env "i-2" state0).2))
    by (vm_compute; reflexivity).
  split; [exact H|].
  exact (proj1 (fetch_ip_from_ec2_is_unfiltered env "i-2" state0 _ _ _ H "10.0.0.2")).
Defined.

(** X7 at the termination of the only member of [web]. *)
Lemma terminating_event_tags_first_witness :
  event TERMINATING "i-1" "web" !! "LifecycleTransition" = Some TERMINATING
  /\ (TERMINATING = TERMINATING \/ TERMINATING = LAUNCH_ERROR)
  /\ event TERMINATING "i-1" "web" !! "EC2InstanceId" = Some "i-1"
  /\ exists later,
       new_calls state1 (process_message env (event TERMINATING "i-1" "web") state1).2
       = later ++ [CreateTags "i-1" TERMINATING_TAG_NAME TERMINATING_TAG_VALUE].
Proof.
  assert (H1 : event TERMINATING "i-1" "web" !! "LifecycleTransition" = Some TERMINATING)
    by (vm_compute; reflexivity).
  assert (H2 : TERMINATING = TERMINATING \/ TERMINATING = LAUNCH_ERROR) by (by left).
  assert (H3 : event TERMINATING "i-1" "web" !! "EC2InstanceId" = Some "i-1")
    by (vm_compute; reflexivity).
  repeat (split; [assumption|]).
  exact (terminating_event_tags_first env _ TERMINATING "i-1" state1 H1 H2 H3).
Defined.

(** X8 at [state2]: after [i-1] is tagged, only the address of [i-3]
    is returned, and it is held by another instance than [i-1]. *)
Lemma tagged_instance_is_not_counted_witness :
  set_terminating_tag env "i-1" state2
  = (Ok tt, (set_terminating_tag env "i-1" state2).2)
  /\ fetch_instance_ips env "web" ∅ (set_terminating_tag env "i-1" state2).2
     = (Ok ({[ "10.0.0.3" ]}, ∅),
        (fetch_instance_ips env "web" ∅ (set_terminating_tag env "i-1" state2).2).2)
  /\ ("10.0.0.3" ∈ ({[ "10.0.0.3" ]} : gset string) ->
      exists i, In i (instances (fleet state2)) /\ InstanceId i <> "i-1"
                /\ IPV4_FIELD env i = Some "10.0.0.3").
Proof.
  assert (H1 : set_terminating_tag env "i-1" state2
               = (Ok tt, (set_terminating_tag env "i-1" state2).2))
    by (vm_compute; reflexivity).
  assert (H2 : fetch_instance_ips env "web" ∅ (set_terminating_tag env "i-1" state2).2
               = (Ok ({[ "10.0.0.3" ]}, ∅),
                  (fetch_instance_ips env "web" ∅
                     (set_terminating_tag env "i-1" state2).2).2))
    by (vm_compute; reflexivity).
  split; [exact H1|]. split; [exact H2|].
  exact (proj1 (tagged_instance_is_not_counted env "i-1" "web" ∅ state2 _ _ _ _ H1 H2
                  "10.0.0.3")).
Defined.

(** X9 at a transition of an unknown kind. *)
Lemma unknown_event_has_no_effect_witness :
  (forall t, odd_event !! "LifecycleTransition" = Some t ->
             t <> LAUNCHING /\ t <> TERMINATING /\ t <> LAUNCH_ERROR)
  /\ quiet state0 (process_message env odd_event state0).2
  /\ (process_message env odd_event state0).1 = Ok tt.
Proof.
  assert (H : forall t, odd_event !! "LifecycleTransition" = Some t ->
                        t <> LAUNCHING /\ t <> TERMINATING /\ t <> LAUNCH_ERROR).
  { intros t E. vm_compute in E. injection E as <-. repeat split; discriminate. }
  split; [exact H|].
  destruct (unknown_event_has_no_effect env odd_event state0 H) as [Hq Hr].
  split; [exact Hq|]. rewrite Hr. reflexivity.
Defined.

(** X10 at a terminating event that names no group: [i-1] is tagged and
    the key error is raised. *)
Lemma terminating_event_without_group_witness :
  orphan_event !! "LifecycleTransition" = Some TERMINATING
  /\ orphan_event !! "EC2InstanceId" = Some "i-1"
  /\ orphan_event !! "AutoScalingGroupName" = None
  /\ new_calls state1 (process_message env orphan_event state1).2
     = [CreateTags "i-1" TERMINATING_TAG_NAME TERMINATING_TAG_VALUE]
  /\ (process_message env orphan_event state1).1
     = Raise (KeyError "AutoScalingGroupName").
Proof.
  assert (H1 : orphan_event !! "LifecycleTransition" = Some TERMINATING)
    by (vm_compute; reflexivity).
  assert (H2 : orphan_event !! "EC2InstanceId" = Some "i-1") by (vm_compute; reflexivity).
  assert (H3 : orphan_event !! "AutoScalingGroupName" = None)
    by (vm_compute; reflexivity).
  repeat (split; [assumption|]).
  destruct (terminating_event_without_group env orphan_event TERMINATING "i-1" state1
              H1 (or_introl eq_refl) H2 H3) as [Hc Hr].
  split; [exact Hc|].
  rewrite (Hr (set_terminating_tag env "i-1"
                 (add_log INFO "Processing message: %s"
                    (add_log INFO "Processing %s lifecycle transition" state1))).2);
    [reflexivity | vm_compute; reflexivity].
Defined.


(** X11 at [state4].  The termination of [i-5] removes its A record
    and leaves the AAAA record, which is stored under another TTL; the
    termination of [i-6], whose address is not the one on record,
    leaves the A record to [i-5]. *)
Lemma stale_delete_is_harmless_witness :
  no_faults env /\ Service.known "i-5" state4 = true /\ Service.known "i-6" state4 = true
  /\ is_Some (zones state4 !! zone_id solo)
  /\ Service.fqdn (hostname solo) = canonical_hostname solo
  /\ (exists s',
        single_terminate env solo "i-5" state4 = (Ok tt, s')
        /\ record_set s' "Z1" "db.example.com." "A" = None
        /\ record_set s' "Z1" "db.example.com." "AAAA" = Some (300, {[ "2001:db8::5" ]}))
  /\ (exists s',
        single_terminate env solo "i-6" state4 = (Ok tt, s')
        /\ record_set s' "Z1" "db.example.com." "A" = Some (60, {[ "10.0.0.5" ]})).
Proof.
  assert (H1 : no_faults env) by (intros h c; reflexivity).
  assert (H2 : Service.known "i-5" state4 = true) by reflexivity.
  assert (H3 : Service.known "i-6" state4 = true) by reflexivity.
  assert (H4 : is_Some (zones state4 !! zone_id solo)) by evaluate.
  assert (H5 : Service.fqdn (hostname solo) = canonical_hostname solo) by reflexivity.
  repeat (split; [assumption|]). split.
  - destruct (stale_delete_is_harmless env solo "i-5" state4 H1 H2 H4 H5)
      as [s' [E [_ [HA [HB _]]]]].
    exists s'. split; [exact E|]. split.
    + refine (eq_trans HA _). vm_compute. reflexivity.
    + refine (eq_trans HB _). vm_compute. reflexivity.
  - destruct (stale_delete_is_harmless env solo "i-6" state4 H1 H3 H4 H5)
      as [s' [E [_ [HA _]]]].
    exists s'. split; [exact E|].
    refine (eq_trans HA _). vm_compute. reflexivity.
Defined.

(** X13 at the launch of [i-5] in [solo]: the A set becomes its
    address, the AAAA set stays. *)
Lemma single_launch_takes_over_witness :
  no_faults env /\ is_single solo = true /\ is_Some (zones state0 !! zone_id solo)
  /\ Service.fqdn (hostname solo) = canonical_hostname solo /\ well_formed state0
  /\ Service.known "i-5" state0 = true
  /\ exists s',
       reconcile env solo "solo" {[ "i-5" ]} ∅ state0 = (Ok tt, s')
       /\ directory s' "Z1" "db.example.com." "A" = {[ "10.0.0.5" ]}
       /\ directory s' "Z1" "db.example.com." "AAAA" = {[ "2001:db8::4" ]}.
Proof.
  assert (H1 : no_faults env) by (intros h c; reflexivity).
  assert (H2 : is_single solo = true) by reflexivity.
  assert (H3 : is_Some (zones state0 !! zone_id solo)) by evaluate.
  assert (H4 : Service.fqdn (hostname solo) = canonical_hostname solo) by reflexivity.
  assert (H5 : well_formed state0) by (apply well_formed_zones_sound; evaluate).
  assert (H6 : Service.known "i-5" state0 = true) by reflexivity.
  repeat (split; [assumption|]).
  destruct (single_launch_takes_over env solo "solo" "i-5" state0 H1 H2 H3 H4 H5 H6)
    as [s' [E [HA HB]]].
  exists s'. split; [exact E|]. split.
  - refine (eq_trans HA _). vm_compute. reflexivity.
  - refine (eq_trans HB _). vm_compute. reflexivity.
Defined.

(** X14 at [state0]: the pass after the first pass over [web] submits
    nothing. *)
Lemma multi_mode_is_idempotent_witness :
  no_faults env /\ is_single web = false /\ is_Some (zones state0 !! zone_id web)
  /\ Service.fqdn (hostname web) = canonical_hostname web /\ well_formed state0
  /\ reconcile env web "web" ∅ ∅ state0
     = (Ok tt, (reconcile env web "web" ∅ ∅ state0).2)
  /\ exists s2,
       reconcile env web "web" ∅ ∅ (reconcile env web "web" ∅ ∅ state0).2 = (Ok tt, s2)
       /\ zones s2 = zones (reconcile env web "web" ∅ ∅ state0).2
       /\ Forall (fun c => changes c = false)
            (new_calls (reconcile env web "web" ∅ ∅ state0).2 s2).
Proof.
  assert (H1 : no_faults env) by (intros h c; reflexivity).
  assert (H2 : is_single web = false) by reflexivity.
  assert (H3 : is_Some (zones state0 !! zone_id web)) by evaluate.
  assert (H4 : Service.fqdn (hostname web) = canonical_hostname web) by reflexivity.
  assert (H5 : well_formed state0) by (apply well_formed_zones_sound; evaluate).
  assert (H6 : reconcile env web "web" ∅ ∅ state0
               = (Ok tt, (reconcile env web "web" ∅ ∅ state0).2))
    by (vm_compute; reflexivity).
  repeat (split; [assumption|]).
  exact (multi_mode_is_idempotent env web "web" ∅ ∅ state0 _ H1 H2 H3 H4 H5 H6).
Defined.

(** X15 at a batch of a launch in [solo], a notification without the
    completion fields of an instance and token, and a launch in
    [web]. *)
Lemma handler_signals_every_event_witness :
  lambda_handler env [event LAUNCHING "i-5" "solo"; odd_event; event LAUNCHING "i-1" "web"]
    state0
  = (Ok tt,
     (lambda_handler env
        [event LAUNCHING "i-5" "solo"; odd_event; event LAUNCHING "i-1" "web"] state0).2)
  /\ List.filter completion
       (new_calls state0
          (lambda_handler env
             [event LAUNCHING "i-5" "solo"; odd_event; event LAUNCHING "i-1" "web"]
             state0).2)
     = [CompleteLifecycleAction "hook" "web" "i-1" "token";
        CompleteLifecycleAction "hook" "solo" "i-5" "token"].
Proof.
  assert (H : lambda_handler env
                [event LAUNCHING "i-5" "solo"; odd_event; event LAUNCHING "i-1" "web"]
                state0
              = (Ok tt,
                 (lambda_handler env
                    [event LAUNCHING "i-5" "solo"; odd_event; event LAUNCHING "i-1" "web"]
                    state0).2))
    by (vm_compute; reflexivity).
  split; [exact H|].
  rewrite (handler_signals_every_event env _ state0 _ H). vm_compute. reflexivity.
Defined.

(** ** A terminating event, end to end *)

Lemma set_terminating_tag_runs (env : Env) (id : string) (s : State) :
  no_faults env -> Service.known id s = true ->
  exists s1, set_terminating_tag env id s = (Ok tt, s1) /\ zones s1 = zones s.
Proof.
  intros Hnf Hknown. unfold set_terminating_tag. mrun. unfold api. rewrite Hnf.
  unfold Service.create_tags.
  change (Service.known id (add_call _ (add_log _ _ s))) with (Service.known id s).
  rewrite Hknown. eexists. split; reflexivity.
Qed.

Lemma set_tag_id (k v : string) (i : Instance) :
  InstanceId (Service.set_tag k v i) = InstanceId i.
Proof. reflexivity. Qed.

(** X16.  Multi mode, a terminating event, end to end: when no service
    fails, the instance is known, the group resolves to a Multi policy
    on an existing zone and the record sets of the hostname, if any,
    are stored under the TTL the handler submits, the event returns
    normally and every address the directory then holds for the
    hostname belongs to an instance other than the terminating one. *)
Theorem terminated_instance_leaves_the_directory (env : Env) (msg : Message)
  (t id asg h z : string) (s : State) :
  no_faults env ->
  msg !! "LifecycleTransition" = Some t -> t = TERMINATING \/ t = LAUNCH_ERROR ->
  msg !! "EC2InstanceId" = Some id -> msg !! "AutoScalingGroupName" = Some asg ->
  asg_tags env asg !! HOSTNAME_TAG_NAME = Some (h +:+ String "@" z) ->
  PyStr.count "@" h = 0%nat ->
  default MODE_DEFAULT (asg_tags env asg !! MODE_TAG_NAME) = MODE_MULTI ->
  Service.known id s = true -> is_Some (zones s !! z) ->
  Service.fqdn h = canonical_hostname (mkConfig asg h z MODE_MULTI) ->
  well_formed s ->
  configured_ttl env s z (canonical_hostname (mkConfig asg h z MODE_MULTI)) "A" ->
  configured_ttl env s z (canonical_hostname (mkConfig asg h z MODE_MULTI)) "AAAA" ->
  exists s',
    process_message env msg s = (Ok tt, s')
    /\ forall a,
         (a ∈ directory s' z (canonical_hostname (mkConfig asg h z MODE_MULTI)) "A" ->
          exists i, In i (instances (fleet s)) /\ InstanceId i <> id
                    /\ IPV4_FIELD env i = Some a)
         /\ (a ∈ directory s' z (canonical_hostname (mkConfig asg h z MODE_MULTI)) "AAAA" ->
             exists i, In i (instances (fleet s)) /\ InstanceId i <> id
                       /\ IPV6_FIELD i = Some a).
Proof.
  intros Hnf Ht Hkind Hi Ha Htag Hh Hmode Hknown Hzone Hfq Hwf HtA HtB.
  rewrite (process_message_terminating env msg t id s Ht Hkind Hi).
  set (s0 := add_log INFO "Processing message: %s"
               (add_log INFO "Processing %s lifecycle transition" s)).
  destruct (set_terminating_tag_runs env id s0 Hnf Hknown) as [s1 [E1 Hz1]].
  pose proof (set_terminating_tag_fleet env id s0 s1 E1) as Hf1.
  rewrite (bind_ok _ _ _ _ _ E1). unfold ASG_KEY in Ha.
  rewrite (bind_getitem _ _ _ _ _ Ha).
  destruct (from_asg_name_answered env asg s1 (Hnf _ _)) as [s1' Ep].
  assert (Hsplit : PyStr.split_first "@"
                     (default "" (asg_tags env asg !! HOSTNAME_TAG_NAME)) = Some (h, z))
    by (rewrite Htag; simpl; by apply split_first_join).
  rewrite (parse_tags_separator asg _ s1' h z Hsplit), Hmode in Ep.
  rewrite bool_decide_eq_true_2 in Ep by (right; left).
  assert (Hw : same_world s1 s1').
  { assert (K : keeps same_world (from_asg_name env asg))
      by (apply keeps_from_asg_name; [exact _|]; intros s2; apply same_world_add_call).
    specialize (K s1). by rewrite Ep in K. }
  destruct Hw as [Hz2 Hf2]. unfold same_zones in Hz2. unfold same_fleet in Hf2.
  assert (Hzs : zones s1' = zones s) by (rewrite Hz2, Hz1; reflexivity).
  destruct (multi_pass env (mkConfig asg h z MODE_MULTI) asg ∅ {[id]} s1' Hnf eq_refl)
    as [s' [Er [_ [_ [HA [HB _]]]]]].
  { simpl. by rewrite Hzs. }
  { exact Hfq. }
  { intros zid name T ttl. unfold record_set. rewrite Hzs. apply Hwf. }
  { right. unfold configured_ttl, stored_ttl, record_set. rewrite Hzs. exact HtA. }
  { right. unfold configured_ttl, stored_ttl, record_set. rewrite Hzs. exact HtB. }
  exists s'. split.
  - rewrite (bind_ok _ _ _ _ _ Ep). exact Er.
  - intros a. simpl in HA, HB. rewrite HA, HB. unfold live_ips.
    rewrite !foldl_concat.
    fold (instances (map (map (List.filter (listed asg))) (fleet s1'))).
    destruct (pick_elem env {[id]}
                (instances (map (map (List.filter (listed asg))) (fleet s1'))) (∅, ∅) a)
      as [H4 H6].
    assert (Hother : forall j, In j (instances (map (map (List.filter (listed asg)))
                                                    (fleet s1'))) ->
                               InstanceId j ∉ ({[id]} : gset string) ->
                               In j (instances (fleet s)) /\ InstanceId j <> id).
    { intros j Hj Hid. apply in_instances_filter in Hj as [Hj _].
      rewrite Hf2, Hf1, instances_map in Hj. apply in_map_iff in Hj as [i [Hij Hin]].
      assert (Hne : InstanceId j <> id) by set_solver.
      destruct (String.eqb_spec (InstanceId i) id) as [Heq|Heq].
      - subst j. rewrite set_tag_id in Hne. contradiction.
      - subst j. split; assumption. }
    split.
    + intros Hin. apply H4 in Hin as [Hin|[j [Hj [Hid [_ Hip]]]]]; [set_solver|].
      destruct (Hother j Hj Hid). exists j. tauto.
    + intros Hin. apply H6 in Hin as [Hin|[j [Hj [Hid [_ Hip]]]]]; [set_solver|].
      destruct (Hother j Hj Hid). exists j. tauto.
Qed.

(** X16 at the termination of [i-1] in [state2]: the directory is left
    with the address of [i-3]. *)
Lemma terminated_instance_leaves_the_directory_witness :
  no_faults env
  /\ event TERMINATING "i-1" "web" !! "LifecycleTransition" = Some TERMINATING
  /\ event TERMINATING "i-1" "web" !! "EC2InstanceId" = Some "i-1"
  /\ event TERMINATING "i-1" "web" !! "AutoScalingGroupName" = Some "web"
  /\ asg_tags env "web" !! HOSTNAME_TAG_NAME = Some ("www.example.com" +:+ String "@" "Z1")
  /\ default MODE_DEFAULT (asg_tags env "web" !! MODE_TAG_NAME) = MODE_MULTI
  /\ Service.known "i-1" state2 = true /\ is_Some (zones state2 !! "Z1")
  /\ well_formed state2
  /\ configured_ttl env state2 "Z1" "www.example.com." "A"
  /\ configured_ttl env state2 "Z1" "www.example.com." "AAAA"
  /\ directory (process_message env (event TERMINATING "i-1" "web") state2).2
       "Z1" "www.example.com." "A" = {[ "10.0.0.3" ]}
  /\ exists s',
       process_message env (event TERMINATING "i-1" "web") state2 = (Ok tt, s')
       /\ ("10.0.0.3" ∈ directory s' "Z1" "www.example.com." "A" ->
           exists i, In i (instances (fleet state2)) /\ InstanceId i <> "i-1"
                     /\ IPV4_FIELD env i = Some "10.0.0.3").
Proof.
  assert (H1 : no_faults env) by (intros c0 c; reflexivity).
  assert (H2 : event TERMINATING "i-1" "web" !! "LifecycleTransition" = Some TERMINATING)
    by (vm_compute; reflexivity).
  assert (H3 : event TERMINATING "i-1" "web" !! "EC2InstanceId" = Some "i-1")
    by (vm_compute; reflexivity).
  assert (H4 : event TERMINATING "i-1" "web" !! "AutoScalingGroupName" = Some "web")
    by (vm_compute; reflexivity).
  assert (H5 : asg_tags env "web" !! HOSTNAME_TAG_NAME
               = Some ("www.example.com" +:+ String "@" "Z1"))
    by (vm_compute; reflexivity).
  assert (H6 : default MODE_DEFAULT (asg_tags env "web" !! MODE_TAG_NAME) = MODE_MULTI)
    by (vm_compute; reflexivity).
  assert (H7 : Service.known "i-1" state2 = true) by reflexivity.
  assert (H8 : is_Some (zones state2 !! "Z1")) by evaluate.
  assert (H9 : well_formed state2) by (apply well_formed_zones_sound; evaluate).
  assert (H10 : configured_ttl env state2 "Z1" "www.example.com." "A")
    by (right; vm_compute; reflexivity).
  assert (H11 : configured_ttl env state2 "Z1" "www.example.com." "AAAA")
    by (left; vm_compute; reflexivity).
  repeat (split; [assumption|]).
  split; [vm_compute; reflexivity|].
  destruct (terminated_instance_leaves_the_directory env _ TERMINATING "i-1" "web"
              "www.example.com" "Z1" state2 H1 H2 (or_introl eq_refl) H3 H4 H5 eq_refl
              H6 H7 H8 eq_refl H9 H10 H11) as [s' [E Hall]].
  exists s'. split; [exact E|]. exact (proj1 (Hall "10.0.0.3")).
Defined.
